(** * awsmap: the output formatters of [aws_inventory/formatter.py]

    A shallow embedding of [format_csv], of the aggregation code of
    [format_html], of the script functions [highlightMatches],
    [clearHighlights] and [filterResources] that the report embeds, and of
    [format_output], followed by the properties of the report engine; then
    [format_detail_key], the buttons of the report ([toggleSection],
    [toggleDetails], [expandAll], [collapseAll], [clearFilters]), the rows
    and counters of [updateDashboard] and the text of [exportCSV], with
    their properties.  [Loose] is [format_output] on inputs where a
    key is bound to [None] or [json.dumps] raises, so that a formatter
    leaves by an exception.

    Modelling conventions.
    - A Python [str] is a [string]; text is taken to be ASCII, so that
      [str.lower] and [str.upper] map the 26 letters and nothing else.
    - A Python [dict] is an association list in insertion order
      ([dict V]): iteration order is first-insertion order, as in Python.
    - [r.get(key, default)] on a resource distinguishes an absent key
      ([Absent]), a key bound to [None] ([Null]) and a key bound to a value.
    - The values of [details] and the scan duration are heterogeneous
      Python objects; they stay abstract ([pyobj]) together with the
      builtin [str] on them.  [json.dumps] and the static text of the HTML
      f-string are likewise parameters of the development. *)

From Stdlib Require Import List String Ascii Bool Arith ZArith NArith Lia.
From Stdlib Require Import Permutation Sorted.
From Stdlib Require Import Numbers.DecimalString.
From Equations Require Import Equations.
Import ListNotations.
Local Open Scope string_scope.
Local Open Scope list_scope.

(** ** Python strings *)

Module PyStr.

Definition dq : string := String (ascii_of_nat 34) EmptyString.
Definition cr : string := String (ascii_of_nat 13) EmptyString.
Definition lf : string := String (ascii_of_nat 10) EmptyString.

Definition is_upper (c : ascii) : bool :=
  ((65 <=? nat_of_ascii c) && (nat_of_ascii c <=? 90))%nat.
Definition is_lower (c : ascii) : bool :=
  ((97 <=? nat_of_ascii c) && (nat_of_ascii c <=? 122))%nat.

Definition lower_char (c : ascii) : ascii :=
  if is_upper c then ascii_of_nat (nat_of_ascii c + 32) else c.
Definition upper_char (c : ascii) : ascii :=
  if is_lower c then ascii_of_nat (nat_of_ascii c - 32) else c.

Fixpoint map_chars (f : ascii -> ascii) (s : string) : string :=
  match s with
  | EmptyString => EmptyString
  | String c s' => String (f c) (map_chars f s')
  end.

(** [s.lower()] and [s.upper()] *)
Definition lower : string -> string := map_chars lower_char.
Definition upper : string -> string := map_chars upper_char.

(** [s.replace(c, by)] for a one-character [c] *)
Fixpoint replace_char (c : ascii) (by_ : string) (s : string) : string :=
  match s with
  | EmptyString => EmptyString
  | String a s' =>
      if Ascii.eqb a c then by_ ++ replace_char c by_ s'
      else String a (replace_char c by_ s')
  end.

(** [sep.join(parts)] *)
Definition join (sep : string) (parts : list string) : string :=
  String.concat sep parts.

(** [str(n)] for a non-negative integer *)
Definition of_nat (n : nat) : string :=
  NilZero.string_of_uint (Nat.to_uint n).

(** [str(b)] for a boolean *)
Definition of_bool (b : bool) : string := if b then "True" else "False".

(** truth value of a string: [bool(s)] *)
Definition truthy (s : string) : bool := negb (String.eqb s "").

(** [needle in hay] on characters of a string *)
Fixpoint contains_char (c : ascii) (s : string) : bool :=
  match s with
  | EmptyString => false
  | String a s' => Ascii.eqb a c || contains_char c s'
  end.

(** [s.split(c)] for a one-character separator *)
Fixpoint split (c : ascii) (s : string) : list string :=
  match s with
  | EmptyString => [EmptyString]
  | String a s' =>
      if Ascii.eqb a c then EmptyString :: split c s'
      else match split c s' with
           | piece :: pieces => String a piece :: pieces
           | [] => [String a EmptyString]
           end
  end.

End PyStr.

(** ** Python dictionaries with string keys, in insertion order *)

Module PyDict.

Definition dict (V : Type) : Type := list (string * V).

Section Ops.
Context {V : Type}.

(** [d.get(k)] *)
Fixpoint get (k : string) (d : dict V) : option V :=
  match d with
  | [] => None
  | (k', v) :: d' => if String.eqb k' k then Some v else get k d'
  end.

(** [k in d] *)
Definition mem (k : string) (d : dict V) : bool :=
  match get k d with Some _ => true | None => false end.

(** [d[k] = v]: an existing key keeps its place, a new key goes last *)
Fixpoint set (k : string) (v : V) (d : dict V) : dict V :=
  match d with
  | [] => [(k, v)]
  | (k', v') :: d' =>
      if String.eqb k' k then (k', v) :: d' else (k', v') :: set k v d'
  end.

Definition keys (d : dict V) : list string := map fst d.
Definition values (d : dict V) : list V := map snd d.
Definition items (d : dict V) : list (string * V) := d.

(** [bool(d)] *)
Definition truthy (d : dict V) : bool :=
  match d with [] => false | _ => true end.

(** [sum(f(v) for v in d.values())] *)
Definition total (f : V -> nat) (d : dict V) : nat :=
  list_sum (map f (values d)).
End Ops.

End PyDict.

Import PyDict.

(** ** Resource records and the inventory *)

(** What [r.get(key)] can find for an optional field. *)
Inductive field (A : Type) : Type :=
| Absent
| Null
| Value (a : A).
Arguments Absent {A}.
Arguments Null {A}.
Arguments Value {A} a.

(** [r.get(key, default)]: [None] stands for Python's [None]. *)
Definition field_get {A : Type} (f : field A) (default : A) : option A :=
  match f with
  | Absent => Some default
  | Null => None
  | Value a => Some a
  end.

(** [x or default] on an optional string *)
Definition str_or (x : option string) (default : string) : string :=
  match x with
  | Some s => if PyStr.truthy s then s else default
  | None => default
  end.

(** ** [sorted]: a stable sort

    [sorted_by le l] inserts the elements from the right; an element goes
    in front of the first one it is [le] to, so elements that compare equal
    keep the order they had in [l], as with Python's [sorted]. *)

Section Sorting.
Context {A : Type}.
Variable le : A -> A -> bool.

Fixpoint insert_by (x : A) (l : list A) : list A :=
  match l with
  | [] => [x]
  | y :: l' => if le x y then x :: l else y :: insert_by x l'
  end.

Definition sorted_by (l : list A) : list A :=
  fold_right insert_by [] l.
End Sorting.

(** [sorted(strings)] *)
Definition sorted_strings : list string -> list string :=
  sorted_by String.leb.

(** ** The page: what the report's markup holds

    The browser parses the emitted markup into elements; the script reads
    their [dataset] and flips their classes.  A [node] is a child of an
    element that holds text: a text node or a [<mark>] element. *)

Inductive node : Type :=
| Text (s : string)
| Mark (s : string).

(** The children of one element that holds text. *)
Definition holder : Type := list node.

(** A [<tr>] of a service table, with the details row that may follow. *)
Record dom_row : Type := mkRow {
  row_service : string;              (* data-service *)
  row_region : string;               (* data-region *)
  row_name : string;                 (* data-name *)
  row_id : string;                   (* data-id *)
  row_tags : string;                 (* data-tags *)
  row_details : option string;       (* data-details, with data-has-details *)
  row_cells : list holder;           (* text under td:nth-child(-n+3) *)
  row_detail_values : list holder;   (* text under .detail-value *)
  row_hidden : bool;                 (* class hidden *)
  row_expanded : bool;               (* class expanded *)
  row_autoExpanded : bool;           (* dataset.autoExpanded *)
  detail_hidden : bool;              (* details row: class hidden *)
  detail_collapsed : bool            (* details row: class collapsed *)
}.

(** A [.service-section]. *)
Record dom_section : Type := mkSection {
  sec_service : string;              (* data-service *)
  sec_rows : list dom_row;
  sec_count : string;                (* text of .service-count *)
  sec_hidden : bool;                 (* class hidden *)
  sec_collapsed : bool;              (* .service-content: class collapsed *)
  sec_icon : string;                 (* text of .toggle-icon *)
  sec_autoExpanded : bool            (* dataset.autoExpanded *)
}.

Section Formatter.

(** Heterogeneous Python values (detail values, the scan duration), the
    builtin [str] on them, the [isinstance] tests of
    [format_detail_value], and [json.dumps(value, default=str)]. *)
Context {pyobj : Type}.

Inductive pykind : Type :=
| IsNone
| IsBool (b : bool)
| IsList (items : list pyobj)
| IsDict
| IsOther.

Variable py_str : pyobj -> string.
Variable py_kind : pyobj -> pykind.
Variable json_dumps_value : pyobj -> string.

Record resource : Type := mkResource {
  res_service : option string;
  res_type : option string;
  res_id : option string;
  res_name : field string;
  res_region : field string;
  res_arn : field string;
  res_is_default : option bool;
  res_tags : option (dict string);
  res_details : option (dict pyobj)
}.

Record metadata : Type := mkMetadata {
  md_account_id : option string;
  md_timestamp : option string;
  md_scan_duration_seconds : option pyobj
}.

Record inventory : Type := mkInventory {
  inv_metadata : option metadata;
  inv_resources : option (list resource)
}.

(** [data.get('resources', [])] *)
Definition get_resources (data : inventory) : list resource :=
  match inv_resources data with Some rs => rs | None => [] end.

(** [r.get('tags', {})] *)
Definition get_tags (r : resource) : dict string :=
  match res_tags r with Some t => t | None => [] end.

(** [r.get(key, '')] for the fields that are strings when present *)
Definition get_str (f : option string) : string :=
  match f with Some s => s | None => "" end.

(** ** [format_csv] *)

(** The [csv] writer with its default dialect: a field is quoted when it
    holds the delimiter, the quote character or a character of the line
    terminator; quotes inside are doubled; [None] is written as the empty
    field; rows end in CR LF. *)
Definition csv_needs_quotes (s : string) : bool :=
  PyStr.contains_char "," s
  || PyStr.contains_char (ascii_of_nat 34) s
  || PyStr.contains_char (ascii_of_nat 13) s
  || PyStr.contains_char (ascii_of_nat 10) s.

Definition csv_field (s : string) : string :=
  if csv_needs_quotes s
  then PyStr.dq ++ PyStr.replace_char (ascii_of_nat 34) (PyStr.dq ++ PyStr.dq) s ++ PyStr.dq
  else s.

Definition csv_writerow (fields : list string) : string :=
  PyStr.join "," (map csv_field fields) ++ PyStr.cr ++ PyStr.lf.

(** What the writer makes of a value that is a string or [None]. *)
Definition csv_str (x : option string) : string :=
  match x with Some s => s | None => "" end.

Definition fieldnames : list string :=
  ["service"; "type"; "id"; "name"; "region"; "arn"; "is_default"; "tags"].

(** [f"{k}={v}"] *)
Definition tag_pair (kv : string * string) : string :=
  fst kv ++ "=" ++ snd kv.

(** ['; '.join(f"{k}={v}" for k, v in tags.items()) if tags else ''] *)
Definition tags_str (r : resource) : string :=
  let tags := get_tags r in
  if truthy tags then PyStr.join "; " (map tag_pair (items tags)) else "".

(** The dictionary handed to [writer.writerow], in [fieldnames] order,
    each value as the writer prints it. *)
Definition csv_row (r : resource) : list string :=
  [ get_str (res_service r);
    get_str (res_type r);
    get_str (res_id r);
    csv_str (field_get (res_name r) "");
    csv_str (field_get (res_region r) "");
    csv_str (field_get (res_arn r) "");
    PyStr.of_bool (match res_is_default r with Some b => b | None => false end);
    tags_str r ].

Definition format_csv (data : inventory) : string :=
  let resources := get_resources data in
  match resources with
  | [] => "service,type,id,name,region,arn,is_default,tags" ++ PyStr.lf
  | _ :: _ =>
      csv_writerow fieldnames
      ++ String.concat "" (map (fun r => csv_writerow (csv_row r)) resources)
  end.

(** ** [format_html]: aggregation *)

(** [r.get('service', 'unknown')] *)
Definition service_key (r : resource) : string :=
  match res_service r with Some s => s | None => "unknown" end.

(** [r.get('region', 'global') or 'global'] *)
Definition region_key (r : resource) : string :=
  str_or (field_get (res_region r) "global") "global".

(** One turn of the loop "Group by service". *)
Definition services_step (services : dict (list resource)) (r : resource)
  : dict (list resource) :=
  let svc := service_key r in
  let services1 := if mem svc services then services else set svc [] services in
  match get svc services1 with
  | Some group => set svc (group ++ [r]) services1
  | None => services1
  end.

Definition group_by_service (resources : list resource) : dict (list resource) :=
  fold_left services_step resources [].

(** One turn of the loop "Group by region". *)
Definition regions_step (regions : dict nat) (r : resource) : dict nat :=
  let reg := region_key r in
  let regions1 := if mem reg regions then regions else set reg 0 regions in
  match get reg regions1 with
  | Some n => set reg (n + 1) regions1
  | None => regions1
  end.

Definition group_by_region (resources : list resource) : dict nat :=
  fold_left regions_step resources [].

(** A Python [set] of strings: [s.add(v)] *)
Definition set_add (v : string) (s : list string) : list string :=
  if existsb (String.eqb v) s then s else s ++ [v].

(** One turn of the inner loop of "Collect all unique tags". *)
Definition all_tags_add (all_tags : dict (list string)) (kv : string * string)
  : dict (list string) :=
  let '(k, v) := kv in
  let all_tags1 := if mem k all_tags then all_tags else set k [] all_tags in
  match get k all_tags1 with
  | Some vs => set k (set_add v vs) all_tags1
  | None => all_tags1
  end.

Definition all_tags_step (all_tags : dict (list string)) (r : resource)
  : dict (list string) :=
  fold_left all_tags_add (items (get_tags r)) all_tags.

Definition collect_tags (resources : list resource) : dict (list string) :=
  fold_left all_tags_step resources [].

(** One turn of the loop "Count resource types". *)
Definition resource_types_step (resource_types : dict nat) (r : resource)
  : dict nat :=
  let rt := (get_str (res_service r) ++ "/" ++ get_str (res_type r))%string in
  set rt (match get rt resource_types with Some n => n | None => 0 end + 1)
      resource_types.

Definition count_resource_types (resources : list resource) : dict nat :=
  fold_left resource_types_step resources [].

(** ** [format_html]: markup *)

(** [esc(s)]; [None] gives the empty string *)
Definition esc (x : option string) : string :=
  match x with
  | None => ""
  | Some s =>
      PyStr.replace_char (ascii_of_nat 34) "&quot;"
        (PyStr.replace_char ">" "&gt;"
          (PyStr.replace_char "<" "&lt;"
            (PyStr.replace_char "&" "&amp;" s)))
  end.

Definition esc_str (s : string) : string := esc (Some s).

Definition option_html (value label : string) : string :=
  "<option value=" ++ PyStr.dq ++ value ++ PyStr.dq ++ ">" ++ label ++ "</option>".

(** [d[k]] for a key taken from [d.keys()] *)
Definition lookup {V : Type} (d : dict V) (k : string) (default : V) : V :=
  match get k d with Some v => v | None => default end.

Definition service_options (services : dict (list resource)) : string :=
  PyStr.join PyStr.lf
    (map (fun s => option_html (esc_str s) (esc_str (PyStr.upper s)))
         (sorted_strings (keys services))).

Definition region_options (regions : dict nat) : string :=
  PyStr.join PyStr.lf
    (map (fun r => option_html (esc_str r) (esc_str r))
         (sorted_strings (keys regions))).

(** The pairs that "Build tag options" walks through, in its order. *)
Definition tag_vocabulary (all_tags : dict (list string)) : list (string * string) :=
  flat_map (fun k => map (fun v => (k, v)) (sorted_strings (lookup all_tags k [])))
           (sorted_strings (keys all_tags)).

Definition tag_option (kv : string * string) : string :=
  let '(k, v) := kv in
  option_html (esc_str k ++ "=" ++ esc_str v) (esc_str k ++ "=" ++ esc_str v).

Definition tag_options (all_tags : dict (list string)) : list string :=
  map tag_option (tag_vocabulary all_tags).

Definition tag_options_html (all_tags : dict (list string)) : string :=
  PyStr.join PyStr.lf (tag_options all_tags).

(** *** Rows

    The attribute values below are the ones the browser hands to the
    script: parsing the markup undoes [esc]. *)

(** [str(x)] for a string or [None] *)
Definition str_of (x : option string) : string :=
  match x with Some s => s | None => "None" end.

(** [c if c >= ' ' else ' '] *)
Definition strip_control (c : ascii) : ascii :=
  if (32 <=? nat_of_ascii c)%nat then c else " "%char.

Definition detail_text (details : dict pyobj) : string :=
  PyStr.map_chars strip_control
    (PyStr.lower (PyStr.join " " (map py_str (values details)))).

(** The text node that markup [s] leaves in its parent. *)
Definition text_holder (s : string) : holder :=
  if PyStr.truthy s then [Text s] else [].

Definition mdash : string :=
  String (ascii_of_nat 226) (String (ascii_of_nat 128) (String (ascii_of_nat 148) "")).

(** The text that [format_detail_value] puts under a [.detail-value]. *)
Definition detail_value_holders (value : pyobj) : list holder :=
  match py_kind value with
  | IsNone => [[Text mdash]]
  | IsBool b => [[Text (if b then "Yes" else "No")]]
  | IsList [] => [[Text mdash]]
  | IsList items => map (fun item => text_holder (py_str item)) items
  | IsDict => [text_holder (json_dumps_value value)]
  | IsOther => [text_holder (py_str value)]
  end.

Definition build_row (service_name : string) (r : resource) : dom_row :=
  let tags := get_tags r in
  let tags_data :=
    if truthy tags then PyStr.join "|" (map tag_pair (items tags)) else "" in
  let region_val := region_key r in
  let details := match res_details r with Some d => d | None => [] end in
  let has_details := truthy details in
  let is_default := match res_is_default r with Some b => b | None => false end in
  {| row_service := service_name;
     row_region := region_val;
     row_name := PyStr.lower (str_of (field_get (res_name r) ""));
     row_id := PyStr.lower (get_str (res_id r));
     row_tags := tags_data;
     row_details := if has_details then Some (detail_text details) else None;
     row_cells :=
       [ text_holder (get_str (res_type r)) ]
       ++ (if is_default then [[Text "DEFAULT"]] else [])
       ++ [ text_holder (str_or (field_get (res_name r) "") (get_str (res_id r)));
            text_holder (str_or (field_get (res_arn r) "") (get_str (res_id r))) ];
     row_detail_values :=
       if has_details then flat_map detail_value_holders (values details) else [];
     row_hidden := false;
     row_expanded := false;
     row_autoExpanded := false;
     detail_hidden := false;
     detail_collapsed := true |}.

(** [f"{count} resource{'s' if count != 1 else ''}"] *)
Definition count_label (count : string) (plural : bool) : string :=
  count ++ " resource" ++ (if plural then "s" else "").

Definition build_section (services : dict (list resource)) (service_name : string)
  : dom_section :=
  let service_resources := lookup services service_name [] in
  let count := List.length service_resources in
  {| sec_service := service_name;
     sec_rows := map (build_row service_name) service_resources;
     sec_count := count_label (PyStr.of_nat count) (negb (count =? 1)%nat);
     sec_hidden := false;
     sec_collapsed := true;
     sec_icon := "+";
     sec_autoExpanded := false |}.

Definition service_sections (services : dict (list resource)) : list dom_section :=
  map (build_section services) (sorted_strings (keys services)).

(** *** Stats cards *)

(** [min(100, count*100//max(1,total_resources))] *)
Definition bar_width (count total_resources : nat) : nat :=
  Nat.min 100 (count * 100 / Nat.max 1 total_resources).

Definition stat_bar (bar_class label : string) (width value : nat) : string :=
  "<div class=" ++ PyStr.dq ++ "stat-bar" ++ PyStr.dq ++ "><span class="
  ++ PyStr.dq ++ "stat-label" ++ PyStr.dq ++ ">" ++ label
  ++ "</span><div class=" ++ PyStr.dq ++ bar_class ++ PyStr.dq ++ " style="
  ++ PyStr.dq ++ "width: " ++ PyStr.of_nat width ++ "%" ++ PyStr.dq
  ++ "></div><span class=" ++ PyStr.dq ++ "stat-value" ++ PyStr.dq ++ ">"
  ++ PyStr.of_nat value ++ "</span></div>".

(** [sorted(services.items(), key=lambda x: len(x[1]), reverse=True)[:5]] *)
Definition top_services (services : dict (list resource))
  : list (string * list resource) :=
  firstn 5
    (sorted_by (fun x y => (List.length (snd y) <=? List.length (snd x))%nat) (items services)).

Definition service_stats (services : dict (list resource)) (total_resources : nat)
  : string :=
  PyStr.join ""
    (map (fun sr => stat_bar "bar" (esc_str (PyStr.upper (fst sr)))
                      (bar_width (List.length (snd sr)) total_resources)
                      (List.length (snd sr)))
         (top_services services)).

(** [sorted(regions.items(), key=lambda x: x[1], reverse=True)[:5]] *)
Definition top_regions (regions : dict nat) : list (string * nat) :=
  firstn 5 (sorted_by (fun x y => (snd y <=? snd x)%nat) (items regions)).

Definition region_stats (regions : dict nat) (total_resources : nat) : string :=
  PyStr.join ""
    (map (fun rc => stat_bar "bar region-bar" (esc_str (fst rc))
                      (bar_width (snd rc) total_resources) (snd rc))
         (top_regions regions)).

(** *** The document *)

(** Everything the f-string of [format_html] interpolates. *)
Record page : Type := mkPage {
  pg_account_id : string;
  pg_timestamp : string;
  pg_duration : string;
  pg_total_resources : nat;
  pg_n_services : nat;
  pg_n_regions : nat;
  pg_n_resource_types : nat;
  pg_service_stats : string;
  pg_region_stats : string;
  pg_service_options : string;
  pg_region_options : string;
  pg_tag_options_html : string;
  pg_service_sections : list dom_section
}.

(** The static text of the f-string around the interpolated values, and
    [json.dumps(data, indent=2, default=str)]. *)
Variable html_template : page -> string.
Variable json_dumps : inventory -> string.

Definition build_page (data : inventory) : page :=
  let resources := get_resources data in
  let md := inv_metadata data in
  let account_id :=
    match md with
    | Some m => match md_account_id m with Some a => a | None => "Unknown" end
    | None => "Unknown"
    end in
  let timestamp :=
    match md with Some m => get_str (md_timestamp m) | None => "" end in
  let duration :=
    match md with
    | Some m => match md_scan_duration_seconds m with
                | Some d => py_str d
                | None => "0"
                end
    | None => "0"
    end in
  let total_resources := List.length resources in
  let services := group_by_service resources in
  let regions := group_by_region resources in
  let all_tags := collect_tags resources in
  let resource_types := count_resource_types resources in
  {| pg_account_id := esc_str account_id;
     pg_timestamp := esc_str timestamp;
     pg_duration := duration;
     pg_total_resources := total_resources;
     pg_n_services := List.length services;
     pg_n_regions := List.length regions;
     pg_n_resource_types := List.length resource_types;
     pg_service_stats := service_stats services total_resources;
     pg_region_stats := region_stats regions total_resources;
     pg_service_options := service_options services;
     pg_region_options := region_options regions;
     pg_tag_options_html := tag_options_html all_tags;
     pg_service_sections := service_sections services |}.

Definition format_html (data : inventory) : string :=
  html_template (build_page data).

(** The elements the browser builds from the report. *)
Definition initial_dom (resources : list resource) : list dom_section :=
  service_sections (group_by_service resources).

(** ** [format_json] and [format_output] *)

Definition format_json (data : inventory) : string := json_dumps data.

(** What a call does: return a string or raise [ValueError]. *)
Inductive outcome : Type :=
| Returned (s : string)
| ValueError (message : string).

Definition format_output (data : inventory) (format_type : string) : outcome :=
  let format_type := PyStr.lower format_type in
  if String.eqb format_type "json" then Returned (format_json data)
  else if String.eqb format_type "csv" then Returned (format_csv data)
  else if String.eqb format_type "html" then Returned (format_html data)
  else ValueError ("Unsupported format: " ++ format_type).

End Formatter.

(** ** The script of the report *)

Module Script.

(** [s.substring(a, b)] *)
Definition substring (a b : nat) (s : string) : string :=
  if (b <? a)%nat then String.substring b (a - b) s
  else String.substring a (b - a) s.

(** [hay.indexOf(needle, from)]; [None] is -1 *)
Definition indexOf (hay needle : string) (from : nat) : option nat :=
  String.index from needle hay.

(** [hay.includes(needle)] *)
Definition includes (hay needle : string) : bool :=
  match indexOf hay needle 0 with Some _ => true | None => false end.

(** [list.includes(x)] on strings *)
Definition list_includes (l : list string) (x : string) : bool :=
  existsb (String.eqb x) l.

Definition inspect {A : Type} (a : A) : {b : A | a = b} := exist _ a eq_refl.

(** *** What makes the scan of [highlightMatches] stop *)

Lemma substring_0_length : forall k s,
  String.length (String.substring 0 k s) <= String.length s.
Proof.
  induction k as [|k IH]; intros [|c s]; simpl; try lia.
  specialize (IH s). lia.
Qed.

Lemma index_bounds : forall s2 n s1 m,
  String.index n s1 s2 = Some m ->
  n <= m /\ m + String.length s1 <= String.length s2.
Proof.
  induction s2 as [|a s2 IH]; intros n s1 m H.
  - destruct n; simpl in H.
    + destruct s1; inversion H; subst. simpl. lia.
    + discriminate.
  - destruct n; cbn [index] in H.
    + destruct (prefix s1 (String a s2)) eqn:P.
      * inversion H; subst. split; [lia|].
        apply prefix_correct in P.
        pose proof (substring_0_length (String.length s1) (String a s2)) as L.
        rewrite P in L. lia.
      * destruct (index 0 s1 s2) eqn:E; inversion H; subst.
        apply IH in E. simpl. lia.
    + destruct (index n s1 s2) eqn:E; inversion H; subst.
      apply IH in E. simpl. lia.
Qed.

Lemma length_map_chars f s :
  String.length (PyStr.map_chars f s) = String.length s.
Proof. induction s; simpl; congruence. Qed.

(** *** [highlightMatches] and [clearHighlights] *)

(** The [while] loop of [highlightMatches] over one text node: [frag]
    grows, [lastIdx] moves past each match.  The loop is entered with a
    non-empty [term] only ([if (!term) return]); every match then moves
    [lastIdx] forward, which is why the scan ends. *)
Equations? mark_loop (text lower : string) (term : string)
  (lastIdx : nat) (frag : list node) (found : bool)
  : list node * nat * bool by wf (String.length lower - lastIdx) lt :=
  mark_loop text lower EmptyString lastIdx frag found := (frag, lastIdx, found);
  mark_loop text lower (String c rest) lastIdx frag found
    with inspect (indexOf lower (PyStr.lower (String c rest)) lastIdx) := {
    | exist _ (Some idx) at_idx =>
        mark_loop text lower (String c rest)
          (idx + String.length (String c rest))
          (frag
           ++ (if (lastIdx <? idx)%nat
               then [Text (substring lastIdx idx text)] else [])
           ++ [Mark (substring idx (idx + String.length (String c rest)) text)])
          true
    | exist _ None _ => (frag, lastIdx, found) }.
Proof.
  apply index_bounds in at_idx. unfold PyStr.lower in at_idx.
  rewrite length_map_chars in at_idx. simpl in *. lia.
Qed.

(** What one text node becomes: itself when nothing matched, the
    fragment otherwise. *)
Definition mark_text (term text : string) : list node :=
  let lower := PyStr.lower text in
  let '(frag, lastIdx, found) := mark_loop text lower term 0 [] false in
  if negb found then [Text text]
  else frag ++ (if (lastIdx <? String.length text)%nat
                then [Text (substring lastIdx (String.length text) text)]
                else []).

(** [parent.replaceChild(document.createTextNode(mark.textContent), mark)]
    for the first [<mark>] still in the parent *)
Fixpoint replace_first_mark (children : holder) : holder :=
  match children with
  | [] => []
  | Mark s :: rest => Text s :: rest
  | Text s :: rest => Text s :: replace_first_mark rest
  end.

(** [parent.normalize()]: empty text nodes go, adjacent ones are joined *)
Fixpoint normalize (children : holder) : holder :=
  match children with
  | [] => []
  | Mark s :: rest => Mark s :: normalize rest
  | Text s :: rest =>
      if String.eqb s "" then normalize rest
      else match normalize rest with
           | Text s' :: rest' => Text (s ++ s') :: rest'
           | rest' => Text s :: rest'
           end
  end.

Definition count_marks (children : holder) : nat :=
  List.length (filter (fun n => match n with Mark _ => true | Text _ => false end)
                      children).

(** [clearHighlights] inside one parent: one turn per [<mark>] *)
Definition clear_holder (children : holder) : holder :=
  Nat.iter (count_marks children)
           (fun h => normalize (replace_first_mark h)) children.

Definition clearHighlights (element : list holder) : list holder :=
  map clear_holder element.

(** The text nodes of one parent, each replaced by what [mark_text] makes
    of it.  No [<mark>] is left when this runs: [clearHighlights] came
    first. *)
Definition mark_holder (term : string) (children : holder) : holder :=
  flat_map (fun n => match n with
                     | Text t => mark_text term t
                     | Mark s => [Mark s]
                     end) children.

Definition highlightMatches (element : list holder) (term : string)
  : list holder :=
  let element := clearHighlights element in
  if negb (PyStr.truthy term) then element
  else map (mark_holder term) element.

(** [node.textContent] of a parent *)
Definition textContent (children : holder) : string :=
  String.concat "" (map (fun n => match n with Text s => s | Mark s => s end)
                        children).

(** *** [filterResources] *)

(** The four controls, as the user left them. *)
Record controls : Type := mkControls {
  searchBox : string;
  serviceFilter : string;
  regionFilter : string;
  tagFilter : string
}.

(** [row.dataset.details || ''] *)
Definition detailText (row : dom_row) : string :=
  match row_details row with
  | Some d => if PyStr.truthy d then d else ""
  | None => ""
  end.

(** [detailRow && detailRow.classList.contains('details-row')]: the
    report puts a details row after exactly the rows that carry
    [data-details]. *)
Definition has_details_row (row : dom_row) : bool :=
  match row_details row with Some _ => true | None => false end.

Definition matchService (service : string) (row : dom_row) : bool :=
  negb (PyStr.truthy service) || String.eqb (row_service row) service.

Definition matchRegion (region : string) (row : dom_row) : bool :=
  negb (PyStr.truthy region) || String.eqb (row_region row) region.

Definition matchSearch (search : string) (row : dom_row) : bool :=
  negb (PyStr.truthy search)
  || includes (row_name row) search
  || includes (row_id row) search
  || includes (detailText row) search.

Definition matchTag (tag : string) (row : dom_row) : bool :=
  negb (PyStr.truthy tag)
  || list_includes (PyStr.split "|" (if PyStr.truthy (row_tags row) then row_tags row else "")) tag.

Definition matchedInDetails (search : string) (row : dom_row) : bool :=
  PyStr.truthy search && includes (detailText row) search.

(** The body of the loop over the rows of a section that is looked at;
    the boolean tells whether [visibleCount] goes up. *)
Definition filter_row (search service region tag : string) (row : dom_row)
  : dom_row * bool :=
  if matchService service row && matchRegion region row
     && matchSearch search row && matchTag tag row
  then
    let cells := if PyStr.truthy search
                 then highlightMatches (row_cells row) search
                 else clearHighlights (row_cells row) in
    if has_details_row row then
      if matchedInDetails search row then
        ({| row_service := row_service row; row_region := row_region row;
            row_name := row_name row; row_id := row_id row;
            row_tags := row_tags row; row_details := row_details row;
            row_cells := cells;
            row_detail_values := highlightMatches (row_detail_values row) search;
            row_hidden := false;
            row_expanded := true;
            row_autoExpanded := true;
            detail_hidden := false;
            detail_collapsed := false |}, true)
      else if row_autoExpanded row then
        ({| row_service := row_service row; row_region := row_region row;
            row_name := row_name row; row_id := row_id row;
            row_tags := row_tags row; row_details := row_details row;
            row_cells := cells;
            row_detail_values := clearHighlights (row_detail_values row);
            row_hidden := false;
            row_expanded := false;
            row_autoExpanded := false;
            detail_hidden := false;
            detail_collapsed := true |}, true)
      else
        ({| row_service := row_service row; row_region := row_region row;
            row_name := row_name row; row_id := row_id row;
            row_tags := row_tags row; row_details := row_details row;
            row_cells := cells;
            row_detail_values := row_detail_values row;
            row_hidden := false;
            row_expanded := row_expanded row;
            row_autoExpanded := row_autoExpanded row;
            detail_hidden := false;
            detail_collapsed := detail_collapsed row |}, true)
    else
      ({| row_service := row_service row; row_region := row_region row;
          row_name := row_name row; row_id := row_id row;
          row_tags := row_tags row; row_details := row_details row;
          row_cells := cells;
          row_detail_values := row_detail_values row;
          row_hidden := false;
          row_expanded := row_expanded row;
          row_autoExpanded := row_autoExpanded row;
          detail_hidden := detail_hidden row;
          detail_collapsed := detail_collapsed row |}, true)
  else
    ({| row_service := row_service row; row_region := row_region row;
        row_name := row_name row; row_id := row_id row;
        row_tags := row_tags row; row_details := row_details row;
        row_cells := clearHighlights (row_cells row);
        row_detail_values :=
          if has_details_row row then clearHighlights (row_detail_values row)
          else row_detail_values row;
        row_hidden := true;
        row_expanded := row_expanded row;
        row_autoExpanded := false;
        detail_hidden := if has_details_row row then true else detail_hidden row;
        detail_collapsed := detail_collapsed row |}, false).

(** [str(n)] of the script: [visibleCount + ' resource' + ...] *)
Definition count_text (visibleCount : nat) : string :=
  PyStr.of_nat visibleCount ++ " resource"
  ++ (if negb (visibleCount =? 1)%nat then "s" else "").

(** The body of the loop over the sections. *)
Definition filter_section (search service region tag : string)
  (section : dom_section) : dom_section :=
  if PyStr.truthy service && negb (String.eqb (sec_service section) service)
  then
    {| sec_service := sec_service section; sec_rows := sec_rows section;
       sec_count := sec_count section;
       sec_hidden := true;
       sec_collapsed := sec_collapsed section; sec_icon := sec_icon section;
       sec_autoExpanded := sec_autoExpanded section |}
  else
    let results := map (filter_row search service region tag) (sec_rows section) in
    let visibleCount := List.length (filter snd results) in
    let hasVisible := (0 <? visibleCount)%nat in
    let auto_on := hasVisible && PyStr.truthy search in
    let auto_off := negb (PyStr.truthy search) && sec_autoExpanded section in
    {| sec_service := sec_service section;
       sec_rows := map fst results;
       sec_count := count_text visibleCount;
       sec_hidden := negb hasVisible;
       sec_collapsed := if auto_on then false
                        else if auto_off then true
                        else sec_collapsed section;
       sec_icon := if auto_on then "-"
                   else if auto_off then "+"
                   else sec_icon section;
       sec_autoExpanded := if auto_on then true
                           else if auto_off then false
                           else sec_autoExpanded section |}.

(** [filterResources()]: the controls are read, every section is gone
    through.  ([updateDashboard] then redraws the stats cards, which are
    not part of these elements.) *)
Definition filterResources (c : controls) (dom : list dom_section)
  : list dom_section :=
  let search := PyStr.lower (searchBox c) in
  let service := serviceFilter c in
  let region := regionFilter c in
  let tag := tagFilter c in
  map (filter_section search service region tag) dom.

(** A row is on screen when neither it nor its section is hidden. *)
Definition row_shown (section : dom_section) (row : dom_row) : bool :=
  negb (sec_hidden section) && negb (row_hidden row).

(** Is row [j] of section [i] on screen? *)
Definition shown_at (dom : list dom_section) (i j : nat) : bool :=
  match nth_error dom i with
  | Some section =>
      match nth_error (sec_rows section) j with
      | Some row => row_shown section row
      | None => false
      end
  | None => false
  end.

End Script.

(** ** Reading a CSV text back

    What a reader of the same dialect makes of a text: fields are parted by
    commas and rows by CR, LF or CR LF; a field that opens with a quote
    runs to the closing quote, a doubled quote standing for one. *)

Module CsvReader.

Inductive state : Type :=
| StartRecord
| StartField
| InField
| InQuoted
| QuoteInQuoted
| EatLF.

(** One character either carries on within the row or ends the row. *)
Inductive action : Type :=
| Continue (st : state) (field : string) (row : list string)
| Emit (finished : list string) (st : state).

Definition comma : ascii := ","%char.
Definition quote : ascii := ascii_of_nat 34.
Definition CR : ascii := ascii_of_nat 13.
Definition LF : ascii := ascii_of_nat 10.

Definition push (field : string) (c : ascii) : string :=
  (field ++ String c EmptyString)%string.

Definition end_field (field : string) (row : list string) (c : ascii)
  (otherwise : action) : action :=
  if Ascii.eqb c comma then Continue StartField EmptyString (row ++ [field])
  else if Ascii.eqb c CR then Emit (row ++ [field]) EatLF
  else if Ascii.eqb c LF then Emit (row ++ [field]) StartRecord
  else otherwise.

Definition start_field (row : list string) (c : ascii) : action :=
  if Ascii.eqb c quote then Continue InQuoted EmptyString row
  else end_field EmptyString row c (Continue InField (String c EmptyString) row).

Definition start_record (c : ascii) : action :=
  if Ascii.eqb c CR then Emit [] EatLF
  else if Ascii.eqb c LF then Emit [] StartRecord
  else start_field [] c.

Definition step (st : state) (field : string) (row : list string) (c : ascii)
  : action :=
  match st with
  | StartRecord => start_record c
  | EatLF => if Ascii.eqb c LF then Continue StartRecord EmptyString []
             else start_record c
  | StartField => start_field row c
  | InField => end_field field row c (Continue InField (push field c) row)
  | InQuoted => if Ascii.eqb c quote then Continue QuoteInQuoted field row
                else Continue InQuoted (push field c) row
  | QuoteInQuoted =>
      if Ascii.eqb c quote then Continue InQuoted (push field c) row
      else end_field field row c (Continue InField (push field c) row)
  end.

Fixpoint read (s : string) (st : state) (field : string) (row : list string)
  : list (list string) :=
  match s with
  | EmptyString =>
      match st with
      | StartRecord | EatLF => []
      | _ => [row ++ [field]]
      end
  | String c s' =>
      match step st field row c with
      | Continue st' field' row' => read s' st' field' row'
      | Emit finished st' => finished :: read s' st' EmptyString []
      end
  end.

(** The rows of a CSV text, each a list of fields. *)
Definition rows_of (text : string) : list (list string) :=
  read text StartRecord EmptyString [].

End CsvReader.

(** ** [format_detail_key] *)

Module DetailKey.

Definition is_letter (c : ascii) : bool := PyStr.is_upper c || PyStr.is_lower c.

(** [s.title()]: a letter that follows a letter is lower-cased, any other
    letter is upper-cased. *)
Fixpoint title_from (previous_is_cased : bool) (s : string) : string :=
match s with
| EmptyString => EmptyString
| String c s' =>
    String (if previous_is_cased then PyStr.lower_char c else PyStr.upper_char c)
           (title_from (is_letter c) s')
end.

Definition title (s : string) : string := title_from false s.

(** [key.replace('_', ' ').title()] *)
Definition format_detail_key (key : string) : string :=
  title (PyStr.replace_char "_" " " key).

End DetailKey.

(** ** The buttons of the report *)

Module Buttons.
Import Script.

(** [toggleSection(header)] on the section of the header *)
Definition toggleSection (section : dom_section) : dom_section :=
  let collapsed := negb (sec_collapsed section) in
  {| sec_service := sec_service section; sec_rows := sec_rows section;
     sec_count := sec_count section; sec_hidden := sec_hidden section;
     sec_collapsed := collapsed;
     sec_icon := if collapsed then "+" else "-";
     sec_autoExpanded := sec_autoExpanded section |}.

(** [toggleDetails(row)] *)
Definition toggleDetails (row : dom_row) : dom_row :=
  if has_details_row row then
    {| row_service := row_service row; row_region := row_region row;
       row_name := row_name row; row_id := row_id row;
       row_tags := row_tags row; row_details := row_details row;
       row_cells := row_cells row;
       row_detail_values := row_detail_values row;
       row_hidden := row_hidden row;
       row_expanded := negb (row_expanded row);
       row_autoExpanded := row_autoExpanded row;
       detail_hidden := detail_hidden row;
       detail_collapsed := negb (detail_collapsed row) |}
  else row.

(** What [expandAll] ([open] true) and [collapseAll] ([open] false) do to
    a row: its details row, when there is one, and its own class. *)
Definition set_row_open (open : bool) (row : dom_row) : dom_row :=
  if has_details_row row then
    {| row_service := row_service row; row_region := row_region row;
       row_name := row_name row; row_id := row_id row;
       row_tags := row_tags row; row_details := row_details row;
       row_cells := row_cells row;
       row_detail_values := row_detail_values row;
       row_hidden := row_hidden row;
       row_expanded := open;
       row_autoExpanded := row_autoExpanded row;
       detail_hidden := detail_hidden row;
       detail_collapsed := negb open |}
  else row.

Definition set_section_open (open : bool) (section : dom_section) : dom_section :=
  {| sec_service := sec_service section;
     sec_rows := map (set_row_open open) (sec_rows section);
     sec_count := sec_count section; sec_hidden := sec_hidden section;
     sec_collapsed := negb open;
     sec_icon := if open then "-" else "+";
     sec_autoExpanded := sec_autoExpanded section |}.

Definition expandAll (dom : list dom_section) : list dom_section :=
  map (set_section_open true) dom.

Definition collapseAll (dom : list dom_section) : list dom_section :=
  map (set_section_open false) dom.

(** [clearFilters()]: the four controls are emptied, then
    [filterResources()] runs. *)
Definition no_filter : controls :=
  {| searchBox := ""; serviceFilter := ""; regionFilter := ""; tagFilter := "" |}.

Definition clearFilters (dom : list dom_section) : list dom_section :=
  filterResources no_filter dom.

End Buttons.

(** ** [updateDashboard] and [exportCSV]: the rows they go through *)

Module Dashboard.
Import Script.

(** [document.querySelectorAll('tbody tr:not(.hidden):not(.details-row)')]:
    the rows without the class [hidden], in every section. *)
Definition visibleRows (dom : list dom_section) : list dom_row :=
  flat_map (fun section => filter (fun row => negb (row_hidden row))
                                  (sec_rows section)) dom.

(** The names that an object written [{}] inherits from
    [Object.prototype]: under these [counts[key]] is a function or an
    object, not [undefined], before anything is stored. *)
Definition inherited_names : list string :=
  [ "constructor"; "hasOwnProperty"; "isPrototypeOf"; "propertyIsEnumerable";
    "toLocaleString"; "toString"; "valueOf"; "__defineGetter__";
    "__defineSetter__"; "__lookupGetter__"; "__lookupSetter__"; "__proto__" ].

Definition inherited (k : string) : bool :=
  existsb (String.eqb k) inherited_names.

(** What a counter holds: a number, or the text that [+ 1] makes of a
    value that is no number. *)
Inductive tally : Type :=
| Num (n : nat)
| Glued.

(** [(counts[key] || 0) + 1] *)
Definition bump (k : string) (held : option tally) : tally :=
  match held with
  | Some (Num n) => Num (n + 1)
  | Some Glued => Glued
  | None => if inherited k then Glued else Num 1
  end.

(** [counts[key] = (counts[key] || 0) + 1]; storing a text under
    [__proto__] stores nothing. *)
Definition count_step (key : dom_row -> string) (counts : dict tally)
  (row : dom_row) : dict tally :=
  let k := key row in
  if String.eqb k "__proto__" then counts
  else set k (bump k (get k counts)) counts.

(** [serviceCounts] and [regionCounts] of [updateDashboard] *)
Definition serviceCounts (dom : list dom_section) : dict tally :=
  fold_left (count_step row_service) (visibleRows dom) [].

Definition regionCounts (dom : list dom_section) : dict tally :=
  fold_left (count_step row_region) (visibleRows dom) [].

(** [total = visibleRows.length] *)
Definition total (dom : list dom_section) : nat :=
  List.length (visibleRows dom).

(** The rows on screen: not hidden, in a section that is not hidden. *)
Definition shownRows (dom : list dom_section) : list dom_row :=
  flat_map (fun section =>
              if sec_hidden section then []
              else filter (fun row => negb (row_hidden row)) (sec_rows section))
           dom.

Section Download.
(** [cells[k].textContent] of a row, for [k] from 0 to 2 *)
Variable cell_text : dom_row -> nat -> string.

(** A cell of the export: the text between quotes, every quote in it
    doubled. *)
Definition export_cell (s : string) : string :=
  PyStr.dq ++ PyStr.replace_char (ascii_of_nat 34) (PyStr.dq ++ PyStr.dq) s
  ++ PyStr.dq.

Definition export_data (row : dom_row) : list string :=
  [ row_service row; cell_text row 0; cell_text row 1; cell_text row 2;
    row_region row ].

Definition export_line (row : dom_row) : string :=
  PyStr.join "," (map export_cell (export_data row)) ++ PyStr.lf.

(** The text that [exportCSV] hands to the download. *)
Definition exportCSV (dom : list dom_section) : string :=
  fold_left (fun csv row => csv ++ export_line row)%string (visibleRows dom)
            ("Service,Type,Name,ID/ARN,Region" ++ PyStr.lf)%string.
End Download.

End Dashboard.

(** ** What the user does to the page *)

Module Page.
Import Script Buttons.

Inductive event : Type :=
| Filter (c : controls)          (* a control changes: [filterResources()] *)
| ClearFilters                   (* the button Clear *)
| ToggleSection (i : nat)        (* a click on the header of section [i] *)
| ToggleDetails (i j : nat)      (* a click on row [j] of section [i] *)
| ExpandAll
| CollapseAll.

(** [f] on the element at place [n], when there is one *)
Fixpoint update_nth {A : Type} (n : nat) (f : A -> A) (l : list A) : list A :=
match l, n with
| [], _ => []
| x :: l', 0 => f x :: l'
| x :: l', S n' => x :: update_nth n' f l'
end.

Definition toggle_details_in (j : nat) (section : dom_section) : dom_section :=
  {| sec_service := sec_service section;
     sec_rows := update_nth j toggleDetails (sec_rows section);
     sec_count := sec_count section; sec_hidden := sec_hidden section;
     sec_collapsed := sec_collapsed section; sec_icon := sec_icon section;
     sec_autoExpanded := sec_autoExpanded section |}.

Definition step (e : event) (dom : list dom_section) : list dom_section :=
  match e with
  | Filter c => filterResources c dom
  | ClearFilters => clearFilters dom
  | ToggleSection i => update_nth i toggleSection dom
  | ToggleDetails i j => update_nth i (toggle_details_in j) dom
  | ExpandAll => expandAll dom
  | CollapseAll => collapseAll dom
  end.

(** The page after the events, oldest first. *)
Definition run (events : list event) (dom : list dom_section) : list dom_section :=
  fold_left (fun d e => step e d) events dom.

End Page.

(** ** Text within ASCII

    On a text whose characters are all below 128, [str.lower],
    [str.upper], [str.title] and the script's [toLowerCase] map the 26
    letters and nothing else, and change no length. *)
Fixpoint is_ascii (s : string) : bool :=
match s with
| EmptyString => true
| String c s' => (nat_of_ascii c <? 128)%nat && is_ascii s'
end.

(** ** [format_output] on inputs that make a formatter raise

    The records above have the shape the collectors give them.  Here the
    keys [metadata] and [resources] of [data] and the keys [service] and
    [tags] of a record may also be bound to [None], and [json.dumps] may
    raise; a formatter then leaves by an exception, which [format_output]
    lets through. *)

Module Loose.

Inductive exception : Type :=
| ValueError (message : string)
| AttributeError
| TypeError
| RecursionError.

(** What a call does: return a string or raise. *)
Inductive result : Type :=
| Returned (s : string)
| Raised (e : exception).

Section Formatters.
Context {pyobj : Type}.
Variable py_str : pyobj -> string.
Variable py_kind : pyobj -> @pykind pyobj.

(** [json.dumps(value, default=str)]: the text, or [TypeError] for a key
    that is no string, number, boolean or [None], [ValueError] for a
    circular reference, [RecursionError] for too deep a value. *)
Variable json_dumps_value : pyobj -> result.
Variable html_template : page -> string.

Record record : Type := mkRecord {
  rec_service : field string;
  rec_type : option string;
  rec_id : option string;
  rec_name : field string;
  rec_region : field string;
  rec_arn : field string;
  rec_is_default : option bool;
  rec_tags : field (dict string);
  rec_details : option (dict pyobj)
}.

Record document : Type := mkDocument {
  doc_metadata : field (@metadata pyobj);
  doc_resources : field (list record)
}.

(** [json.dumps(data, indent=2, default=str)] *)
Variable json_dumps : document -> result.

(** A key that is bound to a value; a key bound to [None] is seen as an
    absent one. *)
Definition present {A : Type} (f : field A) : option A :=
  match f with
  | Value a => Some a
  | Absent | Null => None
  end.

Definition as_resource (r : record) : @resource pyobj :=
  {| res_service := present (rec_service r);
     res_type := rec_type r;
     res_id := rec_id r;
     res_name := rec_name r;
     res_region := rec_region r;
     res_arn := rec_arn r;
     res_is_default := rec_is_default r;
     res_tags := present (rec_tags r);
     res_details := rec_details r |}.

Definition as_inventory (data : document) : @inventory pyobj :=
  {| inv_metadata := present (doc_metadata data);
     inv_resources := option_map (map as_resource) (present (doc_resources data)) |}.

(** *** [format_json] *)

Definition format_json (data : document) : result := json_dumps data.

(** *** [format_csv]: [None] is falsy in [if not resources] and in
    [if tags], and the writer prints it as the empty field. *)

Definition tags_str (r : record) : string :=
  match field_get (rec_tags r) [] with
  | Some tags =>
      if truthy tags then PyStr.join "; " (map tag_pair (items tags)) else ""
  | None => ""
  end.

Definition csv_row (r : record) : list string :=
  [ csv_str (field_get (rec_service r) "");
    get_str (rec_type r);
    get_str (rec_id r);
    csv_str (field_get (rec_name r) "");
    csv_str (field_get (rec_region r) "");
    csv_str (field_get (rec_arn r) "");
    PyStr.of_bool (match rec_is_default r with Some b => b | None => false end);
    tags_str r ].

Definition format_csv (data : document) : string :=
  match field_get (doc_resources data) [] with
  | Some (r :: resources) =>
      csv_writerow fieldnames
      ++ String.concat "" (map (fun r => csv_writerow (csv_row r)) (r :: resources))
  | Some [] | None => "service,type,id,name,region,arn,is_default,tags" ++ PyStr.lf
  end.

(** *** [format_html] *)

Definition tags_is_null (r : record) : bool :=
  match rec_tags r with Null => true | _ => false end.

Definition service_is_null (r : record) : bool :=
  match rec_service r with Null => true | _ => false end.

(** [format_detail_value] calls [json.dumps] on the values that are
    dicts. *)
Definition dumps_failure (value : pyobj) : option exception :=
  match py_kind value with
  | IsDict =>
      match json_dumps_value value with
      | Raised e => Some e
      | Returned _ => None
      end
  | _ => None
  end.

(** The detail values in the order in which the loop "Build service
    sections" meets them: the services in sorted order, the records of a
    service in the order of the list, the values in the order of the
    dict. *)
Definition detail_values_in_order (resources : list (@resource pyobj))
  : list pyobj :=
  let services := group_by_service resources in
  flat_map (fun service_name =>
              flat_map (fun r => match res_details r with
                                 | Some details => values details
                                 | None => []
                                 end)
                       (lookup services service_name []))
           (sorted_strings (keys services)).

Fixpoint first_failure (detail_values : list pyobj) : option exception :=
match detail_values with
| [] => None
| value :: rest =>
    match dumps_failure value with
    | Some e => Some e
    | None => first_failure rest
    end
end.

(** The text of [json.dumps(value, default=str)] when it returns. *)
Definition dumped (value : pyobj) : string :=
  match json_dumps_value value with
  | Returned s => s
  | Raised _ => ""
  end.

(** The first statement of [format_html] that raises decides; when none
    does, the report is the one of the records as they are. *)
Definition format_html (data : document) : result :=
  match doc_metadata data with
  | Null => Raised AttributeError   (* [metadata.get] on [None] *)
  | Absent | Value _ =>
      match doc_resources data with
      | Null => Raised TypeError    (* [len(resources)] on [None] *)
      | Absent | Value _ =>
          let records :=
            match doc_resources data with Value l => l | _ => [] end in
          if existsb tags_is_null records
          then Raised AttributeError      (* [tags.items()] on [None] *)
          else if existsb service_is_null records
          then if forallb service_is_null records
               then Raised AttributeError (* [s.upper()] on the key [None] *)
               else Raised TypeError      (* [sorted] on [None] and a string *)
          else
            match first_failure (detail_values_in_order (map as_resource records)) with
            | Some e => Raised e          (* [json.dumps] in [format_detail_value] *)
            | None =>
                Returned (format_html py_str py_kind dumped html_template
                                      (as_inventory data))
            end
      end
  end.

(** *** [format_output] *)

Definition format_output (data : document) (format_type : string) : result :=
  let format_type := PyStr.lower format_type in
  if String.eqb format_type "json" then format_json data
  else if String.eqb format_type "csv" then Returned (format_csv data)
  else if String.eqb format_type "html" then format_html data
  else Raised (ValueError ("Unsupported format: " ++ format_type)).

(** A record and an inventory of the expected shape, as such inputs. *)
Definition of_field {A : Type} (o : option A) : field A :=
  match o with Some a => Value a | None => Absent end.

Definition of_resource (r : @resource pyobj) : record :=
  {| rec_service := of_field (res_service r);
     rec_type := res_type r;
     rec_id := res_id r;
     rec_name := res_name r;
     rec_region := res_region r;
     rec_arn := res_arn r;
     rec_is_default := res_is_default r;
     rec_tags := of_field (res_tags r);
     rec_details := res_details r |}.

Definition of_inventory (data : @inventory pyobj) : document :=
  {| doc_metadata := of_field (inv_metadata data);
     doc_resources := of_field (option_map (map of_resource) (inv_resources data)) |}.

End Formatters.

End Loose.

(** * Properties *)

(** ** Strings *)

Module PyStrFacts.

Lemma append_assoc (a b c : string) : ((a ++ b) ++ c = a ++ (b ++ c))%string.
Proof. induction a; simpl; congruence. Qed.

Lemma append_nil_r (a : string) : (a ++ "" = a)%string.
Proof. induction a; simpl; congruence. Qed.

Lemma length_append (a b : string) :
  String.length (a ++ b) = String.length a + String.length b.
Proof. induction a; simpl; congruence. Qed.

Lemma length_lower (s : string) : String.length (PyStr.lower s) = String.length s.
Proof. apply Script.length_map_chars. Qed.

Lemma lower_char_idem (c : ascii) :
  PyStr.lower_char (PyStr.lower_char c) = PyStr.lower_char c.
Proof. destruct c as [[] [] [] [] [] [] [] []]; reflexivity. Qed.

Lemma lower_idem (s : string) : PyStr.lower (PyStr.lower s) = PyStr.lower s.
Proof.
  unfold PyStr.lower.
  induction s as [|c s IH]; simpl; [reflexivity|].
  now rewrite lower_char_idem, IH.
Qed.

Lemma concat_cons x l : (String.concat "" (x :: l) = x ++ String.concat "" l)%string.
Proof. destruct l; simpl; [now rewrite append_nil_r | reflexivity]. Qed.

End PyStrFacts.

(** ** Dictionaries *)

Module PyDictFacts.
Section Facts.
Context {V : Type}.
Implicit Types (d : dict V) (k : string) (v : V).

Lemma get_set_same k v d : get k (set k v d) = Some v.
Proof.
  induction d as [|[k' v'] d IH]; simpl.
  - now rewrite String.eqb_refl.
  - destruct (String.eqb k' k) eqn:E; simpl; rewrite E; auto.
Qed.

Lemma get_set_other k k' v d : k <> k' -> get k' (set k v d) = get k' d.
Proof.
  intros N. induction d as [|[k0 v0] d IH]; simpl.
  - destruct (String.eqb_spec k k'); congruence.
  - destruct (String.eqb_spec k0 k); simpl.
    + subst. destruct (String.eqb_spec k k'); congruence.
    + destruct (String.eqb_spec k0 k'); auto.
Qed.

Lemma set_set k v1 v2 d : set k v2 (set k v1 d) = set k v2 d.
Proof.
  induction d as [|[k0 v0] d IH]; simpl.
  - now rewrite String.eqb_refl.
  - destruct (String.eqb k0 k) eqn:E; simpl; rewrite E; congruence.
Qed.

Lemma get_None_keys k d : get k d = None <-> ~ In k (keys d).
Proof.
  induction d as [|[k0 v0] d IH]; simpl; [tauto|].
  destruct (String.eqb_spec k0 k).
  - split; [discriminate | intros H; exfalso; apply H; auto].
  - rewrite IH. tauto.
Qed.

Lemma get_Some_In k v d : get k d = Some v -> In (k, v) d.
Proof.
  induction d as [|[k0 v0] d IH]; simpl; [discriminate|].
  destruct (String.eqb_spec k0 k).
  - intros [= ->]. subst. auto.
  - auto.
Qed.

Lemma In_get k v d : NoDup (keys d) -> In (k, v) d -> get k d = Some v.
Proof.
  induction d as [|[k0 v0] d IH]; simpl; [tauto|].
  intros ND [E | I].
  - inversion E; subst. now rewrite String.eqb_refl.
  - inversion ND as [|? ? NI ND']; subst.
    destruct (String.eqb_spec k0 k).
    + subst. exfalso. apply NI. apply (in_map fst) in I. exact I.
    + auto.
Qed.

Lemma keys_set k v d :
  keys (set k v d) = if mem k d then keys d else keys d ++ [k].
Proof.
  unfold mem. induction d as [|[k0 v0] d IH]; simpl; [reflexivity|].
  destruct (String.eqb k0 k) eqn:E; simpl; [reflexivity|].
  rewrite IH. destruct (get k d); reflexivity.
Qed.

Lemma NoDup_keys_set k v d : NoDup (keys d) -> NoDup (keys (set k v d)).
Proof.
  intros ND. rewrite keys_set. unfold mem.
  destruct (get k d) eqn:G; [exact ND|].
  apply get_None_keys in G.
  apply NoDup_app; [exact ND | repeat constructor; simpl; tauto |].
  intros x Hx [<- | []]. tauto.
Qed.

Lemma total_set (f : V -> nat) k v d :
  total f (set k v d) + match get k d with Some o => f o | None => 0 end
  = total f d + f v.
Proof.
  unfold total, values.
  induction d as [|[k0 v0] d IH]; simpl; [lia|].
  destruct (String.eqb k0 k); simpl; lia.
Qed.
End Facts.
End PyDictFacts.

(** ** Loops that file records under a key *)

Module Grouping.
Import PyDictFacts.

Section Generic.
Context {R V : Type}.
Variable key : R -> string.
Variable upd : option V -> R -> V.

Definition step (d : dict V) (r : R) : dict V :=
  set (key r) (upd (get (key r) d) r) d.

Lemma get_fold k : forall rs d,
  get k (fold_left step rs d)
  = fold_left (fun o r => if String.eqb (key r) k then Some (upd o r) else o)
              rs (get k d).
Proof.
  induction rs as [|r rs IH]; intros d; simpl; [reflexivity|].
  rewrite IH. f_equal. unfold step.
  destruct (String.eqb_spec (key r) k) as [<- | N].
  - apply get_set_same.
  - now apply get_set_other.
Qed.

Lemma NoDup_keys_fold : forall rs d,
  NoDup (keys d) -> NoDup (keys (fold_left step rs d)).
Proof.
  induction rs as [|r rs IH]; intros d ND; simpl; [exact ND|].
  apply IH. now apply NoDup_keys_set.
Qed.

Lemma keys_fold : forall rs d k,
  In k (keys (fold_left step rs d)) <-> In k (keys d) \/ In k (map key rs).
Proof.
  induction rs as [|r rs IH]; intros d k; simpl; [tauto|].
  rewrite IH. unfold step. rewrite keys_set.
  destruct (mem (key r) d) eqn:M.
  - split; [tauto|]. intros [H | [<- | H]]; auto.
    left. unfold mem in M.
    destruct (get (key r) d) eqn:G; [|discriminate].
    apply get_Some_In in G. apply (in_map fst) in G. exact G.
  - rewrite in_app_iff. simpl. tauto.
Qed.

(** When every turn adds [w r] to the size [f] of the entry. *)
Lemma total_fold (f : V -> nat) (w : R -> nat) :
  (forall o r, f (upd o r) = match o with Some v => f v | None => 0 end + w r) ->
  forall rs d,
    total f (fold_left step rs d) = total f d + list_sum (map w rs).
Proof.
  intros Hf. induction rs as [|r rs IH]; intros d; simpl; [lia|].
  rewrite IH. unfold step.
  pose proof (total_set f (key r) (upd (get (key r) d) r) d) as T.
  rewrite Hf in T. lia.
Qed.
End Generic.
End Grouping.

Section AggregationFacts.
Context {pyobj : Type}.
Local Abbreviation resource := (@resource pyobj).
Import PyDictFacts.
Implicit Types (r : resource) (resources : list resource).

Definition services_upd (o : option (list resource)) r : list resource :=
  match o with Some g => g | None => [] end ++ [r].

Definition regions_upd (o : option nat) r : nat :=
  match o with Some n => n | None => 0 end + 1.

Lemma services_step_eq d r :
  services_step d r = Grouping.step service_key services_upd d r.
Proof.
  unfold services_step, Grouping.step, services_upd, mem.
  destruct (get (service_key r) d) eqn:G.
  - rewrite G. reflexivity.
  - rewrite get_set_same. simpl. apply set_set.
Qed.

Lemma regions_step_eq (d : dict nat) r :
  regions_step d r = Grouping.step region_key regions_upd d r.
Proof.
  unfold regions_step, Grouping.step, regions_upd, mem.
  destruct (get (region_key r) d) eqn:G.
  - rewrite G. reflexivity.
  - rewrite get_set_same. simpl. apply set_set.
Qed.

Lemma fold_left_ext {A B : Type} (f g : A -> B -> A) :
  (forall a b, f a b = g a b) ->
  forall l a, fold_left f l a = fold_left g l a.
Proof.
  intros E. induction l as [|b l IH]; intros a; simpl; [reflexivity|].
  rewrite E. apply IH.
Qed.

Lemma group_by_service_eq resources :
  group_by_service resources
  = fold_left (Grouping.step service_key services_upd) resources [].
Proof. apply fold_left_ext, services_step_eq. Qed.

Lemma group_by_region_eq resources :
  group_by_region resources
  = fold_left (Grouping.step region_key regions_upd) resources [].
Proof. apply fold_left_ext, regions_step_eq. Qed.

Lemma list_sum_ones {A : Type} (l : list A) :
  list_sum (map (fun _ => 1) l) = List.length l.
Proof. induction l; simpl; auto. Qed.

(** The group of a service is the records of that service, as they
    came. *)
Lemma service_group_fold k : forall resources (o : option (list resource)),
  fold_left (fun o r => if String.eqb (service_key r) k
                        then Some (services_upd o r) else o) resources o
  = match o, filter (fun r => String.eqb (service_key r) k) resources with
    | None, [] => None
    | _, rs => Some (match o with Some g => g | None => [] end ++ rs)
    end.
Proof.
  induction resources as [|r rs IH]; intros o; simpl.
  - destruct o; [now rewrite app_nil_r | reflexivity].
  - rewrite IH. destruct (String.eqb (service_key r) k); simpl.
    + unfold services_upd.
      destruct (filter _ rs); destruct o; simpl;
        rewrite <- ?app_assoc; reflexivity.
    + reflexivity.
Qed.

Lemma region_count_fold k : forall resources (o : option nat),
  fold_left (fun o r => if String.eqb (region_key r) k
                        then Some (regions_upd o r) else o) resources o
  = match o, filter (fun r => String.eqb (region_key r) k) resources with
    | None, [] => None
    | _, rs => Some (match o with Some n => n | None => 0 end + List.length rs)
    end.
Proof.
  induction resources as [|r rs IH]; intros o; simpl.
  - destruct o; [f_equal; lia | reflexivity].
  - rewrite IH. destruct (String.eqb (region_key r) k); simpl.
    + unfold regions_upd.
      destruct (filter _ rs); destruct o; simpl; f_equal; lia.
    + reflexivity.
Qed.

Lemma get_group_by_service k resources :
  get k (group_by_service resources)
  = match filter (fun r => String.eqb (service_key r) k) resources with
    | [] => None
    | rs => Some rs
    end.
Proof.
  rewrite group_by_service_eq, Grouping.get_fold, service_group_fold.
  reflexivity.
Qed.

Lemma get_group_by_region k resources :
  get k (group_by_region resources)
  = match filter (fun r => String.eqb (region_key r) k) resources with
    | [] => None
    | rs => Some (List.length rs)
    end.
Proof.
  rewrite group_by_region_eq, Grouping.get_fold, region_count_fold.
  reflexivity.
Qed.

Lemma NoDup_keys_services resources : NoDup (keys (group_by_service resources)).
Proof.
  rewrite group_by_service_eq. apply Grouping.NoDup_keys_fold. constructor.
Qed.

Lemma NoDup_keys_regions resources : NoDup (keys (group_by_region resources)).
Proof.
  rewrite group_by_region_eq. apply Grouping.NoDup_keys_fold. constructor.
Qed.

Lemma total_services resources :
  total (@List.length resource) (group_by_service resources)
  = List.length resources.
Proof.
  rewrite group_by_service_eq.
  rewrite (Grouping.total_fold service_key services_upd (@List.length _) (fun _ => 1)).
  - now rewrite list_sum_ones.
  - intros o r. unfold services_upd. rewrite length_app. now destruct o.
Qed.

Lemma total_regions resources :
  total (fun n => n) (group_by_region resources) = List.length resources.
Proof.
  rewrite group_by_region_eq.
  rewrite (Grouping.total_fold region_key regions_upd (fun n => n) (fun _ => 1)).
  - now rewrite list_sum_ones.
  - intros o r. unfold regions_upd. reflexivity.
Qed.

(** C1.  However the records come, the two grouping loops of
    [format_html] file each of them once: the keys of [services] and of
    [regions] are distinct, the group of a service is exactly the records
    of that service and the count of a region exactly the number of
    records of that region, and so the region counts and the group sizes
    both add up to the number of records. *)
Theorem aggregation_counts_every_record_once resources :
  let services := group_by_service resources in
  let regions := group_by_region resources in
  total (fun n => n) regions = List.length resources
  /\ total (@List.length resource) services = List.length resources
  /\ total (fun n => n) regions = total (@List.length resource) services
  /\ NoDup (keys services)
  /\ NoDup (keys regions)
  /\ (forall r, In r resources ->
        get (service_key r) services
        = Some (filter (fun x => String.eqb (service_key x) (service_key r)) resources)
        /\ get (region_key r) regions
           = Some (List.length
                     (filter (fun x => String.eqb (region_key x) (region_key r)) resources)))
  /\ (forall k, ~ In k (map service_key resources) -> get k services = None)
  /\ (forall k, ~ In k (map region_key resources) -> get k regions = None).
Proof.
  cbv zeta. rewrite total_services, total_regions.
  repeat split; auto using NoDup_keys_services, NoDup_keys_regions.
  - rewrite get_group_by_service.
    destruct (filter _ resources) eqn:F; [|reflexivity].
    assert (I : In r (filter (fun x => String.eqb (service_key x) (service_key r)) resources))
      by (apply filter_In; split; [assumption | apply String.eqb_refl]).
    rewrite F in I. destruct I.
  - rewrite get_group_by_region.
    destruct (filter _ resources) eqn:F; [|reflexivity].
    assert (I : In r (filter (fun x => String.eqb (region_key x) (region_key r)) resources))
      by (apply filter_In; split; [assumption | apply String.eqb_refl]).
    rewrite F in I. destruct I.
  - intros k N. rewrite get_group_by_service.
    destruct (filter _ resources) as [|x xs] eqn:F; [reflexivity|].
    exfalso. apply N.
    assert (I : In x (filter (fun r => String.eqb (service_key r) k) resources))
      by (rewrite F; left; reflexivity).
    apply filter_In in I. destruct I as [I E]. apply String.eqb_eq in E.
    subst k. now apply in_map.
  - intros k N. rewrite get_group_by_region.
    destruct (filter _ resources) as [|x xs] eqn:F; [reflexivity|].
    exfalso. apply N.
    assert (I : In x (filter (fun r => String.eqb (region_key r) k) resources))
      by (rewrite F; left; reflexivity).
    apply filter_In in I. destruct I as [I E]. apply String.eqb_eq in E.
    subst k. now apply in_map.
Qed.

End AggregationFacts.

(** ** Reading the tabular dump back *)

Module CsvReaderFacts.
Import CsvReader PyStrFacts.

Definition special (c : ascii) : bool :=
  Ascii.eqb c comma || Ascii.eqb c quote || Ascii.eqb c CR || Ascii.eqb c LF.

Lemma needs_quotes_cons c s :
  csv_needs_quotes (String c s) = special c || csv_needs_quotes s.
Proof.
  unfold csv_needs_quotes, special. cbn [PyStr.contains_char].
  fold comma quote CR LF.
  destruct (Ascii.eqb c comma), (Ascii.eqb c quote), (Ascii.eqb c CR),
    (Ascii.eqb c LF), (PyStr.contains_char comma s),
    (PyStr.contains_char quote s), (PyStr.contains_char CR s); reflexivity.
Qed.

Lemma special_false c :
  special c = false ->
  Ascii.eqb c comma = false /\ Ascii.eqb c quote = false
  /\ Ascii.eqb c CR = false /\ Ascii.eqb c LF = false.
Proof.
  unfold special. intros H.
  apply orb_false_iff in H. destruct H as [H Hl].
  apply orb_false_iff in H. destruct H as [H Hr].
  apply orb_false_iff in H. destruct H as [Hc Hq]. auto.
Qed.

Lemma push_append field c s :
  (push field c ++ s = field ++ String c s)%string.
Proof. unfold push. now rewrite append_assoc. Qed.

(** The rest of a field written without quotes. *)
Lemma read_plain_tail f : forall field row rest,
  csv_needs_quotes f = false ->
  read (f ++ rest) InField field row = read rest InField (field ++ f) row.
Proof.
  induction f as [|c f IH]; intros field row rest P.
  - now rewrite append_nil_r.
  - rewrite needs_quotes_cons in P. apply orb_false_iff in P.
    destruct P as [Sc P]. apply special_false in Sc.
    destruct Sc as [Hc [_ [Hr Hl]]].
    cbn [append read step]. unfold end_field. rewrite Hc, Hr, Hl.
    rewrite IH by exact P. now rewrite push_append.
Qed.

(** The rest of a field written within quotes, up to the closing quote. *)
Lemma read_quoted_tail f : forall field row rest,
  read (PyStr.replace_char quote (PyStr.dq ++ PyStr.dq) f ++ String quote rest)
       InQuoted field row
  = read rest QuoteInQuoted (field ++ f) row.
Proof.
  induction f as [|c f IH]; intros field row rest.
  - cbn [PyStr.replace_char append read step]. rewrite Ascii.eqb_refl.
    now rewrite append_nil_r.
  - cbn [PyStr.replace_char]. fold quote.
    destruct (Ascii.eqb c quote) eqn:Q.
    + apply Ascii.eqb_eq in Q. subst c.
      change (PyStr.dq ++ PyStr.dq)%string
        with (String quote (String quote EmptyString)).
      cbn [append read step]. rewrite Ascii.eqb_refl.
      cbn [read step]. rewrite Ascii.eqb_refl.
      rewrite IH. now rewrite push_append.
    + cbn [append read step]. rewrite Q.
      rewrite IH. now rewrite push_append.
Qed.

(** A written field and the comma after it. *)
Lemma read_field_comma f row rest :
  read (csv_field f ++ String comma rest) StartField EmptyString row
  = read rest StartField EmptyString (row ++ [f]).
Proof.
  unfold csv_field. destruct (csv_needs_quotes f) eqn:P.
  - change PyStr.dq with (String quote EmptyString).
    cbn [append read step]. unfold start_field. rewrite Ascii.eqb_refl.
    rewrite append_assoc. cbn [append].
    rewrite read_quoted_tail. cbn [append read step].
    unfold end_field. now rewrite Ascii.eqb_refl.
  - destruct f as [|c f].
    + cbn [append read step]. unfold start_field, end_field.
      now rewrite Ascii.eqb_refl.
    + rewrite needs_quotes_cons in P. apply orb_false_iff in P.
      destruct P as [Sc P]. apply special_false in Sc.
      destruct Sc as [Hc [Hq [Hr Hl]]].
      cbn [append read step]. unfold start_field, end_field.
      rewrite Hq, Hc, Hr, Hl.
      rewrite read_plain_tail by exact P. cbn [append read step].
      unfold end_field. now rewrite Ascii.eqb_refl.
Qed.

(** A written field and the line end after it. *)
Lemma read_field_crlf f row rest :
  read (csv_field f ++ String CR (String LF rest)) StartField EmptyString row
  = (row ++ [f]) :: read rest StartRecord EmptyString [].
Proof.
  unfold csv_field. destruct (csv_needs_quotes f) eqn:P.
  - change PyStr.dq with (String quote EmptyString).
    cbn [append read step]. unfold start_field. rewrite Ascii.eqb_refl.
    rewrite append_assoc. cbn [append].
    rewrite read_quoted_tail. cbn [append read step].
    reflexivity.
  - destruct f as [|c f].
    + reflexivity.
    + rewrite needs_quotes_cons in P. apply orb_false_iff in P.
      destruct P as [Sc P]. apply special_false in Sc.
      destruct Sc as [Hc [Hq [Hr Hl]]].
      cbn [append read step]. unfold start_field, end_field.
      rewrite Hq, Hc, Hr, Hl.
      rewrite read_plain_tail by exact P. reflexivity.
Qed.

Lemma writerow_append fields rest :
  (csv_writerow fields ++ rest
   = PyStr.join "," (map csv_field fields) ++ String CR (String LF rest))%string.
Proof. unfold csv_writerow. now rewrite !append_assoc. Qed.

Lemma join_cons2 sep x y l :
  (PyStr.join sep (x :: y :: l) = x ++ sep ++ PyStr.join sep (y :: l))%string.
Proof. reflexivity. Qed.

(** The fields of a row from any of them on. *)
Lemma read_fields fields : forall row rest,
  fields <> [] ->
  read (PyStr.join "," (map csv_field fields) ++ String CR (String LF rest))
       StartField EmptyString row
  = (row ++ fields) :: read rest StartRecord EmptyString [].
Proof.
  induction fields as [|f fields IH]; intros row rest N; [congruence|].
  destruct fields as [|g fields].
  - cbn [map PyStr.join String.concat]. apply read_field_crlf.
  - cbn [map]. rewrite join_cons2, !append_assoc.
    change ("," ++ ?s)%string with (String comma s).
    cbn [append]. rewrite read_field_comma.
    cbn [map] in IH. rewrite IH by discriminate.
    now rewrite <- app_assoc.
Qed.

(** At the start of a row a written field reads as after a comma, as long
    as a comma follows it. *)
Lemma read_first_field f rest :
  read (csv_field f ++ String comma rest) StartRecord EmptyString []
  = read (csv_field f ++ String comma rest) StartField EmptyString [].
Proof.
  unfold csv_field. destruct (csv_needs_quotes f) eqn:P.
  - reflexivity.
  - destruct f as [|c f]; [reflexivity|].
    rewrite needs_quotes_cons in P. apply orb_false_iff in P.
    destruct P as [Sc _]. apply special_false in Sc.
    destruct Sc as [_ [_ [Hr Hl]]].
    cbn [append read step]. unfold start_record. now rewrite Hr, Hl.
Qed.

(** A written row of two fields or more reads back as its fields. *)
Lemma read_writerow fields rest :
  2 <= List.length fields ->
  read (csv_writerow fields ++ rest) StartRecord EmptyString []
  = fields :: read rest StartRecord EmptyString [].
Proof.
  intros L. destruct fields as [|f [|g fields]]; simpl in L; try lia.
  rewrite writerow_append. cbn [map]. rewrite join_cons2, !append_assoc.
  change ("," ++ ?s)%string with (String comma s).
  rewrite read_first_field, read_field_comma.
  change (csv_field g :: map csv_field fields) with (map csv_field (g :: fields)).
  rewrite read_fields by discriminate. reflexivity.
Qed.

Lemma read_rows (rows : list (list string)) :
  Forall (fun row => 2 <= List.length row) rows ->
  read (String.concat "" (map csv_writerow rows)) StartRecord EmptyString []
  = rows.
Proof.
  induction 1 as [|row rows L _ IH]; [reflexivity|].
  cbn [map]. rewrite concat_cons, read_writerow by exact L. now rewrite IH.
Qed.

End CsvReaderFacts.

(** ** The tabular dump *)

Section CsvFacts.
Context {pyobj : Type}.
Local Abbreviation resource := (@resource pyobj).
Local Abbreviation inventory := (@inventory pyobj).
Implicit Types (r : resource) (data : inventory).

(** The header line that both branches of [format_csv] start with, before
    its line terminator. *)
Definition csv_header : string := PyStr.join "," fieldnames.

Lemma csv_writerow_fieldnames :
  csv_writerow fieldnames = (csv_header ++ PyStr.cr ++ PyStr.lf)%string.
Proof. reflexivity. Qed.

Lemma csv_row_length r : List.length (csv_row r) = List.length fieldnames.
Proof. reflexivity. Qed.

(** [format_csv], read back: the header row and the row of each
    resource. *)
Lemma rows_of_format_csv data :
  CsvReader.rows_of (format_csv data)
  = fieldnames :: map csv_row (get_resources data).
Proof.
  unfold CsvReader.rows_of, format_csv.
  destruct (get_resources data) as [|r rs] eqn:E; [reflexivity|].
  rewrite CsvReaderFacts.read_writerow by (simpl; lia). f_equal.
  rewrite <- (map_map csv_row csv_writerow).
  apply CsvReaderFacts.read_rows.
  apply Forall_forall. intros row I. apply in_map_iff in I.
  destruct I as [x [<- _]]. simpl. lia.
Qed.

Lemma row_of_resource data i r :
  nth_error (get_resources data) i = Some r ->
  nth_error (CsvReader.rows_of (format_csv data)) (S i) = Some (csv_row r).
Proof.
  intros N. rewrite rows_of_format_csv. cbn [nth_error].
  rewrite nth_error_map, N. reflexivity.
Qed.

(** C4.  With no resources [format_csv] returns the header line alone, and
    the names on it are [service, type, id, name, region, arn, is_default,
    tags] in this order; with resources it returns the line of the same
    names followed by one written row per resource, in the order of the
    resources.  Read back, the text is the row of the eight names and then
    one row of eight fields for each resource, whatever the fields hold. *)
Theorem format_csv_header_then_one_row_per_resource data :
  CsvReader.rows_of (format_csv data)
  = ["service"; "type"; "id"; "name"; "region"; "arn"; "is_default"; "tags"]
    :: map csv_row (get_resources data)
  /\ List.length (CsvReader.rows_of (format_csv data))
     = 1 + List.length (get_resources data)
  /\ Forall (fun row => List.length row = 8) (CsvReader.rows_of (format_csv data))
  /\ (get_resources data = [] ->
      format_csv data = (csv_header ++ PyStr.lf)%string
      /\ CsvReader.rows_of (format_csv data) = [fieldnames])
  /\ (get_resources data <> [] ->
      format_csv data
      = (csv_header ++ PyStr.cr ++ PyStr.lf
         ++ String.concat "" (map (fun r => csv_writerow (csv_row r))
                                  (get_resources data)))%string).
Proof.
  rewrite rows_of_format_csv. split; [reflexivity|]. split; [|split; [|split]].
  - cbn [List.length]. now rewrite length_map.
  - constructor; [reflexivity|]. apply Forall_forall. intros row I.
    apply in_map_iff in I. destruct I as [r [<- _]]. reflexivity.
  - intros E. unfold format_csv. rewrite E. now split.
  - intros N. unfold format_csv.
    destruct (get_resources data) as [|r rs]; [congruence|].
    rewrite csv_writerow_fieldnames.
    rewrite !PyStrFacts.append_assoc. reflexivity.
Qed.

(** C5, as the code has it.  The last field of the row that [format_csv]
    writes for a record, which is the [tags] column of its row in the text
    read back, is the record's tags as [key=value] pairs joined by a
    semicolon and a space, and the empty string when the record has no
    tags (no [tags] key, or an empty mapping). *)
Theorem csv_tags_column r :
  nth_error fieldnames 7 = Some "tags"
  /\ nth_error (csv_row r) 7
     = Some (PyStr.join "; " (map (fun kv => fst kv ++ "=" ++ snd kv)%string
                                  (items (get_tags r))))
  /\ (get_tags r = [] -> nth_error (csv_row r) 7 = Some "")
  /\ (forall data i,
        nth_error (get_resources data) i = Some r ->
        nth_error (CsvReader.rows_of (format_csv data)) (S i) = Some (csv_row r)).
Proof.
  split; [reflexivity|]. split; [|split].
  - unfold csv_row, tags_str. cbn [nth_error].
    destruct (get_tags r) as [|kv tags]; reflexivity.
  - intros E. unfold csv_row, tags_str. cbn [nth_error]. now rewrite E.
  - intros data i. apply row_of_resource.
Qed.

(** The tags column as the specification words it: the pairs joined by a
    semicolon. *)
Definition tags_semicolon_joined r : string :=
  PyStr.join ";" (map tag_pair (items (get_tags r))).

(** C3, as the code has it.  A record without a region, or with a null
    one, is filed under ["global"] by the region loop of [format_html] and
    counted there, and its row in the report carries ["global"] as its
    region; the row that [format_csv] writes for it has the empty string in
    the region column. *)
Theorem absent_region_is_global_in_report_and_empty_in_csv
  (py_str : pyobj -> string) (py_kind : pyobj -> pykind)
  (json_dumps_value : pyobj -> string)
  data i r :
  nth_error (get_resources data) i = Some r ->
  res_region r = Absent \/ res_region r = Null ->
  region_key r = "global"
  /\ get "global" (group_by_region (get_resources data))
     = Some (List.length
               (filter (fun x => String.eqb (region_key x) "global")
                       (get_resources data)))
  /\ 0 < List.length (filter (fun x => String.eqb (region_key x) "global")
                             (get_resources data))
  /\ (forall service_name,
        row_region (build_row py_str py_kind json_dumps_value service_name r)
        = "global")
  /\ nth_error fieldnames 4 = Some "region"
  /\ (exists row,
        nth_error (CsvReader.rows_of (format_csv data)) (S i) = Some row
        /\ row = csv_row r
        /\ nth_error row 4 = Some "").
Proof.
  intros N A.
  assert (I : In r (get_resources data)) by (eapply nth_error_In; eassumption).
  assert (K : region_key r = "global").
  { unfold region_key. destruct A as [-> | ->]; reflexivity. }
  assert (F : In r (filter (fun x => String.eqb (region_key x) "global")
                           (get_resources data))).
  { apply filter_In. split; [exact I|]. rewrite K. reflexivity. }
  repeat split; auto.
  - rewrite get_group_by_region.
    destruct (filter _ (get_resources data)); [destruct F | reflexivity].
  - destruct (filter _ (get_resources data)); [destruct F | simpl; lia].
  - exists (csv_row r). split; [now apply row_of_resource|].
    split; [reflexivity|].
    unfold csv_row. destruct A as [-> | ->]; reflexivity.
Qed.

End CsvFacts.

(** ** [format_output] *)

(** The formats that [format_output] knows, by their lower-case names. *)
Definition supported (format_type : string) : bool :=
  String.eqb format_type "json" || String.eqb format_type "csv"
  || String.eqb format_type "html".

Section FormatOutputFacts.
Context {pyobj : Type}.
Variable py_str : pyobj -> string.
Variable py_kind : pyobj -> @pykind pyobj.
Variable json_dumps_value : pyobj -> string.
Variable html_template : page -> string.
Variable json_dumps : @inventory pyobj -> string.
Local Abbreviation format_output' :=
  (format_output py_str py_kind json_dumps_value html_template json_dumps).
Local Abbreviation format_html' :=
  (format_html py_str py_kind json_dumps_value html_template).
Implicit Types (data : @inventory pyobj) (format_type : string).

Lemma format_output_lower data format_type :
  format_output' data format_type = format_output' data (PyStr.lower format_type).
Proof.
  unfold format_output. now rewrite PyStrFacts.lower_idem.
Qed.

Lemma format_output_supported data format_type :
  supported (PyStr.lower format_type) = true ->
  format_output' data format_type
  = Returned (if String.eqb (PyStr.lower format_type) "json" then format_json json_dumps data
              else if String.eqb (PyStr.lower format_type) "csv" then format_csv data
              else format_html' data).
Proof.
  unfold supported, format_output. intros S.
  destruct (String.eqb (PyStr.lower format_type) "json"); [reflexivity|].
  destruct (String.eqb (PyStr.lower format_type) "csv"); [reflexivity|].
  destruct (String.eqb (PyStr.lower format_type) "html"); [reflexivity|].
  discriminate.
Qed.

Lemma format_output_unsupported data format_type :
  supported (PyStr.lower format_type) = false ->
  format_output' data format_type
  = ValueError ("Unsupported format: " ++ PyStr.lower format_type).
Proof.
  unfold supported, format_output. intros S.
  destruct (String.eqb (PyStr.lower format_type) "json"); [discriminate|].
  destruct (String.eqb (PyStr.lower format_type) "csv"); [discriminate|].
  destruct (String.eqb (PyStr.lower format_type) "html"); [discriminate|].
  reflexivity.
Qed.


End FormatOutputFacts.

(** ** [format_output] when a formatter raises *)

Module LooseFacts.

(** The inputs on which no statement of [format_html] raises. *)
Definition is_null {A : Type} (f : field A) : bool :=
  match f with Null => true | _ => false end.

Section Accepts.
Context {pyobj : Type}.
Variable py_kind : pyobj -> @pykind pyobj.
Variable json_dumps_value : pyobj -> Loose.result.

Definition records_of (data : @Loose.document pyobj) : list (@Loose.record pyobj) :=
  match Loose.doc_resources data with Value l => l | _ => [] end.

Definition html_accepts (data : @Loose.document pyobj) : bool :=
  negb (is_null (Loose.doc_metadata data))
  && negb (is_null (Loose.doc_resources data))
  && negb (existsb Loose.tags_is_null (records_of data))
  && negb (existsb Loose.service_is_null (records_of data))
  && match Loose.first_failure py_kind json_dumps_value
             (Loose.detail_values_in_order (map Loose.as_resource (records_of data))) with
     | None => true
     | Some _ => false
     end.
End Accepts.

Section Facts.
Context {pyobj : Type}.
Variable py_str : pyobj -> string.
Variable py_kind : pyobj -> @pykind pyobj.
Variable json_dumps_value : pyobj -> Loose.result.
Variable html_template : page -> string.
Variable json_dumps : @Loose.document pyobj -> Loose.result.
Local Abbreviation format_output' :=
  (Loose.format_output py_str py_kind json_dumps_value html_template json_dumps).
Local Abbreviation format_html' :=
  (Loose.format_html py_str py_kind json_dumps_value html_template).
Local Abbreviation html_accepts' := (html_accepts py_kind json_dumps_value).
Local Abbreviation report :=
  (format_html py_str py_kind (Loose.dumped json_dumps_value) html_template).
Implicit Types (data : @Loose.document pyobj) (r : @Loose.record pyobj) (format_type : string).

Lemma csv_row_as_resource r : csv_row (Loose.as_resource r) = Loose.csv_row r.
Proof.
  unfold csv_row, Loose.csv_row, tags_str, Loose.tags_str, get_tags.
  cbn [Loose.as_resource res_service res_type res_id res_name res_region res_arn
       res_is_default res_tags].
  destruct (Loose.rec_service r), (Loose.rec_tags r); reflexivity.
Qed.

(** [format_csv] reads a key bound to [None] like an absent one. *)
Lemma format_csv_as_inventory data :
  Loose.format_csv data = format_csv (Loose.as_inventory data).
Proof.
  unfold Loose.format_csv, format_csv, get_resources, Loose.as_inventory.
  cbn [inv_resources].
  destruct (Loose.doc_resources data) as [| |[|r resources]]; try reflexivity.
  cbn [field_get Loose.present option_map map]. f_equal. f_equal.
  rewrite map_map. cbn [map]. rewrite csv_row_as_resource. f_equal.
  apply map_ext. intros r'. now rewrite csv_row_as_resource.
Qed.

Lemma format_output_dispatch data format_type :
  format_output' data format_type
  = if String.eqb (PyStr.lower format_type) "json" then json_dumps data
    else if String.eqb (PyStr.lower format_type) "csv"
         then Loose.Returned (Loose.format_csv data)
    else if String.eqb (PyStr.lower format_type) "html" then format_html' data
    else Loose.Raised (Loose.ValueError ("Unsupported format: " ++ PyStr.lower format_type)).
Proof. reflexivity. Qed.

Lemma format_html_accepted data :
  html_accepts' data = true ->
  format_html' data = Loose.Returned (report (Loose.as_inventory data)).
Proof.
  unfold html_accepts, Loose.format_html, records_of, is_null.
  intros H. repeat (apply andb_true_iff in H; destruct H as [H ?]).
  destruct (Loose.doc_metadata data); try discriminate;
    destruct (Loose.doc_resources data) as [| |records]; try discriminate;
    repeat match goal with
           | E : negb ?b = true |- _ => apply negb_true_iff in E; rewrite ?E
           end;
    cbn [existsb] in *;
    match goal with
    | E : match ?x with None => true | Some _ => false end = true |- _ =>
        destruct x; [discriminate | reflexivity]
    end.
Qed.

Lemma format_html_refused data :
  html_accepts' data = false -> exists e, format_html' data = Loose.Raised e.
Proof.
  unfold html_accepts, Loose.format_html, records_of, is_null. intros H.
  destruct (Loose.doc_metadata data); try (eexists; reflexivity);
    destruct (Loose.doc_resources data) as [| |records]; try (eexists; reflexivity);
    cbn [negb andb existsb] in H |- *;
    try (destruct (existsb Loose.tags_is_null records); [eexists; reflexivity|];
         destruct (existsb Loose.service_is_null records);
           [destruct (forallb Loose.service_is_null records); eexists; reflexivity|]);
    cbn [negb andb] in H;
    match goal with
    | |- context [Loose.first_failure ?k ?j ?l] =>
        destruct (Loose.first_failure k j l); [eexists; reflexivity | discriminate]
    end.
Qed.

(** An inventory of the expected shape passes every statement up to the
    calls of [json.dumps]. *)
Lemma as_inventory_of_inventory (inv : @inventory pyobj) :
  Loose.as_inventory (Loose.of_inventory inv) = inv.
Proof.
  destruct inv as [md resources]. unfold Loose.as_inventory, Loose.of_inventory.
  cbn [Loose.doc_metadata Loose.doc_resources inv_metadata inv_resources].
  f_equal; [now destruct md|].
  destruct resources as [l|]; [|reflexivity].
  cbn [option_map Loose.of_field Loose.present]. f_equal. rewrite map_map.
  rewrite <- (map_id l) at 2. apply map_ext.
  intros [s t i n g a d tags details]. unfold Loose.as_resource, Loose.of_resource.
  cbn. now destruct s, tags.
Qed.

Lemma html_accepts_of_inventory (inv : @inventory pyobj) :
  Loose.first_failure py_kind json_dumps_value
    (Loose.detail_values_in_order (get_resources inv)) = None ->
  html_accepts' (Loose.of_inventory inv) = true.
Proof.
  intros F. unfold html_accepts.
  assert (R : map Loose.as_resource (records_of (Loose.of_inventory inv)) = get_resources inv).
  { pose proof (as_inventory_of_inventory inv) as E.
    apply (f_equal get_resources) in E. rewrite <- E.
    unfold Loose.as_inventory, get_resources, records_of. cbn [inv_resources].
    now destruct (Loose.doc_resources (Loose.of_inventory inv)). }
  rewrite R, F.
  assert (N : forall l : list (@resource pyobj),
            existsb Loose.tags_is_null (map Loose.of_resource l) = false
            /\ existsb Loose.service_is_null (map Loose.of_resource l) = false).
  { induction l as [|[s t i n g a d tags details] l [IHt IHs]]; [now split|].
    cbn [map existsb]. rewrite IHt, IHs.
    unfold Loose.tags_is_null, Loose.service_is_null, Loose.of_resource. cbn.
    now destruct s, tags. }
  destruct inv as [md [l|]]; unfold records_of, Loose.of_inventory, is_null;
    cbn [Loose.doc_metadata Loose.doc_resources inv_metadata inv_resources option_map Loose.of_field].
  - destruct (N l) as [-> ->]. now destruct md.
  - now destruct md.
Qed.


End Facts.
End LooseFacts.

(** ** The order of strings *)

Module StringOrder.

Lemma ascii_compare_refl c : Ascii.compare c c = Eq.
Proof. unfold Ascii.compare. apply N.compare_refl. Qed.

Lemma ascii_compare_lt_trans a b c :
  Ascii.compare a b = Lt -> Ascii.compare b c = Lt -> Ascii.compare a c = Lt.
Proof.
  unfold Ascii.compare. rewrite !N.compare_lt_iff. apply N.lt_trans.
Qed.

Lemma compare_refl s : String.compare s s = Eq.
Proof.
  induction s as [|c s IH]; simpl; [reflexivity|].
  now rewrite ascii_compare_refl.
Qed.

Lemma leb_refl s : String.leb s s = true.
Proof. unfold String.leb. now rewrite compare_refl. Qed.

Lemma leb_trans s1 : forall s2 s3,
  String.leb s1 s2 = true -> String.leb s2 s3 = true -> String.leb s1 s3 = true.
Proof.
  unfold String.leb.
  induction s1 as [|c1 s1 IH]; intros [|c2 s2] [|c3 s3]; simpl; try easy.
  destruct (Ascii.compare c1 c2) eqn:E12; try easy.
  - apply Ascii.compare_eq_iff in E12. subst c2.
    destruct (Ascii.compare c1 c3) eqn:E13; try easy. apply IH.
  - destruct (Ascii.compare c2 c3) eqn:E23; try easy.
    + apply Ascii.compare_eq_iff in E23. subst c3. now rewrite E12.
    + now rewrite (ascii_compare_lt_trans _ _ _ E12 E23).
Qed.

Lemma ltb_leb_neq s1 s2 : String.ltb s1 s2 = true <-> String.leb s1 s2 = true /\ s1 <> s2.
Proof.
  unfold String.ltb, String.leb.
  destruct (String.compare s1 s2) eqn:E.
  - apply String.compare_eq_iff in E. subst. split; [easy | intros [_ N]; now elim N].
  - split; [|easy]. intros _. split; [reflexivity|]. intros ->.
    now rewrite compare_refl in E.
  - split; [easy | intros [H _]; easy].
Qed.

End StringOrder.

(** ** [sorted] *)

Module SortedFacts.
Section Facts.
Context {A : Type}.
Variable le : A -> A -> bool.

Lemma insert_by_perm x l : Permutation (insert_by le x l) (x :: l).
Proof.
  induction l as [|y l IH]; simpl; [reflexivity|].
  destruct (le x y); [reflexivity|].
  rewrite IH. apply perm_swap.
Qed.

Lemma sorted_by_perm l : Permutation (sorted_by le l) l.
Proof.
  induction l as [|x l IH]; simpl; [reflexivity|].
  rewrite insert_by_perm. now constructor.
Qed.

Lemma sorted_by_In x l : In x (sorted_by le l) <-> In x l.
Proof.
  split; apply Permutation_in; [|symmetry]; apply sorted_by_perm.
Qed.

Lemma sorted_by_NoDup l : NoDup l -> NoDup (sorted_by le l).
Proof.
  apply Permutation_NoDup. symmetry. apply sorted_by_perm.
Qed.

(** Elements that [le] puts in one class keep their order. *)
Lemma filter_insert_by (p : A -> bool) x l :
  (forall y, p x = true -> p y = true -> le x y = true) ->
  filter p (insert_by le x l) = filter p (x :: l).
Proof.
  intros C. induction l as [|y l IH]; [reflexivity|].
  cbn [insert_by]. destruct (le x y) eqn:L; [reflexivity|].
  cbn [filter] in *. rewrite IH.
  destruct (p x) eqn:Px; [|reflexivity].
  destruct (p y) eqn:Py; [|reflexivity].
  rewrite (C y eq_refl Py) in L. discriminate.
Qed.

Lemma filter_sorted_by (p : A -> bool) l :
  (forall x y, p x = true -> p y = true -> le x y = true) ->
  filter p (sorted_by le l) = filter p l.
Proof.
  intros C. induction l as [|x l IH]; [reflexivity|].
  cbn [sorted_by fold_right]. fold (sorted_by le l).
  rewrite filter_insert_by by (apply C).
  cbn [filter]. now rewrite IH.
Qed.

Hypothesis le_total : forall a b, le a b = true \/ le b a = true.
Hypothesis le_trans : forall a b c, le a b = true -> le b c = true -> le a c = true.

Lemma insert_by_sorted x l :
  StronglySorted (fun a b => le a b = true) l ->
  StronglySorted (fun a b => le a b = true) (insert_by le x l).
Proof.
  induction 1 as [|y l S IH F]; simpl; [repeat constructor|].
  destruct (le x y) eqn:L.
  - constructor; [now constructor|]. constructor; [exact L|].
    eapply Forall_impl; [|exact F]. intros z. now apply le_trans.
  - constructor; [exact IH|].
    apply Forall_forall. intros z I.
    apply (Permutation_in _ (insert_by_perm x l)) in I. destruct I as [<- | I].
    + destruct (le_total x y) as [T | T]; [congruence | exact T].
    + rewrite Forall_forall in F. now apply F.
Qed.

Lemma sorted_by_sorted l :
  StronglySorted (fun a b => le a b = true) (sorted_by le l).
Proof.
  induction l as [|x l IH]; simpl; [constructor|].
  now apply insert_by_sorted.
Qed.

End Facts.

Lemma StronglySorted_impl {A : Type} (R S : A -> A -> Prop) l :
  (forall a b, In a l -> In b l -> R a b -> S a b) ->
  StronglySorted R l -> StronglySorted S l.
Proof.
  intros H Srt. induction Srt as [|x l Srt IH F]; constructor.
  - apply IH. intros a b Ia Ib. apply H; now right.
  - rewrite Forall_forall in *. intros y I.
    apply H; [now left | now right | now apply F].
Qed.

Lemma sorted_strings_perm l : Permutation (sorted_strings l) l.
Proof. apply sorted_by_perm. Qed.

Lemma sorted_strings_In x l : In x (sorted_strings l) <-> In x l.
Proof. apply sorted_by_In. Qed.

(** Distinct strings come out of [sorted] in strictly rising order. *)
Lemma sorted_strings_strict l :
  NoDup l -> StronglySorted (fun a b => String.ltb a b = true) (sorted_strings l).
Proof.
  intros ND.
  assert (S : StronglySorted (fun a b => String.leb a b = true) (sorted_strings l))
    by (apply sorted_by_sorted; [apply String.leb_total | apply StringOrder.leb_trans]).
  assert (ND' : NoDup (sorted_strings l)) by now apply sorted_by_NoDup.
  induction S as [|x xs S IH F]; constructor.
  - apply IH. now inversion ND'.
  - inversion ND' as [|? ? NI _]; subst.
    rewrite Forall_forall in *. intros y I.
    apply StringOrder.ltb_leb_neq. split; [now apply F|].
    intros ->. contradiction.
Qed.

End SortedFacts.

(** ** The tag vocabulary *)

(** The order of the vocabulary: by key, then by value. *)
Definition pair_lt (a b : string * string) : Prop :=
  String.ltb (fst a) (fst b) = true
  \/ (fst a = fst b /\ String.ltb (snd a) (snd b) = true).

Section TagFacts.
Context {pyobj : Type}.
Local Abbreviation resource := (@resource pyobj).
Import PyDictFacts.
Implicit Types (r : resource) (resources : list resource).

(** Every [(key, value)] of every record, in the order the loops of
    "Collect all unique tags" meet them. *)
Definition all_pairs resources : list (string * string) :=
  flat_map (fun r => items (get_tags r)) resources.

Definition tags_upd (o : option (list string)) (kv : string * string)
  : list string :=
  set_add (snd kv) (match o with Some vs => vs | None => [] end).

Lemma all_tags_add_eq d kv : all_tags_add d kv = Grouping.step fst tags_upd d kv.
Proof.
  destruct kv as [k v].
  unfold all_tags_add, Grouping.step, tags_upd, mem. simpl.
  destruct (get k d) eqn:G.
  - rewrite G. reflexivity.
  - rewrite get_set_same. apply set_set.
Qed.

Lemma collect_tags_eq resources :
  collect_tags resources
  = fold_left (Grouping.step fst tags_upd) (all_pairs resources) [].
Proof.
  unfold collect_tags, all_pairs. generalize (@nil (string * list string)).
  induction resources as [|r rs IH]; intros d; simpl; [reflexivity|].
  rewrite fold_left_app, IH. f_equal.
  unfold all_tags_step. apply fold_left_ext, all_tags_add_eq.
Qed.

Lemma set_add_In v x s : In x (set_add v s) <-> x = v \/ In x s.
Proof.
  unfold set_add. destruct (existsb (String.eqb v) s) eqn:E.
  - split; [tauto|]. intros [-> | I]; [|exact I].
    apply existsb_exists in E. destruct E as [y [I E]].
    apply String.eqb_eq in E. now subst.
  - rewrite in_app_iff. simpl. intuition.
Qed.

Lemma set_add_NoDup v s : NoDup s -> NoDup (set_add v s).
Proof.
  intros ND. unfold set_add. destruct (existsb (String.eqb v) s) eqn:E; [exact ND|].
  apply NoDup_app; [exact ND | repeat constructor; simpl; tauto |].
  intros x I [-> | []].
  assert (X : existsb (String.eqb x) s = true)
    by (apply existsb_exists; exists x; split; [exact I | apply String.eqb_refl]).
  congruence.
Qed.

(** The set kept for key [k] after the pairs [kvs]. *)
Lemma tag_set_fold k : forall kvs (o : option (list string)),
  (forall vs, o = Some vs -> NoDup vs) ->
  match fold_left (fun o kv => if String.eqb (fst kv) k
                               then Some (tags_upd o kv) else o) kvs o with
  | Some vs =>
      NoDup vs
      /\ (forall v, In v vs <-> In (k, v) kvs \/ (exists vs0, o = Some vs0 /\ In v vs0))
  | None => o = None /\ forall v, ~ In (k, v) kvs
  end.
Proof.
  induction kvs as [|[k' v'] kvs IH]; intros o ND; simpl.
  - destruct o as [vs|].
    + split; [now apply ND|]. intros v. split; [eauto|].
      intros [[] | [vs0 [[= <-] I]]]. exact I.
    + split; [reflexivity | tauto].
  - destruct (String.eqb_spec k' k) as [-> | N].
    + specialize (IH (Some (tags_upd o (k, v')))).
      destruct (fold_left _ kvs _) as [vs|].
      * destruct IH as [ND' M].
        { intros vs0 [= <-]. apply set_add_NoDup.
          destruct o; [now apply ND | constructor]. }
        split; [exact ND'|]. intros v. rewrite M. unfold tags_upd. simpl.
        split.
        -- intros [I | [vs0 [[= <-] I]]]; [tauto|].
           apply set_add_In in I. destruct I as [-> | I]; [tauto|].
           right. destruct o as [vs1|]; [eauto | destruct I].
        -- intros [[[= ->] | I] | [vs0 [-> I]]]; [|tauto|].
           ++ right. eexists. split; [reflexivity|]. apply set_add_In. tauto.
           ++ right. eexists. split; [reflexivity|]. apply set_add_In. tauto.
      * destruct IH as [C _]; [|discriminate].
        intros vs0 [= <-]. apply set_add_NoDup.
        destruct o; [now apply ND | constructor].
    + specialize (IH o ND).
      destruct (fold_left _ kvs o) as [vs|].
      * destruct IH as [ND' M]. split; [exact ND'|].
        intros v. rewrite M. split; [tauto|].
        intros [[[= E _] | I] | I]; [congruence | tauto | tauto].
      * destruct IH as [-> M]. split; [reflexivity|].
        intros v [[= E _] | I]; [congruence | now apply (M v)].
Qed.

Lemma get_collect_tags k resources :
  match get k (collect_tags resources) with
  | Some vs => NoDup vs /\ forall v, In v vs <-> In (k, v) (all_pairs resources)
  | None => forall v, ~ In (k, v) (all_pairs resources)
  end.
Proof.
  rewrite collect_tags_eq, Grouping.get_fold. simpl.
  pose proof (tag_set_fold k (all_pairs resources) None) as T.
  destruct (fold_left _ _ None) as [vs|].
  - destruct T as [ND M]; [discriminate|]. split; [exact ND|].
    intros v. rewrite M. split; [|tauto].
    intros [I | [vs0 [[=] _]]]. exact I.
  - destruct T as [_ M]; [discriminate | exact M].
Qed.

Lemma NoDup_keys_collect_tags resources : NoDup (keys (collect_tags resources)).
Proof.
  rewrite collect_tags_eq. apply Grouping.NoDup_keys_fold. constructor.
Qed.

Lemma all_pairs_In k v resources :
  In (k, v) (all_pairs resources)
  <-> exists r, In r resources /\ In (k, v) (items (get_tags r)).
Proof. unfold all_pairs. apply in_flat_map. Qed.

(** Blocks of pairs under rising keys, each block rising by value, make a
    list that rises by key and then by value. *)
Lemma flat_map_pairs_sorted (f : string -> list string) ks :
  StronglySorted (fun a b => String.ltb a b = true) ks ->
  (forall k, StronglySorted (fun a b => String.ltb a b = true) (f k)) ->
  StronglySorted pair_lt (flat_map (fun k => map (fun v => (k, v)) (f k)) ks).
Proof.
  intros Sk Sv. induction Sk as [|k ks Sk IH F]; simpl; [constructor|].
  assert (B : forall vs, StronglySorted (fun a b => String.ltb a b = true) vs ->
     StronglySorted pair_lt
       (map (fun v => (k, v)) vs
        ++ flat_map (fun k0 => map (fun v => (k0, v)) (f k0)) ks)).
  { induction 1 as [|v vs Sv' IHv Fv]; simpl; [exact IH|].
    constructor; [exact IHv|].
    apply Forall_app. split.
    - apply Forall_forall. intros [k1 v1] I. apply in_map_iff in I.
      destruct I as [v2 [[= <- <-] I]]. right. simpl. split; [reflexivity|].
      rewrite Forall_forall in Fv. now apply Fv.
    - apply Forall_forall. intros [k1 v1] I. apply in_flat_map in I.
      destruct I as [k2 [Ik I]]. apply in_map_iff in I.
      destruct I as [v2 [[= <- <-] _]]. left. simpl.
      rewrite Forall_forall in F. now apply F. }
  apply B, Sv.
Qed.

Lemma pair_lt_irrefl a : ~ pair_lt a a.
Proof.
  intros [H | [_ H]]; apply StringOrder.ltb_leb_neq in H; now destruct H.
Qed.

Lemma StronglySorted_NoDup {A : Type} (R : A -> A -> Prop) l :
  (forall a, ~ R a a) -> StronglySorted R l -> NoDup l.
Proof.
  intros Irr. induction 1 as [|x l S IH F]; constructor; [|exact IH].
  intros I. rewrite Forall_forall in F. exact (Irr x (F x I)).
Qed.

(** C8.  The pairs behind the tag options of the report: each [(key,
    value)] that some record carries is there, no other pair is, none is
    there twice, and they rise by key and, under one key, by value (in the
    order of strings, character by character).  The options are these
    pairs, one option each, in this order. *)
Theorem tag_vocabulary_distinct_and_sorted resources :
  let vocabulary := tag_vocabulary (collect_tags resources) in
  (forall k v, In (k, v) vocabulary
               <-> exists r, In r resources /\ In (k, v) (items (get_tags r)))
  /\ NoDup vocabulary
  /\ StronglySorted pair_lt vocabulary
  /\ tag_options (collect_tags resources) = map tag_option vocabulary.
Proof.
  cbv zeta.
  assert (Srt : StronglySorted pair_lt (tag_vocabulary (collect_tags resources))).
  { unfold tag_vocabulary. apply flat_map_pairs_sorted.
    - apply SortedFacts.sorted_strings_strict, NoDup_keys_collect_tags.
    - intros k. apply SortedFacts.sorted_strings_strict. unfold lookup.
      pose proof (get_collect_tags k resources) as G.
      destruct (get k (collect_tags resources)); [apply G | constructor]. }
  repeat split.
  - intros I. apply all_pairs_In. unfold tag_vocabulary in I.
    apply in_flat_map in I. destruct I as [k' [Ik I]].
    apply in_map_iff in I. destruct I as [v' [[= -> ->] I]].
    apply (proj1 (SortedFacts.sorted_strings_In _ _)) in I. unfold lookup in I.
    pose proof (get_collect_tags k resources) as G.
    destruct (get k (collect_tags resources)); [|destruct I].
    destruct G as [_ G]. now apply G.
  - intros I. apply all_pairs_In in I. unfold tag_vocabulary.
    pose proof (get_collect_tags k resources) as G.
    destruct (get k (collect_tags resources)) as [vs|] eqn:E;
      [|now elim (G v)].
    apply in_flat_map. exists k. split.
    + apply SortedFacts.sorted_strings_In.
      apply get_Some_In in E. apply (in_map fst) in E. exact E.
    + apply in_map. apply SortedFacts.sorted_strings_In.
      unfold lookup. rewrite E. destruct G as [_ G]. now apply G.
  - eapply StronglySorted_NoDup; [apply pair_lt_irrefl | exact Srt].
  - exact Srt.
Qed.

End TagFacts.

(** ** The stats cards *)

Module TopFacts.
Section Descending.
Context {A : Type}.
Variable count : A -> nat.

(** [sorted(..., key=count, reverse=True)] *)
Definition by_count (x y : A) : bool := (count y <=? count x)%nat.

Lemma by_count_spec l :
  Permutation (sorted_by by_count l) l
  /\ StronglySorted (fun a b => count b <= count a) (sorted_by by_count l)
  /\ (forall c, filter (fun x => (count x =? c)%nat) (sorted_by by_count l)
                = filter (fun x => (count x =? c)%nat) l).
Proof.
  split; [apply SortedFacts.sorted_by_perm|]. split.
  - apply SortedFacts.StronglySorted_impl
      with (R := fun a b => by_count a b = true).
    + intros a b _ _ H. unfold by_count in H. now apply Nat.leb_le.
    + apply SortedFacts.sorted_by_sorted; unfold by_count.
      * intros a b. rewrite !Nat.leb_le. lia.
      * intros a b c. rewrite !Nat.leb_le. lia.
  - intros c. apply SortedFacts.filter_sorted_by.
    intros x y Hx Hy. unfold by_count.
    apply Nat.eqb_eq in Hx, Hy. apply Nat.leb_le. lia.
Qed.

Lemma sorted_split (R : A -> A -> Prop) n l :
  StronglySorted R l ->
  forall a b, In a (firstn n l) -> In b (skipn n l) -> R a b.
Proof.
  intros S. revert n. induction S as [|x l S IH F]; intros n a b Ia Ib.
  - rewrite firstn_nil in Ia. destruct Ia.
  - destruct n as [|n]; simpl in *; [destruct Ia|].
    destruct Ia as [<- | Ia].
    + rewrite Forall_forall in F. apply F.
      rewrite <- (firstn_skipn n l). apply in_or_app. now right.
    + now apply (IH n).
Qed.

Lemma In_firstn n (l : list A) x : In x (firstn n l) -> In x l.
Proof.
  intros I. rewrite <- (firstn_skipn n l). apply in_or_app. now left.
Qed.
End Descending.

(** [min(100, count*100//max(1,total))] for a count within the total *)
Lemma bar_width_spec count total_resources :
  count <= total_resources ->
  bar_width count total_resources <= 100
  /\ (0 < total_resources ->
      bar_width count total_resources = count * 100 / total_resources)
  /\ (total_resources = 0 -> bar_width count total_resources = 0).
Proof.
  intros L. unfold bar_width. split; [apply Nat.le_min_l|]. split.
  - intros P. replace (Nat.max 1 total_resources) with total_resources by lia.
    apply Nat.min_r. apply Nat.Div0.div_le_upper_bound. lia.
  - intros ->. replace count with 0 by lia. reflexivity.
Qed.

End TopFacts.

(** The keys in the order in which a loop meets them for the first time. *)
Definition first_seen (ks : list string) : list string :=
  fold_left (fun seen k => if existsb (String.eqb k) seen then seen else seen ++ [k])
            ks [].

Section StatsFacts.
Context {pyobj : Type}.
Local Abbreviation resource := (@resource pyobj).
Import PyDictFacts.
Implicit Types (r : resource) (resources : list resource).

Definition group_size (x : string * list resource) : nat := List.length (snd x).
Definition region_count (x : string * nat) : nat := snd x.

Lemma mem_existsb {V : Type} k (d : dict V) :
  mem k d = existsb (String.eqb k) (keys d).
Proof.
  unfold mem. induction d as [|[k0 v0] d IH]; simpl; [reflexivity|].
  rewrite String.eqb_sym. destruct (String.eqb k k0); [reflexivity | exact IH].
Qed.

Lemma keys_grouping {R V : Type} (key : R -> string) (upd : option V -> R -> V) :
  forall rs d,
    keys (fold_left (Grouping.step key upd) rs d)
    = fold_left (fun seen k => if existsb (String.eqb k) seen then seen
                               else seen ++ [k])
                (map key rs) (keys d).
Proof.
  induction rs as [|r rs IH]; intros d; simpl; [reflexivity|].
  rewrite IH. f_equal. unfold Grouping.step.
  rewrite keys_set, mem_existsb. reflexivity.
Qed.

Lemma services_in_first_seen_order resources :
  keys (group_by_service resources) = first_seen (map service_key resources).
Proof. rewrite group_by_service_eq. apply keys_grouping. Qed.

Lemma regions_in_first_seen_order resources :
  keys (group_by_region resources) = first_seen (map region_key resources).
Proof. rewrite group_by_region_eq. apply keys_grouping. Qed.

Lemma group_size_le resources s g :
  In (s, g) (items (group_by_service resources)) ->
  List.length g <= List.length resources.
Proof.
  intros I. unfold items in I. apply In_get in I; [|apply NoDup_keys_services].
  rewrite get_group_by_service in I.
  destruct (filter _ resources) as [|x xs] eqn:F; [discriminate|].
  injection I as <-. rewrite <- F. apply filter_length_le.
Qed.

Lemma region_count_le resources reg n :
  In (reg, n) (items (group_by_region resources)) ->
  n <= List.length resources.
Proof.
  intros I. unfold items in I. apply In_get in I; [|apply NoDup_keys_regions].
  rewrite get_group_by_region in I.
  pose proof (filter_length_le (fun r => String.eqb (region_key r) reg) resources) as L.
  destruct (filter _ resources) as [|x xs]; [discriminate|].
  injection I as <-. exact L.
Qed.

(** C9.  The two charts of [format_html].  The groups are taken in
    descending order of their count, groups of equal count in the order in
    which the dictionary gives them, which is the order in which the
    records show their service (or region) for the first time; the first
    five are kept, so no group left out has more records than a group
    kept.  The width of a bar is the count times 100 divided by the number
    of records, rounded down, never more than 100; with no records at all
    the division is by 1 and the width is 0. *)
Theorem top_five_charts resources :
  let total_resources := List.length resources in
  let services := group_by_service resources in
  let regions := group_by_region resources in
  let ranked_services := sorted_by (TopFacts.by_count group_size) (items services) in
  let ranked_regions := sorted_by (TopFacts.by_count region_count) (items regions) in
  (top_services services = firstn 5 ranked_services
   /\ Permutation ranked_services (items services)
   /\ StronglySorted (fun a b => group_size b <= group_size a) ranked_services
   /\ (forall c, filter (fun x => (group_size x =? c)%nat) ranked_services
                 = filter (fun x => (group_size x =? c)%nat) (items services))
   /\ keys services = first_seen (map service_key resources)
   /\ (forall a b, In a (top_services services) -> In b (skipn 5 ranked_services) ->
                   group_size b <= group_size a))
  /\ (top_regions regions = firstn 5 ranked_regions
      /\ Permutation ranked_regions (items regions)
      /\ StronglySorted (fun a b => region_count b <= region_count a) ranked_regions
      /\ (forall c, filter (fun x => (region_count x =? c)%nat) ranked_regions
                    = filter (fun x => (region_count x =? c)%nat) (items regions))
      /\ keys regions = first_seen (map region_key resources)
      /\ (forall a b, In a (top_regions regions) -> In b (skipn 5 ranked_regions) ->
                      region_count b <= region_count a))
  /\ (forall s g, In (s, g) (top_services services) ->
        let width := bar_width (List.length g) total_resources in
        width <= 100
        /\ (0 < total_resources -> width = List.length g * 100 / total_resources)
        /\ (total_resources = 0 -> width = 0))
  /\ (forall reg count, In (reg, count) (top_regions regions) ->
        let width := bar_width count total_resources in
        width <= 100
        /\ (0 < total_resources -> width = count * 100 / total_resources)
        /\ (total_resources = 0 -> width = 0))
  /\ (forall count total, bar_width count total = Nat.min 100 (count * 100 / Nat.max 1 total))
  /\ bar_width 0 0 = 0.
Proof.
  cbv zeta.
  destruct (TopFacts.by_count_spec group_size (items (group_by_service resources)))
    as [Ps [Ss Fs]].
  destruct (TopFacts.by_count_spec region_count (items (group_by_region resources)))
    as [Pr [Sr Fr]].
  repeat match goal with |- _ /\ _ => split end;
    try reflexivity; try assumption.
  - apply services_in_first_seen_order.
  - intros a b. apply (TopFacts.sorted_split _ 5 _ Ss).
  - apply regions_in_first_seen_order.
  - intros a b. apply (TopFacts.sorted_split _ 5 _ Sr).
  - intros s g I. apply TopFacts.bar_width_spec.
    apply (group_size_le resources s). unfold top_services in I.
    apply TopFacts.In_firstn in I.
    apply (Permutation_in _ Ps). exact I.
  - intros reg n I. apply TopFacts.bar_width_spec.
    apply (region_count_le resources reg). unfold top_regions in I.
    apply TopFacts.In_firstn in I.
    apply (Permutation_in _ Pr). exact I.
Qed.

End StatsFacts.

(** ** Highlighting *)

Module HighlightFacts.
Import Script PyStrFacts.

(** [s] without its first [n] characters *)
Fixpoint drop (n : nat) (s : string) : string :=
match n, s with
| 0, _ => s
| S n', String _ s' => drop n' s'
| S _, EmptyString => EmptyString
end.

Lemma substring_drop a m s :
  String.substring a m s = String.substring 0 m (drop a s).
Proof.
  revert s. induction a as [|a IH]; intros [|c s]; simpl; auto.
  destruct m; reflexivity.
Qed.

Lemma take_drop m s : (String.substring 0 m s ++ drop m s = s)%string.
Proof.
  revert s. induction m as [|m IH]; intros [|c s]; simpl; auto.
  now rewrite IH.
Qed.

Lemma drop_drop a m s : drop (a + m) s = drop m (drop a s).
Proof.
  revert s. induction a as [|a IH]; intros [|c s]; simpl; auto.
  destruct m; reflexivity.
Qed.

Lemma length_drop n s : String.length (drop n s) = String.length s - n.
Proof.
  revert s. induction n as [|n IH]; intros [|c s]; simpl; auto; lia.
Qed.

Lemma take_all m s : String.length s <= m -> String.substring 0 m s = s.
Proof.
  revert s. induction m as [|m IH]; intros [|c s]; simpl; auto; try lia.
  intros L. rewrite IH; [reflexivity | lia].
Qed.

Lemma drop_all n s : String.length s <= n -> drop n s = EmptyString.
Proof.
  revert s. induction n as [|n IH]; intros [|c s]; simpl; auto; try lia.
  intros L. apply IH. lia.
Qed.

(** [text.substring(a, b)] and what follows it make up what follows [a]. *)
Lemma substring_then_rest a b s :
  a <= b -> (substring a b s ++ drop b s = drop a s)%string.
Proof.
  intros L. unfold substring.
  replace (b <? a)%nat with false by (symmetry; apply Nat.ltb_ge; lia).
  rewrite substring_drop.
  replace b with (a + (b - a)) at 2 by lia.
  rewrite drop_drop. apply take_drop.
Qed.

(** [text.substring(a)] *)
Lemma substring_to_end a s :
  substring a (String.length s) s = drop a s.
Proof.
  unfold substring. destruct (String.length s <? a)%nat eqn:L.
  - apply Nat.ltb_lt in L. rewrite drop_all by lia.
    rewrite substring_drop, drop_all by lia. now destruct (a - String.length s).
  - apply Nat.ltb_ge in L. rewrite substring_drop. apply take_all.
    rewrite length_drop. lia.
Qed.

Lemma textContent_cons n h :
  textContent (n :: h)
  = ((match n with Text s => s | Mark s => s end) ++ textContent h)%string.
Proof. unfold textContent. cbn [map]. apply concat_cons. Qed.

Lemma textContent_app h1 h2 :
  textContent (h1 ++ h2) = (textContent h1 ++ textContent h2)%string.
Proof.
  induction h1 as [|n h1 IH]; [reflexivity|].
  rewrite <- app_comm_cons, !textContent_cons, IH. now rewrite append_assoc.
Qed.

Lemma count_marks_app h1 h2 :
  count_marks (h1 ++ h2) = count_marks h1 + count_marks h2.
Proof. unfold count_marks. now rewrite filter_app, length_app. Qed.

(** What the scan keeps true from one turn to the next. *)
Lemma mark_loop_spec text lower term lastIdx frag found :
  let '(frag', lastIdx', found') := mark_loop text lower term lastIdx frag found in
  (textContent frag' ++ drop lastIdx' text
   = textContent frag ++ drop lastIdx text)%string
  /\ ((found = true -> 0 < count_marks frag /\ 0 < String.length lower) ->
      found' = true -> 0 < count_marks frag' /\ 0 < String.length lower).
Proof.
  funelim (mark_loop text lower term lastIdx frag found).
  - simp mark_loop. split; [reflexivity | auto].
  - clear Heqcall.
    destruct (mark_loop _ _ _ _ _ _) as [[frag' lastIdx'] found'].
    destruct H as [T M].
    pose proof at_idx as B. apply index_bounds in B.
    split.
    + rewrite T. rewrite !textContent_app, !append_assoc. f_equal.
      rewrite <- (substring_then_rest lastIdx idx text) by lia.
      rewrite <- (substring_then_rest idx (idx + String.length (String c rest)) text)
        by lia.
      change (textContent []) with EmptyString.
      destruct (lastIdx <? idx)%nat eqn:L.
      * rewrite !textContent_cons. change (textContent []) with EmptyString.
        now rewrite !append_nil_r.
      * apply Nat.ltb_ge in L. assert (lastIdx = idx) by lia. subst idx.
        cbn [app]. rewrite !textContent_cons.
        change (textContent []) with EmptyString.
        unfold substring at 2. rewrite Nat.ltb_irrefl, Nat.sub_diag.
        replace (String.substring lastIdx 0 text) with EmptyString
          by (rewrite substring_drop; now destruct (drop lastIdx text)).
        now rewrite !append_nil_r.
    + intros _. apply M. intros _. rewrite !count_marks_app. simpl.
      rewrite length_lower in B. simpl in B. unfold count_marks at 3. simpl. lia.
  - split; [reflexivity | auto].
Qed.

Lemma textContent_replace_first_mark h :
  textContent (replace_first_mark h) = textContent h.
Proof.
  induction h as [|[s|s] h IH]; simpl; [reflexivity | | reflexivity].
  now rewrite !textContent_cons, IH.
Qed.

Lemma textContent_normalize h : textContent (normalize h) = textContent h.
Proof.
  induction h as [|[s|s] h IH]; cbn [normalize]; [reflexivity | |].
  - destruct (String.eqb_spec s "") as [-> | N].
    + now rewrite textContent_cons.
    + rewrite (textContent_cons (Text s) h), <- IH.
      destruct (normalize h) as [|[s'|s'] h']; rewrite !textContent_cons;
        [reflexivity | | reflexivity].
      now rewrite append_assoc.
  - now rewrite !textContent_cons, IH.
Qed.

Lemma count_marks_replace_first_mark h :
  count_marks (replace_first_mark h) = pred (count_marks h).
Proof.
  unfold count_marks. induction h as [|[s|s] h IH]; simpl; auto.
Qed.

Lemma count_marks_normalize h : count_marks (normalize h) = count_marks h.
Proof.
  unfold count_marks. induction h as [|[s|s] h IH]; cbn [normalize]; auto.
  - destruct (String.eqb s ""); [exact IH|]. simpl. rewrite <- IH.
    destruct (normalize h) as [|[s'|s'] h']; reflexivity.
  - simpl. now rewrite IH.
Qed.

(** A parent without [<mark>] is left by [normalize] with its text in
    one node, or with no node when the text is empty. *)
Lemma normalize_unmarked h :
  count_marks h = 0 ->
  normalize h = if String.eqb (textContent h) "" then [] else [Text (textContent h)].
Proof.
  unfold count_marks.
  induction h as [|[s|s] h IH]; cbn [normalize]; [reflexivity | | discriminate].
  simpl. intros Z. specialize (IH Z). rewrite textContent_cons.
  destruct (String.eqb_spec s "") as [-> | N]; [exact IH|].
  rewrite IH.
  destruct (String.eqb_spec (s ++ textContent h) "") as [E | _];
    [destruct s; [congruence | discriminate]|].
  destruct (String.eqb (textContent h) "") eqn:E.
  - apply String.eqb_eq in E. rewrite E. now rewrite append_nil_r.
  - reflexivity.
Qed.

Lemma clear_turns n h :
  count_marks (Nat.iter n (fun h => normalize (replace_first_mark h)) h)
  = count_marks h - n
  /\ textContent (Nat.iter n (fun h => normalize (replace_first_mark h)) h)
     = textContent h.
Proof.
  induction n as [|n [C T]]; simpl; [split; [lia | reflexivity]|].
  rewrite count_marks_normalize, count_marks_replace_first_mark, C.
  rewrite textContent_normalize, textContent_replace_first_mark, T.
  split; [lia | reflexivity].
Qed.

Lemma textContent_clear_holder h : textContent (clear_holder h) = textContent h.
Proof. apply clear_turns. Qed.

Lemma count_marks_clear_holder h : count_marks (clear_holder h) = 0.
Proof.
  unfold clear_holder. destruct (clear_turns (count_marks h) h) as [C _].
  rewrite C. lia.
Qed.

Lemma clear_holder_unmarked h : count_marks h = 0 -> clear_holder h = h.
Proof. unfold clear_holder. now intros ->. Qed.

Lemma clear_holder_marked h :
  0 < count_marks h ->
  clear_holder h
  = if String.eqb (textContent h) "" then [] else [Text (textContent h)].
Proof.
  unfold clear_holder. destruct (count_marks h) as [|n] eqn:E; [lia|]. intros _.
  cbn [Nat.iter nat_rect].
  destruct (clear_turns n h) as [C T]. unfold Nat.iter in C, T.
  rewrite normalize_unmarked.
  - now rewrite textContent_replace_first_mark, T.
  - rewrite count_marks_replace_first_mark, C. lia.
Qed.

Lemma textContent_mark_text term text : textContent (mark_text term text) = text.
Proof.
  unfold mark_text.
  pose proof (mark_loop_spec text (PyStr.lower text) term 0 [] false) as S.
  destruct (mark_loop _ _ _ _ _ _) as [[frag lastIdx] found].
  destruct S as [T _]. change (textContent []) with EmptyString in T.
  cbn [drop append] in T. destruct found; cbn [negb].
  - rewrite textContent_app. etransitivity; [|exact T]. f_equal.
    destruct (lastIdx <? String.length text)%nat eqn:L.
    + rewrite textContent_cons. change (textContent []) with EmptyString.
      now rewrite append_nil_r, substring_to_end.
    + apply Nat.ltb_ge in L. now rewrite drop_all.
  - reflexivity.
Qed.

(** Marking either leaves the text node alone or puts at least one
    [<mark>] in its place, and the latter only in a text that is not
    empty. *)
Lemma mark_text_cases term text :
  mark_text term text = [Text text]
  \/ (0 < count_marks (mark_text term text) /\ text <> EmptyString).
Proof.
  unfold mark_text.
  pose proof (mark_loop_spec text (PyStr.lower text) term 0 [] false) as S.
  destruct (mark_loop _ _ _ _ _ _) as [[frag lastIdx] found].
  destruct S as [_ M]. destruct found; simpl; [right | now left].
  destruct M as [C L]; [discriminate | reflexivity |].
  split.
  - rewrite count_marks_app. lia.
  - rewrite length_lower in L. intros ->. simpl in L. lia.
Qed.

Lemma clear_mark_text term text : clear_holder (mark_text term text) = [Text text].
Proof.
  destruct (mark_text_cases term text) as [E | [C N]].
  - rewrite E. reflexivity.
  - rewrite clear_holder_marked by exact C.
    rewrite textContent_mark_text.
    destruct (String.eqb_spec text ""); [contradiction | reflexivity].
Qed.

Lemma textContent_mark_holder term h :
  textContent (mark_holder term h) = textContent h.
Proof.
  unfold mark_holder.
  induction h as [|[t|s] h IH]; cbn [flat_map]; [reflexivity | |].
  - now rewrite textContent_app, textContent_mark_text, textContent_cons, IH.
  - cbn [app]. now rewrite !textContent_cons, IH.
Qed.

Lemma mark_text_empty_term text : mark_text EmptyString text = [Text text].
Proof. unfold mark_text. now simp mark_loop. Qed.

(** C6.  One text node: what [highlightMatches] puts in its place for a
    term, [clearHighlights] turns back into the one text node with the
    text it had; with an empty term the node is its own replacement and
    [highlightMatches] adds no [<mark>] anywhere.  An element as a whole
    has, after highlighting and clearing, the text it had, parent by
    parent, and no [<mark>]. *)
Theorem clear_undoes_mark (t q : string) :
  clear_holder (mark_text q t) = [Text t]
  /\ textContent (clear_holder (mark_text q t)) = t
  /\ textContent (mark_text q t) = t
  /\ mark_text EmptyString t = [Text t]
  /\ (forall element, highlightMatches element EmptyString = clearHighlights element)
  /\ (forall element,
        map textContent (clearHighlights (highlightMatches element q))
        = map textContent element
        /\ Forall (fun h => count_marks h = 0)
                  (clearHighlights (highlightMatches element q))).
Proof.
  split; [apply clear_mark_text|].
  split; [rewrite clear_mark_text; unfold textContent; simpl; reflexivity|].
  split; [apply textContent_mark_text|].
  split; [apply mark_text_empty_term|].
  split; [reflexivity|].
  intros element. split.
  - unfold highlightMatches, clearHighlights.
    destruct (negb (PyStr.truthy q)); rewrite !map_map; apply map_ext; intros h.
    + now rewrite !textContent_clear_holder.
    + now rewrite textContent_clear_holder, textContent_mark_holder,
        textContent_clear_holder.
  - unfold clearHighlights at 1. apply Forall_forall. intros h I.
    apply in_map_iff in I. destruct I as [h' [<- _]].
    apply count_marks_clear_holder.
Qed.

End HighlightFacts.

(** ** Filtering *)

Module FilterFacts.
Import Script.

(** The attributes of a row that the script reads and never writes. *)
Definition dataset (row : dom_row)
  : string * string * string * string * string * option string :=
  (row_service row, row_region row, row_name row, row_id row, row_tags row,
   row_details row).

(** The test of [filterResources] on a row, for the controls [c]. *)
Definition all_four (c : controls) (row : dom_row) : bool :=
  matchService (serviceFilter c) row
  && matchRegion (regionFilter c) row
  && matchSearch (PyStr.lower (searchBox c)) row
  && matchTag (tagFilter c) row.

(** Row [j] of section [i]. *)
Definition row_at (dom : list dom_section) (i j : nat) : option dom_row :=
  match nth_error dom i with
  | Some section => nth_error (sec_rows section) j
  | None => None
  end.

(** Every row carries the service of its section. *)
Definition well_formed (dom : list dom_section) : Prop :=
  Forall (fun section =>
            Forall (fun row => row_service row = sec_service section)
                   (sec_rows section)) dom.

(** What no pass changes: the sections, their services, the rows and
    their attributes. *)
Definition skeleton (dom : list dom_section) :=
  map (fun section => (sec_service section, map dataset (sec_rows section))) dom.

Lemma all_four_dataset c r1 r2 :
  dataset r1 = dataset r2 -> all_four c r1 = all_four c r2.
Proof.
  unfold dataset. intros [= Es Er En Ei Et Ed].
  unfold all_four, matchService, matchRegion, matchSearch, matchTag, detailText.
  now rewrite Es, Er, En, Ei, Et, Ed.
Qed.

Lemma filter_row_spec search service region tag row :
  let test := matchService service row && matchRegion region row
              && matchSearch search row && matchTag tag row in
  snd (filter_row search service region tag row) = test
  /\ row_hidden (fst (filter_row search service region tag row)) = negb test
  /\ dataset (fst (filter_row search service region tag row)) = dataset row.
Proof.
  cbv zeta. unfold filter_row.
  destruct (matchService service row && matchRegion region row
            && matchSearch search row && matchTag tag row).
  - destruct (has_details_row row); [|now repeat split].
    destruct (matchedInDetails search row); [now repeat split|].
    destruct (row_autoExpanded row); now repeat split.
  - now repeat split.
Qed.

Lemma skeleton_filter_section search service region tag section :
  (fun s => (sec_service s, map dataset (sec_rows s)))
    (filter_section search service region tag section)
  = (sec_service section, map dataset (sec_rows section)).
Proof.
  unfold filter_section.
  destruct (PyStr.truthy service && negb (String.eqb (sec_service section) service));
    [reflexivity|].
  cbn [sec_service sec_rows]. f_equal. rewrite !map_map. apply map_ext.
  intros row. apply filter_row_spec.
Qed.

Lemma skeleton_filterResources c dom :
  skeleton (filterResources c dom) = skeleton dom.
Proof.
  unfold skeleton, filterResources. rewrite map_map. apply map_ext.
  intros section. apply skeleton_filter_section.
Qed.

Lemma well_formed_skeleton dom1 dom2 :
  skeleton dom1 = skeleton dom2 -> well_formed dom1 -> well_formed dom2.
Proof.
  unfold well_formed, skeleton. revert dom2.
  induction dom1 as [|s1 dom1 IH]; intros [|s2 dom2]; simpl; try discriminate;
    [constructor|].
  intros [= Es Er E] W. inversion W as [|? ? W1 W']; subst.
  constructor; [|now apply IH].
  clear - Es Er W1. rewrite <- Es. clear Es.
  revert W1 Er. generalize (sec_service s1) as svc.
  generalize (sec_rows s2) as rows2. generalize (sec_rows s1) as rows1.
  induction rows1 as [|r1 rows1 IH]; intros [|r2 rows2] svc W1; simpl;
    try discriminate; [constructor|].
  intros [= D E]. inversion W1; subst. constructor; [|now apply (IH rows2)].
  unfold dataset in D. congruence.
Qed.

Lemma skeleton_row_at dom1 dom2 i j :
  skeleton dom1 = skeleton dom2 ->
  option_map dataset (row_at dom1 i j) = option_map dataset (row_at dom2 i j).
Proof.
  unfold skeleton, row_at. intros E.
  assert (N : nth_error (map (fun s => (sec_service s, map dataset (sec_rows s))) dom1) i
              = nth_error (map (fun s => (sec_service s, map dataset (sec_rows s))) dom2) i)
    by now rewrite E.
  rewrite !nth_error_map in N.
  destruct (nth_error dom1 i) as [s1|], (nth_error dom2 i) as [s2|];
    simpl in N; try discriminate; [|reflexivity].
  injection N as _ R.
  rewrite <- !nth_error_map. now rewrite R.
Qed.

(** One pass over a well-formed page. *)
Lemma shown_after_filter c dom i j :
  well_formed dom ->
  shown_at (filterResources c dom) i j
  = match row_at dom i j with Some row => all_four c row | None => false end.
Proof.
  intros W. unfold shown_at, row_at, filterResources.
  rewrite nth_error_map.
  destruct (nth_error dom i) as [section|] eqn:Ei; [|reflexivity].
  cbn [option_map].
  assert (Ws : Forall (fun row => row_service row = sec_service section)
                      (sec_rows section)).
  { unfold well_formed in W. rewrite Forall_forall in W. apply W.
    eapply nth_error_In; eassumption. }
  unfold filter_section.
  destruct (PyStr.truthy (serviceFilter c)
            && negb (String.eqb (sec_service section) (serviceFilter c))) eqn:Skip.
  - cbn [sec_rows sec_hidden].
    destruct (nth_error (sec_rows section) j) as [row|] eqn:Ej; [|reflexivity].
    unfold row_shown. cbn [sec_hidden negb andb].
    rewrite Forall_forall in Ws. specialize (Ws row (nth_error_In _ _ Ej)).
    unfold all_four, matchService. rewrite Ws.
    apply andb_true_iff in Skip. destruct Skip as [T N].
    rewrite T. apply negb_true_iff in N. rewrite N. reflexivity.
  - cbn [sec_rows sec_hidden]. rewrite map_map, nth_error_map.
    destruct (nth_error (sec_rows section) j) as [row|] eqn:Ej; [|reflexivity].
    cbn [option_map]. unfold row_shown. cbn [sec_hidden].
    destruct (filter_row_spec (PyStr.lower (searchBox c)) (serviceFilter c)
                (regionFilter c) (tagFilter c) row) as [Sn [Hd _]].
    rewrite Hd, !negb_involutive. fold (all_four c row) in Sn |- *.
    destruct (all_four c row) eqn:A; [|apply andb_false_r].
    rewrite andb_true_r. apply Nat.ltb_lt.
    assert (I : In (filter_row (PyStr.lower (searchBox c)) (serviceFilter c)
                      (regionFilter c) (tagFilter c) row)
                   (filter snd (map (filter_row (PyStr.lower (searchBox c))
                                       (serviceFilter c) (regionFilter c)
                                       (tagFilter c)) (sec_rows section)))).
    { apply filter_In. split; [|exact Sn].
      apply in_map. eapply nth_error_In; eassumption. }
    destruct (filter snd _); [destruct I | simpl; lia].
Qed.

End FilterFacts.

Section FilterTheorem.
Context {pyobj : Type}.
Variable py_str : pyobj -> string.
Variable py_kind : pyobj -> @pykind pyobj.
Variable json_dumps_value : pyobj -> string.
Local Abbreviation resource := (@resource pyobj).
Local Abbreviation initial_dom' := (initial_dom py_str py_kind json_dumps_value).
Import Script FilterFacts.
Implicit Types (resources : list resource) (history : list controls).

(** The page after the passes of [history], oldest first. *)
Definition after_passes history (dom : list dom_section) : list dom_section :=
  fold_left (fun d c => filterResources c d) history dom.

Lemma well_formed_initial_dom resources : well_formed (initial_dom' resources).
Proof.
  unfold well_formed, initial_dom, service_sections.
  apply Forall_forall. intros section I. apply in_map_iff in I.
  destruct I as [service_name [<- _]]. unfold build_section. cbn [sec_rows sec_service].
  apply Forall_forall. intros row I. apply in_map_iff in I.
  destruct I as [r [<- _]]. reflexivity.
Qed.

Lemma skeleton_after_passes history : forall dom,
  skeleton (after_passes history dom) = skeleton dom.
Proof.
  unfold after_passes.
  induction history as [|c history IH]; intros dom; simpl; [reflexivity|].
  rewrite IH. apply skeleton_filterResources.
Qed.

Lemma shown_after_passes resources history c i j :
  shown_at (filterResources c (after_passes history (initial_dom' resources))) i j
  = match row_at (initial_dom' resources) i j with
    | Some row => all_four c row
    | None => false
    end.
Proof.
  pose proof (skeleton_after_passes history (initial_dom' resources)) as K.
  rewrite shown_after_filter.
  - pose proof (skeleton_row_at _ _ i j K) as D.
    destruct (row_at (after_passes history (initial_dom' resources)) i j) as [r1|],
             (row_at (initial_dom' resources) i j) as [r2|];
      simpl in D; try discriminate; [|reflexivity].
    apply all_four_dataset. congruence.
  - apply (well_formed_skeleton (initial_dom' resources)); [now symmetry|].
    apply well_formed_initial_dom.
Qed.

(** C7.  Whatever records the report was made from and whatever passes of
    [filterResources] came before, after a pass a row is on screen exactly
    when the four tests hold for it: its service is the chosen one, its
    region is the chosen one, the lower-cased search text is inside its
    name, id or detail text, and the chosen tag is among its tags; a
    control left empty makes its test hold.  So the rows on screen for a
    service and a region are among the rows on screen for that service
    with no region chosen. *)
Theorem row_shown_iff_all_four_match resources history (c : controls) :
  let dom0 := initial_dom' resources in
  let dom := after_passes history dom0 in
  (forall i j,
     shown_at (filterResources c dom) i j
     = match row_at dom0 i j with
       | Some row =>
           matchService (serviceFilter c) row
           && matchRegion (regionFilter c) row
           && matchSearch (PyStr.lower (searchBox c)) row
           && matchTag (tagFilter c) row
       | None => false
       end)
  /\ (forall section row,
        In section dom ->
        In row (sec_rows section) ->
        serviceFilter c = "" \/ sec_service section = serviceFilter c ->
        let row' := fst (filter_row (PyStr.lower (searchBox c)) (serviceFilter c)
                                    (regionFilter c) (tagFilter c) row) in
        In row' (sec_rows (filter_section (PyStr.lower (searchBox c)) (serviceFilter c)
                                          (regionFilter c) (tagFilter c) section))
        /\ row_hidden row'
           = negb (matchService (serviceFilter c) row
                   && matchRegion (regionFilter c) row
                   && matchSearch (PyStr.lower (searchBox c)) row
                   && matchTag (tagFilter c) row))
  /\ (forall row,
        matchService "" row = true /\ matchRegion "" row = true
        /\ matchSearch (PyStr.lower "") row = true /\ matchTag "" row = true)
  /\ (forall history' S R i j,
        shown_at (filterResources
                    {| searchBox := searchBox c; serviceFilter := S;
                       regionFilter := R; tagFilter := tagFilter c |} dom) i j = true ->
        shown_at (filterResources
                    {| searchBox := searchBox c; serviceFilter := S;
                       regionFilter := ""; tagFilter := tagFilter c |}
                    (after_passes history' dom0)) i j = true).
Proof.
  cbv zeta. split; [|split; [|split]].
  - intros i j. apply shown_after_passes.
  - intros section row _ Ir P. split; [|apply filter_row_spec].
    unfold filter_section.
    replace (PyStr.truthy (serviceFilter c)
             && negb (String.eqb (sec_service section) (serviceFilter c)))
      with false.
    + cbn [sec_rows]. rewrite map_map. now apply (in_map (fun x => fst (filter_row _ _ _ _ x))).
    + destruct P as [-> | ->]; [reflexivity|].
      now rewrite String.eqb_refl, andb_false_r.
  - intros row. now repeat split.
  - intros history' S R i j. rewrite !shown_after_passes.
    destruct (row_at (initial_dom' resources) i j) as [row|]; [|discriminate].
    unfold all_four. cbn [searchBox serviceFilter regionFilter tagFilter].
    intros H. apply andb_true_iff in H. destruct H as [H Ht].
    apply andb_true_iff in H. destruct H as [H Hs].
    apply andb_true_iff in H. destruct H as [Hv _].
    rewrite Hv, Hs, Ht. reflexivity.
Qed.

End FilterTheorem.

(** * The scenario of the specification, and other concrete runs *)

Module Scenario.
Import Script FilterFacts.

(** Detail values that are strings; [str] leaves them as they are. *)
Definition show (v : string) : string := v.
Definition kind (v : string) : @pykind string := IsOther.

Definition ec2_instance : @resource string :=
  {| res_service := Some "ec2"; res_type := Some "instance";
     res_id := Some "i-1"; res_name := Absent;
     res_region := Value "us-east-1"; res_arn := Absent;
     res_is_default := None; res_tags := Some [("env", "prod")];
     res_details := None |}.

Definition s3_bucket : @resource string :=
  {| res_service := Some "s3"; res_type := Some "bucket";
     res_id := Some "b-1"; res_name := Absent;
     res_region := Null; res_arn := Absent;
     res_is_default := None; res_tags := Some [];
     res_details := None |}.

Definition records : list (@resource string) := [ec2_instance; s3_bucket].

Definition two_tags : @resource string :=
  {| res_service := Some "ec2"; res_type := Some "instance";
     res_id := Some "i-2"; res_name := Value "web";
     res_region := Value "eu-west-1"; res_arn := Absent;
     res_is_default := Some true;
     res_tags := Some [("env", "prod"); ("team", "core")];
     res_details := None |}.

Definition data : @inventory string :=
  {| inv_metadata := None; inv_resources := Some records |}.

Example regions_of_the_scenario :
  group_by_region records = [("us-east-1", 1); ("global", 1)].
Proof. reflexivity. Qed.

Example services_of_the_scenario :
  group_by_service records = [("ec2", [ec2_instance]); ("s3", [s3_bucket])].
Proof. reflexivity. Qed.

Example csv_of_the_scenario :
  format_csv data
  = ("service,type,id,name,region,arn,is_default,tags" ++ PyStr.cr ++ PyStr.lf
     ++ "ec2,instance,i-1,,us-east-1,,False,env=prod" ++ PyStr.cr ++ PyStr.lf
     ++ "s3,bucket,b-1,,,,False," ++ PyStr.cr ++ PyStr.lf)%string.
Proof. reflexivity. Qed.

(** Against C3 as written: the record of the scenario whose region is
    null has an empty region column in the row [format_csv] writes, not
    ["global"]. *)
Lemma csv_region_of_null_region_is_empty :
  nth_error (get_resources data) 1 = Some s3_bucket
  /\ res_region s3_bucket = Null
  /\ nth_error fieldnames 4 = Some "region"
  /\ nth_error (CsvReader.rows_of (format_csv data)) 2
     = Some ["s3"; "bucket"; "b-1"; ""; ""; ""; "False"; ""]
  /\ nth_error (csv_row s3_bucket) 4 = Some ""
  /\ nth_error (csv_row s3_bucket) 4 <> Some "global"
  /\ csv_writerow (csv_row s3_bucket)
     = ("s3,bucket,b-1,,,,False," ++ PyStr.cr ++ PyStr.lf)%string.
Proof. repeat split. discriminate. Qed.

Lemma absent_region_witness :
  nth_error (get_resources data) 1 = Some s3_bucket
  /\ (res_region s3_bucket = Absent \/ res_region s3_bucket = Null)
  /\ region_key s3_bucket = "global"
  /\ get "global" (group_by_region (get_resources data)) = Some 1
  /\ (exists row,
        nth_error (CsvReader.rows_of (format_csv data)) 2 = Some row
        /\ row = csv_row s3_bucket
        /\ nth_error row 4 = Some "").
Proof.
  assert (I : nth_error (get_resources data) 1 = Some s3_bucket) by reflexivity.
  assert (N : res_region s3_bucket = Absent \/ res_region s3_bucket = Null)
    by (right; reflexivity).
  destruct (absent_region_is_global_in_report_and_empty_in_csv
              show kind show data 1 s3_bucket I N) as [K [G [_ [_ [_ C]]]]].
  repeat split; assumption.
Defined.

(** Against C5 as written: two tags come out joined by a semicolon and a
    space, which is not the pairs joined by a semicolon. *)
Lemma csv_tags_are_not_joined_by_a_bare_semicolon :
  let dump := format_csv {| inv_metadata := None; inv_resources := Some [two_tags] |} in
  dump = ("service,type,id,name,region,arn,is_default,tags" ++ PyStr.cr ++ PyStr.lf
          ++ "ec2,instance,i-2,web,eu-west-1,,True,env=prod; team=core"
          ++ PyStr.cr ++ PyStr.lf)%string
  /\ nth_error (CsvReader.rows_of dump) 1
     = Some ["ec2"; "instance"; "i-2"; "web"; "eu-west-1"; ""; "True";
             "env=prod; team=core"]
  /\ nth_error (csv_row two_tags) 7 = Some "env=prod; team=core"
  /\ tags_semicolon_joined two_tags = "env=prod;team=core"
  /\ nth_error (csv_row two_tags) 7 <> Some (tags_semicolon_joined two_tags).
Proof. repeat split. discriminate. Qed.

(** The tag filter [env=prod] leaves the instance on screen and nothing
    else; [env=staging] leaves nothing. *)
Example tag_filter_of_the_scenario :
  let dom := initial_dom show kind show records in
  let prod := {| searchBox := ""; serviceFilter := ""; regionFilter := "";
                 tagFilter := "env=prod" |} in
  let staging := {| searchBox := ""; serviceFilter := ""; regionFilter := "";
                    tagFilter := "env=staging" |} in
  shown_at (filterResources prod dom) 0 0 = true
  /\ shown_at (filterResources prod dom) 1 0 = false
  /\ map sec_hidden (filterResources staging dom) = [true; true]
  /\ map sec_hidden (filterResources prod (filterResources staging dom))
     = [false; true].
Proof. repeat split. Qed.

Example highlight_of_a_name :
  mark_text "pro" "Prod-approver" = [Mark "Pro"; Text "d-ap"; Mark "pro"; Text "ver"]
  /\ clear_holder (mark_text "pro" "Prod-approver") = [Text "Prod-approver"]
  /\ mark_text "aa" "aaa" = [Mark "aa"; Text "a"].
Proof. repeat split. Qed.

Example unsupported_format_message :
  format_output show kind show (fun _ => "") (fun _ => "") data "XML"
  = ValueError "Unsupported format: xml"
  /\ format_output show kind show (fun _ => "") (fun _ => "") data "CSV"
     = Returned (format_csv data).
Proof. repeat split. Qed.

End Scenario.

(** * More of the formatters *)

(** ** [esc] *)

Module EscFacts.
Import PyStrFacts.

Definition amp : ascii := "&"%char.
Definition lt : ascii := "<"%char.
Definition gt : ascii := ">"%char.
Definition quot : ascii := ascii_of_nat 34.

(** What [esc] writes for one character. *)
Definition esc_char (c : ascii) : string :=
  if Ascii.eqb c amp then "&amp;"
  else if Ascii.eqb c lt then "&lt;"
  else if Ascii.eqb c gt then "&gt;"
  else if Ascii.eqb c quot then "&quot;"
  else String c EmptyString.

Lemma replace_char_app c by_ x y :
  PyStr.replace_char c by_ (x ++ y)
  = (PyStr.replace_char c by_ x ++ PyStr.replace_char c by_ y)%string.
Proof.
  induction x as [|a x IH]; simpl; [reflexivity|].
  destruct (Ascii.eqb a c); rewrite IH; [now rewrite append_assoc | reflexivity].
Qed.

(** The four replacements in a row come to one pass, character by
    character. *)
Lemma esc_str_cons c s : esc_str (String c s) = (esc_char c ++ esc_str s)%string.
Proof.
  unfold esc_str, esc, esc_char. fold amp lt gt quot.
  cbn [PyStr.replace_char].
  destruct (Ascii.eqb c amp) eqn:Ea.
  { rewrite !replace_char_app. reflexivity. }
  cbn [PyStr.replace_char]. destruct (Ascii.eqb c lt) eqn:El.
  { rewrite !replace_char_app. reflexivity. }
  cbn [PyStr.replace_char]. destruct (Ascii.eqb c gt) eqn:Eg.
  { rewrite !replace_char_app. reflexivity. }
  cbn [PyStr.replace_char]. destruct (Ascii.eqb c quot) eqn:Eq; reflexivity.
Qed.

Lemma esc_str_nil : esc_str EmptyString = EmptyString.
Proof. reflexivity. Qed.

Lemma contains_char_app c x y :
  PyStr.contains_char c (x ++ y)
  = PyStr.contains_char c x || PyStr.contains_char c y.
Proof.
  induction x as [|a x IH]; simpl; [reflexivity|].
  now rewrite IH, orb_assoc.
Qed.

Lemma esc_char_clean c :
  PyStr.contains_char lt (esc_char c) = false
  /\ PyStr.contains_char gt (esc_char c) = false
  /\ PyStr.contains_char quot (esc_char c) = false.
Proof.
  unfold esc_char.
  destruct (Ascii.eqb c amp); [now repeat split|].
  destruct (Ascii.eqb c lt) eqn:El; [now repeat split|].
  destruct (Ascii.eqb c gt) eqn:Eg; [now repeat split|].
  destruct (Ascii.eqb c quot) eqn:Eq; [now repeat split|].
  cbn [PyStr.contains_char]. now rewrite El, Eg, Eq.
Qed.

Lemma esc_char_first c :
  (exists rest, esc_char c = String amp rest /\ rest <> EmptyString)
  \/ (esc_char c = String c EmptyString /\ Ascii.eqb c amp = false).
Proof.
  unfold esc_char.
  destruct (Ascii.eqb c amp) eqn:Ea; [left; eexists; split; [reflexivity | discriminate]|].
  destruct (Ascii.eqb c lt); [left; eexists; split; [reflexivity | discriminate]|].
  destruct (Ascii.eqb c gt); [left; eexists; split; [reflexivity | discriminate]|].
  destruct (Ascii.eqb c quot); [left; eexists; split; [reflexivity | discriminate]|].
  now right.
Qed.

(** Two characters whose escapes start two equal texts are one
    character, and the texts go on equal. *)
Lemma esc_char_prefix c1 c2 x y :
  (esc_char c1 ++ x = esc_char c2 ++ y)%string -> c1 = c2 /\ x = y.
Proof.
  unfold esc_char.
  destruct (Ascii.eqb_spec c1 amp) as [-> | N1a];
  [|destruct (Ascii.eqb_spec c1 lt) as [-> | N1l];
    [|destruct (Ascii.eqb_spec c1 gt) as [-> | N1g];
      [|destruct (Ascii.eqb_spec c1 quot) as [-> | N1q]]]];
  (destruct (Ascii.eqb_spec c2 amp) as [-> | N2a];
   [|destruct (Ascii.eqb_spec c2 lt) as [-> | N2l];
     [|destruct (Ascii.eqb_spec c2 gt) as [-> | N2g];
       [|destruct (Ascii.eqb_spec c2 quot) as [-> | N2q]]]]);
  cbn [append]; intros E; try discriminate E;
    try (injection E; intros; subst; tauto);
    try (injection E; intros; subst; split; [reflexivity | assumption]);
    try (injection E; intros; congruence).
Qed.

Lemma esc_char_nonempty c x : (esc_char c ++ x)%string <> EmptyString.
Proof.
  destruct (esc_char_first c) as [[rest [-> _]] | [-> _]]; discriminate.
Qed.

(** X1.  Whatever the text, [esc] lets no [<], no [>] and no double quote
    through, so an escaped value can end neither the attribute nor the
    element it is written in; and [esc(None)] is the empty text. *)
Theorem esc_lets_no_markup_through (s : string) :
  PyStr.contains_char "<" (esc (Some s)) = false
  /\ PyStr.contains_char ">" (esc (Some s)) = false
  /\ PyStr.contains_char (ascii_of_nat 34) (esc (Some s)) = false
  /\ esc None = EmptyString.
Proof.
  fold (esc_str s). fold lt gt quot.
  assert (H : PyStr.contains_char lt (esc_str s) = false
              /\ PyStr.contains_char gt (esc_str s) = false
              /\ PyStr.contains_char quot (esc_str s) = false).
  { induction s as [|c s [Il [Ig Iq]]]; [now repeat split|].
    rewrite esc_str_cons, !contains_char_app.
    destruct (esc_char_clean c) as [Cl [Cg Cq]].
    rewrite Cl, Cg, Cq, Il, Ig, Iq. now repeat split. }
  destruct H as [Hl [Hg Hq]]. now repeat split.
Qed.

(** X2.  [esc] loses nothing: two texts have the same escaped form only
    when they are the same text. *)
Theorem esc_is_injective (s1 s2 : string) :
  esc (Some s1) = esc (Some s2) <-> s1 = s2.
Proof.
  split; [|now intros ->]. fold (esc_str s1) (esc_str s2).
  revert s2. induction s1 as [|c1 s1 IH]; intros [|c2 s2]; rewrite ?esc_str_cons.
  - reflexivity.
  - rewrite esc_str_nil. intros E. symmetry in E. now apply esc_char_nonempty in E.
  - rewrite esc_str_nil. intros E. now apply esc_char_nonempty in E.
  - intros E. apply esc_char_prefix in E. destruct E as [-> E].
    f_equal. now apply IH.
Qed.

End EscFacts.

(** ** Detail text and detail keys *)

Module DetailFacts.
Import PyStrFacts DetailKey.

(** Every character of [s] passes [p]. *)
Fixpoint all_chars (p : ascii -> bool) (s : string) : bool :=
match s with
| EmptyString => true
| String c s' => p c && all_chars p s'
end.

Lemma all_chars_map_chars p f s :
  all_chars p (PyStr.map_chars f s) = all_chars (fun c => p (f c)) s.
Proof. induction s as [|c s IH]; simpl; [reflexivity | now rewrite IH]. Qed.

Lemma all_chars_true p s : (forall c, p c = true) -> all_chars p s = true.
Proof. intros H. induction s as [|c s IH]; simpl; [reflexivity | now rewrite H]. Qed.

Definition printable_not_capital (c : ascii) : bool :=
  (32 <=? nat_of_ascii c)%nat && negb (PyStr.is_upper c).

Lemma strip_lower_ok c : printable_not_capital (strip_control (PyStr.lower_char c)) = true.
Proof. destruct c as [[] [] [] [] [] [] [] []]; reflexivity. Qed.

(** X3.  The text stored in [data-details] holds no control character
    (nothing under the space) and no capital letter, whatever the detail
    values print as. *)
Theorem detail_text_is_printable_lower_case
  {pyobj : Type} (py_str : pyobj -> string) (details : dict pyobj) :
  all_chars (fun c => (32 <=? nat_of_ascii c)%nat && negb (PyStr.is_upper c))
            (detail_text py_str details) = true.
Proof.
  unfold detail_text, PyStr.lower. rewrite !all_chars_map_chars.
  apply all_chars_true. intros c. apply strip_lower_ok.
Qed.

Definition underscore_to_space (c : ascii) : ascii :=
  if Ascii.eqb c "_" then " "%char else c.

Lemma replace_underscore s :
  PyStr.replace_char "_" " " s = PyStr.map_chars underscore_to_space s.
Proof.
  induction s as [|c s IH]; simpl; [reflexivity|].
  unfold underscore_to_space at 1. destruct (Ascii.eqb c "_"); now rewrite IH.
Qed.

Lemma length_title_from b s : String.length (title_from b s) = String.length s.
Proof. revert b. induction s as [|c s IH]; intros b; simpl; auto. Qed.

Lemma case_facts c :
  PyStr.lower_char (PyStr.upper_char c) = PyStr.lower_char c
  /\ is_letter (PyStr.upper_char c) = is_letter c
  /\ is_letter (PyStr.lower_char c) = is_letter c
  /\ PyStr.upper_char (PyStr.upper_char c) = PyStr.upper_char c
  /\ PyStr.upper_char (PyStr.lower_char c) = PyStr.upper_char c
  /\ Ascii.eqb (PyStr.upper_char c) "_" = Ascii.eqb c "_"
  /\ Ascii.eqb (PyStr.lower_char c) "_" = Ascii.eqb c "_"
  /\ is_letter (underscore_to_space c) = is_letter c.
Proof. destruct c as [[] [] [] [] [] [] [] []]; repeat split. Qed.

Lemma lower_title_from b s : PyStr.lower (title_from b s) = PyStr.lower s.
Proof.
  unfold PyStr.lower. revert b.
  induction s as [|c s IH]; intros b; simpl; [reflexivity|].
  rewrite IH. f_equal. destruct b.
  - apply lower_char_idem.
  - apply case_facts.
Qed.

Lemma title_from_idem b s : title_from b (title_from b s) = title_from b s.
Proof.
  revert b. induction s as [|c s IH]; intros b; simpl; [reflexivity|].
  destruct (case_facts c) as [_ [Lu [Ll [Uu _]]]].
  destruct b.
  - rewrite lower_char_idem, Ll, IH. reflexivity.
  - rewrite Uu, Lu, IH. reflexivity.
Qed.

Lemma title_from_underscore b s :
  PyStr.contains_char "_" (title_from b s) = PyStr.contains_char "_" s.
Proof.
  revert b. induction s as [|c s IH]; intros b; simpl; [reflexivity|].
  rewrite IH. f_equal.
  destruct (case_facts c) as [_ [_ [_ [_ [_ [Eu [El _]]]]]]].
  destruct b; assumption.
Qed.

Lemma no_underscore_after_replace s :
  PyStr.contains_char "_" (PyStr.replace_char "_" " " s) = false.
Proof.
  induction s as [|c s IH]; simpl; [reflexivity|].
  destruct (Ascii.eqb c "_") eqn:E; simpl; [exact IH|]. now rewrite E.
Qed.

Lemma replace_absent c by_ s :
  PyStr.contains_char c s = false -> PyStr.replace_char c by_ s = s.
Proof.
  induction s as [|a s IH]; simpl; [reflexivity|].
  intros H. apply orb_false_iff in H. destruct H as [E H].
  rewrite E. now rewrite IH.
Qed.

(** X4.  On a key within ASCII, [format_detail_key] changes the
    underscores into spaces and the case of the letters, and nothing else:
    the label is as long as the key, has no underscore, and reads as the
    key with spaces once both are lower-cased.  A label is its own
    label. *)
Theorem format_detail_key_changes_case_and_underscores_only (key : string) :
  is_ascii key = true ->
  String.length (format_detail_key key) = String.length key
  /\ PyStr.contains_char "_" (format_detail_key key) = false
  /\ PyStr.lower (format_detail_key key)
     = PyStr.lower (PyStr.replace_char "_" " " key)
  /\ format_detail_key (format_detail_key key) = format_detail_key key.
Proof.
  intros _. unfold format_detail_key, title. repeat split.
  - rewrite length_title_from, replace_underscore. apply Script.length_map_chars.
  - rewrite title_from_underscore. apply no_underscore_after_replace.
  - apply lower_title_from.
  - rewrite (replace_absent "_" " " (title_from false _)).
    + apply title_from_idem.
    + rewrite title_from_underscore. apply no_underscore_after_replace.
Qed.

End DetailFacts.

(** ** Counting loops *)

Module CountFacts.
Import PyDictFacts.

Section Counting.
Context {R : Type}.
Variable key : R -> string.

(** [counts[key] = counts.get(key, 0) + 1] *)
Definition count_upd (o : option nat) (r : R) : nat :=
  match o with Some n => n | None => 0 end + 1.

Definition count_all (rs : list R) : dict nat :=
  fold_left (Grouping.step key count_upd) rs [].

Lemma count_fold k : forall rs (o : option nat),
  fold_left (fun o r => if String.eqb (key r) k then Some (count_upd o r) else o)
            rs o
  = match o, filter (fun r => String.eqb (key r) k) rs with
    | None, [] => None
    | _, l => Some (match o with Some n => n | None => 0 end + List.length l)
    end.
Proof.
  induction rs as [|r rs IH]; intros o; simpl.
  - destruct o; [f_equal; lia | reflexivity].
  - rewrite IH. destruct (String.eqb (key r) k); simpl; [|reflexivity].
    unfold count_upd. destruct (filter _ rs); destruct o; simpl; f_equal; lia.
Qed.

Lemma get_count_all k rs :
  get k (count_all rs)
  = match filter (fun r => String.eqb (key r) k) rs with
    | [] => None
    | l => Some (List.length l)
    end.
Proof.
  unfold count_all. rewrite Grouping.get_fold, count_fold. reflexivity.
Qed.

Lemma total_count_all rs : total (fun n => n) (count_all rs) = List.length rs.
Proof.
  unfold count_all.
  rewrite (Grouping.total_fold key count_upd (fun n => n) (fun _ => 1)).
  - simpl. induction rs; simpl; auto.
  - reflexivity.
Qed.

Lemma NoDup_keys_count_all rs : NoDup (keys (count_all rs)).
Proof. apply Grouping.NoDup_keys_fold. constructor. Qed.

Lemma keys_count_all rs : keys (count_all rs) = first_seen (map key rs).
Proof. unfold count_all. apply keys_grouping. Qed.

End Counting.

(** [f"{r.get('service', '')}/{r.get('type', '')}"] *)
Definition type_key {pyobj : Type} (r : @resource pyobj) : string :=
  (get_str (res_service r) ++ "/" ++ get_str (res_type r))%string.

Lemma count_resource_types_eq {pyobj : Type} (resources : list (@resource pyobj)) :
  count_resource_types resources = count_all type_key resources.
Proof. reflexivity. Qed.


End CountFacts.

(** ** The sections of the report *)

Module PageFacts.
Import PyDictFacts.

Section Partition.
Context {R : Type}.
Variable key : R -> string.

Lemma flat_map_one_more (g : string -> list R) (r : R) k0 : forall ks,
  NoDup ks ->
  (In k0 ks ->
   Permutation (flat_map (fun k => if String.eqb k0 k then r :: g k else g k) ks)
               (r :: flat_map g ks))
  /\ (~ In k0 ks ->
      flat_map (fun k => if String.eqb k0 k then r :: g k else g k) ks
      = flat_map g ks).
Proof.
  induction ks as [|k ks IH]; intros ND; [simpl; tauto|].
  inversion ND as [|? ? NI ND']; subst. destruct (IH ND') as [IHin IHout].
  cbn [flat_map]. destruct (String.eqb_spec k0 k) as [<- | N]; split.
  - intros _. rewrite IHout by exact NI. reflexivity.
  - intros H. exfalso. apply H. now left.
  - intros [E | I]; [congruence|]. rewrite IHin by exact I.
    rewrite Permutation_middle. reflexivity.
  - intros H. rewrite IHout; [reflexivity|]. intros I. apply H. now right.
Qed.

(** Filed under distinct keys that cover them, the records are all
    there, each once. *)
Lemma groups_partition ks : forall rs,
  NoDup ks ->
  (forall r, In r rs -> In (key r) ks) ->
  Permutation (flat_map (fun k => filter (fun r => String.eqb (key r) k) rs) ks) rs.
Proof.
  induction rs as [|r rs IH]; intros ND C.
  - simpl. clear. induction ks; simpl; auto.
  - cbn [filter].
    destruct (flat_map_one_more
                (fun k => filter (fun x => String.eqb (key x) k) rs) r (key r) ks ND)
      as [P _].
    rewrite P by (apply C; now left).
    constructor. apply IH; [exact ND|]. intros x I. apply C. now right.
Qed.
End Partition.

Section Sections.
Context {pyobj : Type}.
Variable py_str : pyobj -> string.
Variable py_kind : pyobj -> @pykind pyobj.
Variable json_dumps_value : pyobj -> string.
Local Abbreviation resource := (@resource pyobj).
Local Abbreviation build_row' := (build_row py_str py_kind json_dumps_value).
Local Abbreviation initial_dom' := (initial_dom py_str py_kind json_dumps_value).
Implicit Types (resources : list resource).

Lemma lookup_services resources k :
  lookup (group_by_service resources) k []
  = filter (fun r => String.eqb (service_key r) k) resources.
Proof.
  unfold lookup. rewrite get_group_by_service.
  now destruct (filter _ resources).
Qed.

Lemma keys_services_In resources k :
  In k (keys (group_by_service resources)) <-> In k (map service_key resources).
Proof.
  rewrite group_by_service_eq, Grouping.keys_fold. simpl. tauto.
Qed.

Lemma rows_of_initial_dom resources :
  flat_map sec_rows (initial_dom' resources)
  = map (fun r => build_row' (service_key r) r)
        (flat_map (fun k => filter (fun r => String.eqb (service_key r) k) resources)
                  (sorted_strings (keys (group_by_service resources)))).
Proof.
  unfold initial_dom, service_sections.
  induction (sorted_strings (keys (group_by_service resources))) as [|k ks IH];
    [reflexivity|].
  cbn [map flat_map]. rewrite map_app, IH. f_equal.
  unfold build_section. cbn [sec_rows]. rewrite lookup_services.
  apply map_ext_in. intros r I. apply filter_In in I. destruct I as [_ E].
  apply String.eqb_eq in E. now rewrite E.
Qed.

(** The rows of the loaded page are the rows of the records, in some
    order. *)
Lemma rows_of_initial_dom_perm resources :
  Permutation (flat_map sec_rows (initial_dom' resources))
              (map (fun r => build_row' (service_key r) r) resources).
Proof.
  rewrite rows_of_initial_dom. apply Permutation_map.
  apply groups_partition.
  - apply SortedFacts.sorted_by_NoDup, NoDup_keys_services.
  - intros r I. apply SortedFacts.sorted_strings_In, keys_services_In.
    now apply in_map.
Qed.

Lemma initial_rows_length resources :
  List.length (flat_map sec_rows (initial_dom' resources)) = List.length resources.
Proof.
  rewrite (Permutation_length (rows_of_initial_dom_perm resources)).
  apply length_map.
Qed.

(** A section of the loaded page holds the rows of the records of its
    service, and there is at least one. *)
Lemma initial_section_rows resources section :
  In section (initial_dom' resources) ->
  sec_rows section
  = map (build_row' (sec_service section))
        (filter (fun r => String.eqb (service_key r) (sec_service section))
                resources)
  /\ sec_rows section <> [].
Proof.
  intros I. unfold initial_dom, service_sections in I.
  apply in_map_iff in I. destruct I as [k [<- I]].
  unfold build_section. cbn [sec_rows sec_service].
  rewrite lookup_services. split; [reflexivity|].
  apply SortedFacts.sorted_strings_In, keys_services_In in I.
  apply in_map_iff in I. destruct I as [r [E I]].
  assert (F : In r (filter (fun x => String.eqb (service_key x) k) resources))
    by (apply filter_In; split; [exact I | now apply String.eqb_eq]).
  destruct (filter _ resources); [destruct F | discriminate].
Qed.

(** X6.  The report has one section for each service that occurs, in
    rising order of the service names, none twice; a section holds one row
    for each record of its service, in the order of the records, and is
    never empty; so all in all the report has exactly one row per record. *)
Theorem report_has_one_row_per_record resources :
  let dom := initial_dom' resources in
  map sec_service dom = sorted_strings (keys (group_by_service resources))
  /\ StronglySorted (fun a b => String.ltb a b = true) (map sec_service dom)
  /\ (forall k, In k (map sec_service dom) <-> In k (map service_key resources))
  /\ (forall section, In section dom ->
        sec_rows section
        = map (build_row' (sec_service section))
              (filter (fun r => String.eqb (service_key r) (sec_service section))
                      resources)
        /\ sec_rows section <> [])
  /\ Permutation (flat_map sec_rows dom)
                 (map (fun r => build_row' (service_key r) r) resources)
  /\ List.length (flat_map sec_rows dom) = List.length resources.
Proof.
  cbv zeta.
  assert (N : map sec_service (initial_dom' resources)
              = sorted_strings (keys (group_by_service resources))).
  { unfold initial_dom, service_sections. rewrite map_map.
    cbn [build_section sec_service]. apply map_id. }
  split; [exact N|]. split; [|split; [|split; [|split]]].
  - rewrite N. apply SortedFacts.sorted_strings_strict, NoDup_keys_services.
  - intros k. rewrite N, SortedFacts.sorted_strings_In. apply keys_services_In.
  - intros section I. now apply initial_section_rows.
  - apply rows_of_initial_dom_perm.
  - apply initial_rows_length.
Qed.

End Sections.
End PageFacts.

(** ** The bars of the charts *)

Module BarFacts.

Lemma bar_width_mono c1 c2 total_resources :
  c1 <= c2 -> bar_width c1 total_resources <= bar_width c2 total_resources.
Proof.
  intros L. unfold bar_width. apply Nat.min_le_compat_l.
  apply Nat.Div0.div_le_mono. now apply Nat.mul_le_mono_r.
Qed.

Lemma bar_width_times c total_resources :
  bar_width c total_resources * Nat.max 1 total_resources <= c * 100.
Proof.
  unfold bar_width.
  pose proof (Nat.Div0.mul_div_le (c * 100) (Nat.max 1 total_resources)) as D.
  pose proof (Nat.le_min_r 100 (c * 100 / Nat.max 1 total_resources)) as M.
  nia.
Qed.

Lemma widths_fit (counts : list nat) total_resources :
  list_sum counts <= total_resources ->
  list_sum (map (fun c => bar_width c total_resources) counts) <= 100.
Proof.
  intros L.
  pose proof (Nat.le_max_l 1 total_resources) as M1.
  pose proof (Nat.le_max_r 1 total_resources) as M2.
  assert (S : list_sum (map (fun c => bar_width c total_resources) counts)
              * Nat.max 1 total_resources <= list_sum counts * 100).
  { clear L M1 M2. induction counts as [|c counts IH]; [simpl; lia|].
    cbn [map list_sum fold_right]. fold (list_sum counts).
    fold (list_sum (map (fun c => bar_width c total_resources) counts)).
    rewrite !Nat.mul_add_distr_r.
    pose proof (bar_width_times c total_resources). lia. }
  remember (Nat.max 1 total_resources) as m.
  remember (list_sum (map (fun c => bar_width c total_resources) counts)) as w.
  apply (Nat.mul_le_mono_pos_r _ _ m); nia.
Qed.

Section Lists.
Context {A : Type}.

Lemma StronglySorted_firstn (R : A -> A -> Prop) n l :
  StronglySorted R l -> StronglySorted R (firstn n l).
Proof.
  intros S. revert n. induction S as [|x l S IH F]; intros [|n]; simpl;
    try constructor; [apply IH|].
  rewrite Forall_forall in *. intros y I. apply F.
  now apply (TopFacts.In_firstn n l y).
Qed.

Lemma StronglySorted_map {B : Type} (f : A -> B) (R : B -> B -> Prop) l :
  StronglySorted (fun a b => R (f a) (f b)) l -> StronglySorted R (map f l).
Proof.
  induction 1 as [|x l S IH F]; simpl; constructor; [exact IH|].
  rewrite Forall_forall in *. intros y I. apply in_map_iff in I.
  destruct I as [z [<- I]]. now apply F.
Qed.

Lemma list_sum_firstn (f : A -> nat) n l :
  list_sum (map f (firstn n l)) <= list_sum (map f l).
Proof.
  revert n. induction l as [|x l IH]; intros [|n]; simpl; try lia.
  specialize (IH n). lia.
Qed.

Lemma list_sum_perm (f : A -> nat) l1 l2 :
  Permutation l1 l2 -> list_sum (map f l1) = list_sum (map f l2).
Proof. induction 1; simpl; lia. Qed.
End Lists.

Section Charts.
Context {pyobj : Type}.
Local Abbreviation resource := (@resource pyobj).
Implicit Types (resources : list resource).

(** The widths of the bars of the two charts, top to bottom. *)
Definition service_widths resources : list nat :=
  map (fun sr => bar_width (List.length (snd sr)) (List.length resources))
      (top_services (group_by_service resources)).

Definition region_widths resources : list nat :=
  map (fun rc => bar_width (snd rc) (List.length resources))
      (top_regions (group_by_region resources)).

(** X7.  In each of the two charts of [format_html] the bars come widest
    first, a wider bar never standing for fewer records, and the widths of
    one chart never add up to more than 100. *)
Theorem bars_fall_and_fit resources :
  StronglySorted (fun a b => b <= a) (service_widths resources)
  /\ list_sum (service_widths resources) <= 100
  /\ StronglySorted (fun a b => b <= a) (region_widths resources)
  /\ list_sum (region_widths resources) <= 100
  /\ (forall c1 c2 total_resources,
        c1 <= c2 -> bar_width c1 total_resources <= bar_width c2 total_resources).
Proof.
  destruct (TopFacts.by_count_spec group_size (items (group_by_service resources)))
    as [Ps [Ss _]].
  destruct (TopFacts.by_count_spec region_count (items (group_by_region resources)))
    as [Pr [Sr _]].
  unfold service_widths, region_widths, top_services, top_regions.
  fold (TopFacts.by_count (@group_size pyobj)) (TopFacts.by_count region_count).
  repeat match goal with |- _ /\ _ => split end.
  - apply (StronglySorted_map (fun sr => bar_width (List.length (snd sr)) _)).
    apply StronglySorted_firstn.
    eapply SortedFacts.StronglySorted_impl; [|exact Ss].
    intros a b _ _ H. now apply bar_width_mono.
  - rewrite <- (map_map (fun sr => List.length (snd sr))
                        (fun c => bar_width c (List.length resources))).
    apply widths_fit.
    rewrite (list_sum_firstn _ 5), (list_sum_perm _ _ _ Ps).
    pose proof (total_services resources) as T. unfold total, values in T.
    rewrite map_map in T. unfold items. lia.
  - apply (StronglySorted_map (fun rc => bar_width (snd rc) _)).
    apply StronglySorted_firstn.
    eapply SortedFacts.StronglySorted_impl; [|exact Sr].
    intros a b _ _ H. now apply bar_width_mono.
  - rewrite <- (map_map snd (fun c => bar_width c (List.length resources))).
    apply widths_fit.
    rewrite (list_sum_firstn _ 5), (list_sum_perm _ _ _ Pr).
    pose proof (total_regions resources) as T. unfold total, values in T.
    rewrite map_id in T. unfold items. lia.
  - intros c1 c2 t. apply bar_width_mono.
Qed.

End Charts.
End BarFacts.

(** ** More on highlighting *)

Module MarkFacts.
Import Script PyStrFacts HighlightFacts.

Lemma map_chars_substring f n m s :
  PyStr.map_chars f (String.substring n m s)
  = String.substring n m (PyStr.map_chars f s).
Proof.
  revert n m. induction s as [|c s IH]; intros [|n] [|m]; simpl; auto.
  now rewrite IH.
Qed.

Lemma map_chars_drop f n s :
  PyStr.map_chars f (drop n s) = drop n (PyStr.map_chars f s).
Proof. revert s. induction n as [|n IH]; intros [|c s]; simpl; auto. Qed.

Lemma length_take m s : String.length (String.substring 0 m s) <= m.
Proof.
  revert s. induction m as [|m IH]; intros [|c s]; simpl; try lia.
  specialize (IH s). lia.
Qed.

Lemma take_take k m s :
  k <= m -> String.substring 0 k (String.substring 0 m s) = String.substring 0 k s.
Proof.
  revert m s. induction k as [|k IH]; intros [|m] [|c s] L; simpl; auto; try lia.
  rewrite IH; [reflexivity | lia].
Qed.

Lemma drop_take k m s :
  drop k (String.substring 0 m s) = String.substring 0 (m - k) (drop k s).
Proof.
  revert m s. induction k as [|k IH]; intros m s.
  - now rewrite Nat.sub_0_r.
  - destruct m as [|m], s as [|c s]; simpl; auto.
    + now destruct (drop k s).
    + now destruct (m - k).
Qed.

(** A piece of a piece is a piece of the whole. *)
Lemma substring_substring a n k len s :
  k + len <= n ->
  String.substring k len (String.substring a n s) = String.substring (a + k) len s.
Proof.
  intros L. rewrite (substring_drop k), (substring_drop a n), drop_take.
  rewrite take_take by lia.
  rewrite (substring_drop (a + k)), drop_drop. reflexivity.
Qed.

(** Between the place a search starts from and the match it finds there
    is no other match. *)
Lemma no_match_before term s a b :
  term <> EmptyString ->
  String.index a term s = Some b ->
  String.index 0 term (String.substring a (b - a) s) = None.
Proof.
  intros N I.
  destruct (String.index 0 term (String.substring a (b - a) s)) as [k|] eqn:E;
    [exfalso | reflexivity].
  pose proof (index_bounds _ _ _ _ E) as [_ B].
  pose proof (index_correct1 _ _ _ _ E) as C.
  assert (Ln : String.length (String.substring a (b - a) s) <= b - a)
    by (rewrite substring_drop; apply length_take).
  rewrite substring_substring in C by lia.
  assert (P : 0 < String.length term) by (destruct term; [congruence | simpl; lia]).
  apply (index_correct2 _ _ _ _ I (a + k)); [lia | lia | exact C].
Qed.

(** After a search that finds nothing there is no match. *)
Lemma no_match_after term s a :
  term <> EmptyString ->
  String.index a term s = None ->
  String.index 0 term (drop a s) = None.
Proof.
  intros N I.
  destruct (String.index 0 term (drop a s)) as [k|] eqn:E; [exfalso | reflexivity].
  pose proof (index_correct1 _ _ _ _ E) as C.
  apply (index_correct3 _ (a + k) _ _ I N); [lia|].
  rewrite substring_drop, drop_drop, <- substring_drop. exact C.
Qed.

(** What a node of a marked text is like, for the term [q]: a [<mark>]
    holds the term up to the case of letters; a text node holds no
    occurrence of the term, in whatever case. *)
Definition node_ok (q : string) (n : node) : Prop :=
  match n with
  | Mark p => PyStr.lower p = PyStr.lower q
  | Text p => includes (PyStr.lower p) (PyStr.lower q) = false
  end.

Lemma includes_false hay needle :
  String.index 0 needle hay = None -> includes hay needle = false.
Proof. unfold includes, indexOf. now intros ->. Qed.

Lemma lower_nonempty c rest : PyStr.lower (String c rest) <> EmptyString.
Proof. discriminate. Qed.

Lemma script_substring_le a b s :
  a <= b -> substring a b s = String.substring a (b - a) s.
Proof.
  intros L. unfold substring.
  now replace (b <? a)%nat with false by (symmetry; apply Nat.ltb_ge; lia).
Qed.

Lemma mark_loop_nodes text term lastIdx frag found :
  let '(frag', lastIdx', found') :=
    mark_loop text (PyStr.lower text) term lastIdx frag found in
  (term <> EmptyString ->
   indexOf (PyStr.lower text) (PyStr.lower term) lastIdx' = None)
  /\ (Forall (node_ok term) frag -> Forall (node_ok term) frag')
  /\ (found = true -> found' = true)
  /\ (found' = false -> lastIdx' = lastIdx).
Proof.
  remember (PyStr.lower text) as lower eqn:EL.
  funelim (mark_loop text lower term lastIdx frag found).
  - simp mark_loop. split; [congruence | auto].
  - clear Heqcall.
    destruct (mark_loop _ _ _ _ _ _) as [[frag' lastIdx'] found'].
    destruct (H eq_refl) as [St [Fr [Ft _]]]. split; [exact St|].
    split; [|split; [intros _; now apply Ft
                    | intros E; rewrite Ft in E by reflexivity; discriminate]].
    intros F. apply Fr. clear Fr St Ft H.
    pose proof at_idx as B. apply index_bounds in B.
    apply Forall_app. split; [exact F|].
    apply Forall_app. split.
    + destruct (lastIdx <? idx)%nat; [|constructor].
      constructor; [|constructor]. cbn [node_ok].
      rewrite script_substring_le by lia.
      unfold PyStr.lower at 1. rewrite map_chars_substring.
      apply includes_false. apply no_match_before; [discriminate | exact at_idx].
    + constructor; [|constructor]. cbn [node_ok].
      rewrite script_substring_le by lia.
      replace (idx + String.length (String c rest) - idx)
        with (String.length (PyStr.lower (String c rest)))
        by (rewrite length_lower; lia).
      unfold PyStr.lower at 1. rewrite map_chars_substring.
      apply (index_correct1 _ _ _ _ at_idx).
  - split; [|auto]. intros _. unfold indexOf in *. assumption.
Qed.

(** X8.  What [highlightMatches] makes of a text node, for a text and a
    term within ASCII, the term not empty: every [<mark>] holds the term,
    letter case apart, and no text node left between, before or after the
    marks holds an occurrence of the term in any letter case; so every
    occurrence met from left to right, each starting after the end of the
    one before, is marked. *)
Theorem marks_are_the_matches (q t : string) :
  is_ascii q = true ->
  is_ascii t = true ->
  q <> EmptyString ->
  Forall (fun n =>
            match n with
            | Mark p => PyStr.lower p = PyStr.lower q
            | Text p => includes (PyStr.lower p) (PyStr.lower q) = false
            end)
         (mark_text q t)
  /\ textContent (mark_text q t) = t.
Proof.
  intros _ _ N. split; [|apply textContent_mark_text].
  change (Forall (node_ok q) (mark_text q t)).
  unfold mark_text.
  pose proof (mark_loop_nodes t q 0 [] false) as S.
  destruct (mark_loop _ _ _ _ _ _) as [[frag lastIdx] found].
  destruct S as [St [Fr [_ Z]]]. specialize (St N). specialize (Fr (Forall_nil _)).
  assert (Lq : PyStr.lower q <> EmptyString) by (destruct q; [congruence | discriminate]).
  destruct found; cbn [negb].
  - apply Forall_app. split; [exact Fr|].
    destruct (lastIdx <? String.length t)%nat; [|constructor].
    constructor; [|constructor]. cbn [node_ok].
    rewrite substring_to_end. unfold PyStr.lower at 1. rewrite map_chars_drop.
    apply includes_false. now apply no_match_after.
  - constructor; [|constructor]. cbn [node_ok].
    rewrite (Z eq_refl) in St.
    apply includes_false. exact St.
Qed.

End MarkFacts.

(** ** Highlights do not pile up *)

Module HolderFacts.
Import Script HighlightFacts.

(** A parent as the report is loaded: no text, or one text node. *)
Definition plain_holder (h : holder) : bool :=
  match h with
  | [] => true
  | [Text _] => true
  | _ => false
  end.

Definition plain (element : list holder) : bool := forallb plain_holder element.

Lemma clear_holder_plain h : plain_holder h = true -> clear_holder h = h.
Proof.
  intros P. apply clear_holder_unmarked.
  destruct h as [|[t|m] [|n h]]; try discriminate; reflexivity.
Qed.

Lemma clear_mark_holder_plain q h :
  plain_holder h = true -> clear_holder (mark_holder q h) = h.
Proof.
  destruct h as [|[t|m] [|n h]]; try discriminate; intros _; [reflexivity|].
  unfold mark_holder. cbn [flat_map]. rewrite app_nil_r. apply clear_mark_text.
Qed.

Lemma clear_holder_idem h : clear_holder (clear_holder h) = clear_holder h.
Proof. apply clear_holder_unmarked, count_marks_clear_holder. Qed.

Lemma clearHighlights_idem element :
  clearHighlights (clearHighlights element) = clearHighlights element.
Proof.
  unfold clearHighlights. rewrite map_map. apply map_ext.
  intros h. apply clear_holder_idem.
Qed.

Lemma clearHighlights_plain element :
  plain element = true -> clearHighlights element = element.
Proof.
  unfold plain, clearHighlights. intros P.
  rewrite <- (map_id element) at 2. apply map_ext_in. intros h I.
  apply clear_holder_plain. rewrite forallb_forall in P. now apply P.
Qed.

(** An element whose marks clear away to plain parents. *)
Definition clears_plain (element : list holder) : bool :=
  plain (clearHighlights element).

Lemma plain_clears_plain element : plain element = true -> clears_plain element = true.
Proof. intros P. unfold clears_plain. now rewrite clearHighlights_plain. Qed.

Lemma clear_highlightMatches element q :
  clears_plain element = true ->
  clearHighlights (highlightMatches element q) = clearHighlights element.
Proof.
  unfold clears_plain, highlightMatches. intros P.
  destruct (negb (PyStr.truthy q)); [apply clearHighlights_idem|].
  unfold plain in P. rewrite forallb_forall in P.
  unfold clearHighlights at 1. rewrite map_map.
  rewrite <- (map_id (clearHighlights element)) at 2.
  apply map_ext_in. intros h I. apply clear_mark_holder_plain. now apply P.
Qed.

Lemma highlightMatches_again element q1 q2 :
  clears_plain element = true ->
  highlightMatches (highlightMatches element q1) q2 = highlightMatches element q2.
Proof.
  intros P. unfold highlightMatches at 1 3.
  now rewrite clear_highlightMatches.
Qed.

Lemma clears_plain_clear element :
  clears_plain element = true -> clears_plain (clearHighlights element) = true.
Proof. unfold clears_plain. now rewrite clearHighlights_idem. Qed.

Lemma clears_plain_highlight element q :
  clears_plain element = true -> clears_plain (highlightMatches element q) = true.
Proof. intros P. unfold clears_plain. now rewrite clear_highlightMatches. Qed.

(** X9.  On an element as the report is loaded (each parent holding at
    most one text node and no mark), highlighting for one term and then
    for another gives what highlighting for the other alone gives, and
    clearing after highlighting gives the element back; clearing twice is
    clearing once, on any element. *)
Theorem highlights_do_not_pile_up (element : list holder) (q1 q2 : string) :
  plain element = true ->
  highlightMatches (highlightMatches element q1) q2 = highlightMatches element q2
  /\ clearHighlights (highlightMatches element q1) = element
  /\ (forall any : list holder,
        clearHighlights (clearHighlights any) = clearHighlights any).
Proof.
  intros P. split; [|split].
  - apply highlightMatches_again. now apply plain_clears_plain.
  - rewrite clear_highlightMatches by now apply plain_clears_plain.
    now apply clearHighlights_plain.
  - apply clearHighlights_idem.
Qed.

End HolderFacts.

(** ** One pass of [filterResources], field by field *)

Module PassFacts.
Import Script FilterFacts HolderFacts Buttons.

Lemma row_ext (r1 r2 : dom_row) :
  dataset r1 = dataset r2 ->
  row_cells r1 = row_cells r2 ->
  row_detail_values r1 = row_detail_values r2 ->
  row_hidden r1 = row_hidden r2 ->
  row_expanded r1 = row_expanded r2 ->
  row_autoExpanded r1 = row_autoExpanded r2 ->
  detail_hidden r1 = detail_hidden r2 ->
  detail_collapsed r1 = detail_collapsed r2 ->
  r1 = r2.
Proof.
  destruct r1, r2. unfold dataset. simpl. intros [= -> -> -> -> -> ->].
  intros. now subst.
Qed.

Lemma section_ext (s1 s2 : dom_section) :
  sec_service s1 = sec_service s2 ->
  sec_rows s1 = sec_rows s2 ->
  sec_count s1 = sec_count s2 ->
  sec_hidden s1 = sec_hidden s2 ->
  sec_collapsed s1 = sec_collapsed s2 ->
  sec_icon s1 = sec_icon s2 ->
  sec_autoExpanded s1 = sec_autoExpanded s2 ->
  s1 = s2.
Proof. destruct s1, s2. simpl. intros. now subst. Qed.

(** The test of a pass, on the values read from the controls. *)
Definition test (search service region tag : string) (row : dom_row) : bool :=
  matchService service row && matchRegion region row
  && matchSearch search row && matchTag tag row.

Lemma test_dataset search service region tag r1 r2 :
  dataset r1 = dataset r2 ->
  test search service region tag r1 = test search service region tag r2.
Proof.
  unfold dataset. intros [= Es Er En Ei Et Ed].
  unfold test, matchService, matchRegion, matchSearch, matchTag, detailText.
  now rewrite Es, Er, En, Ei, Et, Ed.
Qed.

Lemma details_dataset search r1 r2 :
  dataset r1 = dataset r2 ->
  has_details_row r1 = has_details_row r2
  /\ matchedInDetails search r1 = matchedInDetails search r2.
Proof.
  unfold dataset. intros [= Es Er En Ei Et Ed].
  unfold has_details_row, matchedInDetails, detailText. now rewrite Ed.
Qed.

(** What a pass leaves in each field of a row. *)
Lemma filter_row_out search service region tag row :
  let t := test search service region tag row in
  let hd := has_details_row row in
  let mid := matchedInDetails search row in
  let au := row_autoExpanded row in
  let row' := fst (filter_row search service region tag row) in
  snd (filter_row search service region tag row) = t
  /\ dataset row' = dataset row
  /\ row_cells row'
     = (if t && PyStr.truthy search then highlightMatches (row_cells row) search
        else clearHighlights (row_cells row))
  /\ row_detail_values row'
     = (if hd then
          if t then
            if mid then highlightMatches (row_detail_values row) search
            else if au then clearHighlights (row_detail_values row)
                 else row_detail_values row
          else clearHighlights (row_detail_values row)
        else row_detail_values row)
  /\ row_hidden row' = negb t
  /\ row_expanded row'
     = (if t && hd then if mid then true else if au then false else row_expanded row
        else row_expanded row)
  /\ row_autoExpanded row' = (if t then if hd then mid else au else false)
  /\ detail_hidden row' = (if hd then negb t else detail_hidden row)
  /\ detail_collapsed row'
     = (if t && hd then if mid then false else if au then true else detail_collapsed row
        else detail_collapsed row).
Proof.
  cbv zeta. unfold test, filter_row.
  destruct (matchService service row && matchRegion region row
            && matchSearch search row && matchTag tag row);
    destruct (has_details_row row);
    destruct (matchedInDetails search row) eqn:M;
    destruct (row_autoExpanded row) eqn:A;
    destruct (PyStr.truthy search) eqn:T;
    cbn [fst snd andb negb row_cells row_detail_values row_hidden row_expanded
         row_autoExpanded detail_hidden detail_collapsed];
    repeat split; try reflexivity; try assumption;
    try (unfold matchedInDetails in M; rewrite T in M; discriminate M).
Qed.

(** The marks of a row clear away to the text the row was loaded with. *)
Definition row_inv (row : dom_row) : bool :=
  clears_plain (row_cells row) && clears_plain (row_detail_values row).

Lemma row_inv_filter search service region tag row :
  row_inv row = true ->
  row_inv (fst (filter_row search service region tag row)) = true.
Proof.
  unfold row_inv. intros I. apply andb_true_iff in I. destruct I as [Ic Id].
  destruct (filter_row_out search service region tag row)
    as [_ [_ [C [D _]]]].
  rewrite C, D. apply andb_true_iff. split.
  - destruct (_ && _); [now apply clears_plain_highlight | now apply clears_plain_clear].
  - destruct (has_details_row row); [|exact Id].
    destruct (test _ _ _ _ row); [|now apply clears_plain_clear].
    destruct (matchedInDetails search row); [now apply clears_plain_highlight|].
    destruct (row_autoExpanded row); [now apply clears_plain_clear | exact Id].
Qed.

Ltac pass_twice row :=
  match goal with
  | |- context [filter_row ?s ?sv ?rg ?tg (fst (filter_row ?s1 ?sv1 ?rg1 ?tg1 row))] =>
      let O := fresh "O" in
      let O' := fresh "O'" in
      pose proof (filter_row_out s1 sv1 rg1 tg1 row) as O;
      pose proof (filter_row_out s sv rg tg (fst (filter_row s1 sv1 rg1 tg1 row))) as O';
      cbv zeta in O, O';
      destruct O as [Osnd [Ods [Ocells [Odv [Ohid [Oexp [Oauto [Odh Odc]]]]]]]];
      destruct (details_dataset s _ _ Ods) as [Ehd Emid];
      pose proof (test_dataset s sv rg tg _ _ Ods) as Et;
      rewrite Et, Ehd, Emid, Ocells, Odv, Oexp, Oauto, Odh, Odc in O';
      destruct O' as [Osnd' [Ods' [Ocells' [Odv' [Ohid' [Oexp' [Oauto' [Odh' Odc']]]]]]]]
  end.

(** A second pass with the controls as they are finds every row as the
    first pass left it. *)
Lemma filter_row_idem search service region tag row :
  row_inv row = true ->
  filter_row search service region tag
             (fst (filter_row search service region tag row))
  = filter_row search service region tag row.
Proof.
  unfold row_inv. intros I. apply andb_true_iff in I. destruct I as [Ic Id].
  pass_twice row.
  apply injective_projections; [|congruence].
  apply row_ext; try congruence.
  - rewrite Ocells', Ocells.
    destruct (test _ _ _ _ row), (PyStr.truthy search); cbn [andb];
      auto using highlightMatches_again, clearHighlights_idem.
  - rewrite Odv', Odv.
    destruct (has_details_row row); [|reflexivity].
    destruct (test _ _ _ _ row); [|apply clearHighlights_idem].
    destruct (matchedInDetails search row);
      [now apply highlightMatches_again|].
    destruct (row_autoExpanded row); reflexivity.
  - rewrite Oexp', Oexp.
    destruct (test _ _ _ _ row), (has_details_row row),
      (matchedInDetails search row), (row_autoExpanded row); reflexivity.
  - rewrite Oauto', Oauto.
    destruct (test _ _ _ _ row), (has_details_row row),
      (matchedInDetails search row), (row_autoExpanded row); reflexivity.
  - rewrite Odh', Odh.
    destruct (test _ _ _ _ row), (has_details_row row); reflexivity.
  - rewrite Odc', Odc.
    destruct (test _ _ _ _ row), (has_details_row row),
      (matchedInDetails search row), (row_autoExpanded row); reflexivity.
Qed.

Definition section_inv (section : dom_section) : bool :=
  forallb row_inv (sec_rows section).

Definition page_inv (dom : list dom_section) : bool := forallb section_inv dom.

Lemma filter_section_idem search service region tag section :
  section_inv section = true ->
  filter_section search service region tag
                 (filter_section search service region tag section)
  = filter_section search service region tag section.
Proof.
  unfold section_inv. intros I. rewrite forallb_forall in I.
  unfold filter_section at 2 3.
  destruct (PyStr.truthy service && negb (String.eqb (sec_service section) service))
    eqn:Skip.
  - unfold filter_section. cbn [sec_service]. rewrite Skip. reflexivity.
  - unfold filter_section. cbn [sec_service sec_rows sec_autoExpanded sec_collapsed sec_icon].
    rewrite Skip.
    assert (R : map (filter_row search service region tag)
                    (map fst (map (filter_row search service region tag)
                                  (sec_rows section)))
                = map (filter_row search service region tag) (sec_rows section)).
    { rewrite !map_map. apply map_ext_in. intros row Ir.
      apply filter_row_idem. now apply I. }
    rewrite R.
    apply section_ext; cbn [sec_service sec_rows sec_count sec_hidden
                            sec_collapsed sec_icon sec_autoExpanded];
      try reflexivity;
      destruct (0 <? List.length (filter snd (map (filter_row search service region tag)
                                                 (sec_rows section))))%nat,
               (PyStr.truthy search), (sec_autoExpanded section);
      reflexivity.
Qed.

Lemma section_inv_filter search service region tag section :
  section_inv section = true ->
  section_inv (filter_section search service region tag section) = true.
Proof.
  unfold section_inv, filter_section. intros I.
  destruct (PyStr.truthy service && negb (String.eqb (sec_service section) service));
    [exact I|].
  cbn [sec_rows]. rewrite forallb_forall in *. intros row' Ir.
  rewrite map_map in Ir. apply in_map_iff in Ir. destruct Ir as [row [<- Ir]].
  apply row_inv_filter. now apply I.
Qed.

Lemma page_inv_filter c dom :
  page_inv dom = true -> page_inv (filterResources c dom) = true.
Proof.
  unfold page_inv, filterResources. intros I. rewrite forallb_forall in *.
  intros s' Is. apply in_map_iff in Is. destruct Is as [s [<- Is]].
  apply section_inv_filter. now apply I.
Qed.

Lemma filterResources_idem c dom :
  page_inv dom = true ->
  filterResources c (filterResources c dom) = filterResources c dom.
Proof.
  unfold page_inv, filterResources. intros I. rewrite forallb_forall in I.
  rewrite map_map. apply map_ext_in. intros s Is.
  apply filter_section_idem. now apply I.
Qed.

End PassFacts.

(** ** The page under the events *)

Module PageEventFacts.
Import Script FilterFacts HolderFacts Buttons Page PassFacts.

Lemma map_update_nth {A B : Type} (g : A -> B) (f : A -> A) n l :
  (forall x, g (f x) = g x) -> map g (update_nth n f l) = map g l.
Proof.
  intros H. revert n. induction l as [|x l IH]; intros [|n]; simpl; auto.
  - now rewrite H.
  - now rewrite IH.
Qed.

Lemma forallb_update_nth {A : Type} (p : A -> bool) (f : A -> A) n l :
  (forall x, p (f x) = p x) -> forallb p (update_nth n f l) = forallb p l.
Proof.
  intros H. revert n. induction l as [|x l IH]; intros [|n]; simpl; auto.
  - now rewrite H.
  - now rewrite IH.
Qed.

Lemma forallb_map_same {A : Type} (p : A -> bool) (f : A -> A) l :
  (forall x, p (f x) = p x) -> forallb p (map f l) = forallb p l.
Proof.
  intros H. induction l as [|x l IH]; simpl; [reflexivity|]. now rewrite H, IH.
Qed.

(** The events that are no pass of [filterResources]. *)
Definition is_button (e : event) : bool :=
  match e with
  | Filter _ | ClearFilters => false
  | _ => true
  end.

(** What decides whether a row is on screen. *)
Definition visibility (dom : list dom_section) : list (bool * list bool) :=
  map (fun section => (sec_hidden section, map row_hidden (sec_rows section))) dom.

Lemma toggleDetails_same row :
  dataset (toggleDetails row) = dataset row
  /\ row_hidden (toggleDetails row) = row_hidden row
  /\ row_inv (toggleDetails row) = row_inv row.
Proof. unfold toggleDetails. destruct (has_details_row row); now repeat split. Qed.

Lemma set_row_open_same open row :
  dataset (set_row_open open row) = dataset row
  /\ row_hidden (set_row_open open row) = row_hidden row
  /\ row_inv (set_row_open open row) = row_inv row.
Proof. unfold set_row_open. destruct (has_details_row row); now repeat split. Qed.

Definition section_key (section : dom_section) :=
  (sec_service section, map dataset (sec_rows section)).

Definition section_visibility (section : dom_section) :=
  (sec_hidden section, map row_hidden (sec_rows section)).

Lemma button_section_same (f : dom_section -> dom_section) :
  f = toggleSection
  \/ (exists j, f = toggle_details_in j)
  \/ (exists open, f = set_section_open open) ->
  forall section,
    section_key (f section) = section_key section
    /\ section_visibility (f section) = section_visibility section
    /\ section_inv (f section) = section_inv section.
Proof.
  unfold section_key, section_visibility, section_inv.
  intros [-> | [[j ->] | [open ->]]] section;
    cbn [toggleSection toggle_details_in set_section_open
         sec_service sec_rows sec_hidden].
  - now repeat split.
  - repeat split.
    + f_equal. apply map_update_nth. intros x. apply toggleDetails_same.
    + f_equal. apply map_update_nth. intros x. apply toggleDetails_same.
    + apply forallb_update_nth. intros x. apply toggleDetails_same.
  - repeat split.
    + f_equal. rewrite map_map. apply map_ext. intros x. apply set_row_open_same.
    + f_equal. rewrite map_map. apply map_ext. intros x. apply set_row_open_same.
    + apply forallb_map_same. intros x. apply set_row_open_same.
Qed.

Lemma button_same e dom :
  is_button e = true ->
  skeleton (step e dom) = skeleton dom
  /\ visibility (step e dom) = visibility dom
  /\ page_inv (step e dom) = page_inv dom.
Proof.
  unfold skeleton, visibility, page_inv.
  fold section_key section_visibility.
  destruct e as [c| |i|i j| |]; try discriminate; intros _;
    cbn [step]; unfold expandAll, collapseAll.
  - pose proof (button_section_same toggleSection (or_introl eq_refl)) as S.
    repeat split; [apply map_update_nth | apply map_update_nth
                   | apply forallb_update_nth]; intros x; apply S.
  - pose proof (button_section_same (toggle_details_in j)
                  (or_intror (or_introl (ex_intro _ j eq_refl)))) as S.
    repeat split; [apply map_update_nth | apply map_update_nth
                   | apply forallb_update_nth]; intros x; apply S.
  - pose proof (button_section_same (set_section_open true)
                  (or_intror (or_intror (ex_intro _ true eq_refl)))) as S.
    repeat split; [rewrite map_map; apply map_ext
                   | rewrite map_map; apply map_ext
                   | apply forallb_map_same]; intros x; apply S.
  - pose proof (button_section_same (set_section_open false)
                  (or_intror (or_intror (ex_intro _ false eq_refl)))) as S.
    repeat split; [rewrite map_map; apply map_ext
                   | rewrite map_map; apply map_ext
                   | apply forallb_map_same]; intros x; apply S.
Qed.

Lemma step_same e dom :
  skeleton (step e dom) = skeleton dom
  /\ (page_inv dom = true -> page_inv (step e dom) = true).
Proof.
  destruct (is_button e) eqn:B.
  - destruct (button_same e dom B) as [K [_ I]]. split; [exact K | now rewrite I].
  - destruct e; try discriminate; cbn [step]; unfold clearFilters;
      (split; [apply skeleton_filterResources | apply page_inv_filter]).
Qed.

Lemma run_same events : forall dom,
  skeleton (run events dom) = skeleton dom
  /\ (page_inv dom = true -> page_inv (run events dom) = true).
Proof.
  unfold run. induction events as [|e events IH]; intros dom; simpl; [auto|].
  destruct (IH (step e dom)) as [K I]. destruct (step_same e dom) as [K' I'].
  split; [congruence | auto].
Qed.

Lemma shown_at_visibility d1 d2 i j :
  visibility d1 = visibility d2 -> shown_at d1 i j = shown_at d2 i j.
Proof.
  unfold visibility, shown_at. intros E.
  assert (N : nth_error (map (fun s => (sec_hidden s, map row_hidden (sec_rows s))) d1) i
              = nth_error (map (fun s => (sec_hidden s, map row_hidden (sec_rows s))) d2) i)
    by now rewrite E.
  rewrite !nth_error_map in N.
  destruct (nth_error d1 i) as [s1|], (nth_error d2 i) as [s2|];
    simpl in N; try discriminate; [|reflexivity].
  injection N as Hs Hr.
  assert (M : nth_error (map row_hidden (sec_rows s1)) j
              = nth_error (map row_hidden (sec_rows s2)) j) by now rewrite Hr.
  rewrite !nth_error_map in M. unfold row_shown. rewrite Hs.
  destruct (nth_error (sec_rows s1) j), (nth_error (sec_rows s2) j);
    simpl in M; try discriminate; [|reflexivity].
  now injection M as ->.
Qed.

Lemma buttons_keep_visibility buttons : forall dom,
  forallb is_button buttons = true ->
  visibility (run buttons dom) = visibility dom.
Proof.
  unfold run. induction buttons as [|e buttons IH]; intros dom B; simpl; [reflexivity|].
  simpl in B. apply andb_true_iff in B. destruct B as [Be B].
  rewrite IH by exact B. now apply button_same.
Qed.

End PageEventFacts.

Section PageTheorems.
Context {pyobj : Type}.
Variable py_str : pyobj -> string.
Variable py_kind : pyobj -> @pykind pyobj.
Variable json_dumps_value : pyobj -> string.
Local Abbreviation resource := (@resource pyobj).
Local Abbreviation build_row' := (build_row py_str py_kind json_dumps_value).
Local Abbreviation initial_dom' := (initial_dom py_str py_kind json_dumps_value).
Import Script FilterFacts HolderFacts Buttons Page PassFacts PageEventFacts.
Implicit Types (resources : list resource) (events : list event).

Lemma plain_text_holder s : plain_holder (text_holder s) = true.
Proof. unfold text_holder. now destruct (PyStr.truthy s). Qed.

Lemma plain_detail_value_holders v :
  plain (detail_value_holders py_str py_kind json_dumps_value v) = true.
Proof.
  unfold detail_value_holders, plain.
  destruct (py_kind v) as [|b|items| |]; try reflexivity.
  - destruct items as [|x items]; [reflexivity|].
    apply forallb_forall. intros h I. apply in_map_iff in I.
    destruct I as [y [<- _]]. apply plain_text_holder.
  - cbn [forallb]. now rewrite plain_text_holder.
  - cbn [forallb]. now rewrite plain_text_holder.
Qed.

Lemma plain_flat_map {A : Type} (f : A -> list holder) l :
  (forall x, plain (f x) = true) -> plain (flat_map f l) = true.
Proof.
  intros H. unfold plain in *. induction l as [|x l IH]; [reflexivity|].
  cbn [flat_map]. rewrite forallb_app, H, IH. reflexivity.
Qed.

(** A row as the report is loaded. *)
Definition fresh_row (row : dom_row) : bool :=
  plain (row_cells row) && plain (row_detail_values row)
  && negb (row_hidden row) && negb (row_expanded row)
  && negb (row_autoExpanded row) && negb (detail_hidden row)
  && detail_collapsed row.

Lemma fresh_build_row service_name r : fresh_row (build_row' service_name r) = true.
Proof.
  unfold fresh_row, build_row.
  cbn [row_cells row_detail_values row_hidden row_expanded row_autoExpanded
       detail_hidden detail_collapsed negb andb].
  rewrite !andb_true_r. apply andb_true_iff. split.
  - unfold plain. rewrite !forallb_app. cbn [forallb].
    rewrite !plain_text_holder. now destruct (match res_is_default r with
                                             | Some b => b | None => false end).
  - destruct (truthy _); [|reflexivity].
    apply plain_flat_map, plain_detail_value_holders.
Qed.

Lemma fresh_row_inv row : fresh_row row = true -> row_inv row = true.
Proof.
  unfold fresh_row, row_inv. intros F.
  repeat (apply andb_true_iff in F; destruct F as [F ?]).
  apply andb_true_iff. split; now apply plain_clears_plain.
Qed.

Lemma page_inv_initial resources : page_inv (initial_dom' resources) = true.
Proof.
  unfold page_inv, initial_dom, service_sections.
  apply forallb_forall. intros section I. apply in_map_iff in I.
  destruct I as [k [<- _]]. unfold section_inv, build_section. cbn [sec_rows].
  apply forallb_forall. intros row I. apply in_map_iff in I.
  destruct I as [r [<- _]]. apply fresh_row_inv, fresh_build_row.
Qed.

(** X10.  Whatever was done to the loaded page before, running
    [filterResources] a second time with the controls unchanged changes
    nothing: the page after two passes is the page after one. *)
Theorem second_pass_changes_nothing resources events (c : controls) :
  let dom := run events (initial_dom' resources) in
  filterResources c (filterResources c dom) = filterResources c dom.
Proof.
  cbv zeta. apply filterResources_idem.
  apply run_same, page_inv_initial.
Qed.


Definition icon_ok (section : dom_section) : bool :=
  String.eqb (sec_icon section) (if sec_collapsed section then "+" else "-").

Lemma icon_ok_step e dom :
  forallb icon_ok dom = true -> forallb icon_ok (step e dom) = true.
Proof.
  intros I.
  assert (F : forall search service region tag section,
             icon_ok section = true ->
             icon_ok (filter_section search service region tag section) = true).
  { intros s sv rg tg section H. unfold filter_section.
    destruct (_ && negb _); [exact H|].
    unfold icon_ok. cbn [sec_icon sec_collapsed].
    destruct (_ && PyStr.truthy s); [reflexivity|].
    destruct (negb (PyStr.truthy s) && _); [reflexivity | exact H]. }
  destruct e as [c| |i|i j| |]; cbn [step];
    unfold clearFilters, filterResources, expandAll, collapseAll.
  - rewrite forallb_forall in *. intros s' Is. apply in_map_iff in Is.
    destruct Is as [s [<- Is]]. apply F. now apply I.
  - rewrite forallb_forall in *. intros s' Is. apply in_map_iff in Is.
    destruct Is as [s [<- Is]]. apply F. now apply I.
  - clear F. revert i. induction dom as [|s dom IH]; intros [|i]; simpl in *; auto;
      apply andb_true_iff in I; destruct I as [Is I]; apply andb_true_iff; split;
      auto.
    unfold icon_ok, toggleSection. cbn [sec_icon sec_collapsed].
    now destruct (negb (sec_collapsed s)).
  - rewrite forallb_update_nth; [exact I | reflexivity].
  - apply forallb_forall. intros s' Is. apply in_map_iff in Is.
    destruct Is as [s [<- _]]. reflexivity.
  - apply forallb_forall. intros s' Is. apply in_map_iff in Is.
    destruct Is as [s [<- _]]. reflexivity.
Qed.

(** X12.  Whatever is done to the loaded page, the sign on a section
    header tells the state of the section: [+] on a collapsed section, [-]
    on an open one. *)
Theorem toggle_icon_tells_the_state resources events :
  Forall (fun section =>
            sec_icon section = if sec_collapsed section then "+" else "-")
         (run events (initial_dom' resources)).
Proof.
  assert (I : forallb icon_ok (run events (initial_dom' resources)) = true).
  { assert (I0 : forallb icon_ok (initial_dom' resources) = true).
    { apply forallb_forall. intros s Is. unfold initial_dom, service_sections in Is.
      apply in_map_iff in Is. destruct Is as [k [<- _]]. reflexivity. }
    revert I0. unfold run. generalize (initial_dom' resources).
    induction events as [|e events IH]; intros dom I0; simpl; [exact I0|].
    apply IH. now apply icon_ok_step. }
  apply Forall_forall. intros s Is. rewrite forallb_forall in I.
  apply String.eqb_eq. now apply I.
Qed.

End PageTheorems.

(** ** Passes and the panels they open *)

Module AutoFacts.
Import Script FilterFacts HolderFacts Buttons Page PassFacts.

(** A row marked as opened by a search is open, on screen, and has
    details. *)
Definition row_auto_ok (row : dom_row) : bool :=
  negb (row_autoExpanded row)
  || (row_expanded row && negb (detail_collapsed row) && negb (row_hidden row)
      && negb (detail_hidden row) && has_details_row row).

Definition section_auto_ok (section : dom_section) : bool :=
  (negb (sec_autoExpanded section) || negb (sec_collapsed section))
  && forallb row_auto_ok (sec_rows section).

Lemma row_auto_ok_filter search service region tag row :
  row_auto_ok row = true ->
  row_auto_ok (fst (filter_row search service region tag row)) = true.
Proof.
  unfold row_auto_ok. intros I.
  destruct (filter_row_out search service region tag row)
    as [_ [Ds [_ [_ [Hh [He [Ha [Hdh Hdc]]]]]]]].
  destruct (details_dataset search _ _ Ds) as [Ehd _].
  rewrite Hh, He, Ha, Hdh, Hdc, Ehd.
  destruct (test _ _ _ _ row); [|reflexivity].
  destruct (has_details_row row).
  - destruct (matchedInDetails search row); reflexivity.
  - destruct (row_autoExpanded row); [|reflexivity].
    cbn [negb orb] in I. now rewrite andb_false_r in I.
Qed.

Lemma section_auto_ok_filter search service region tag section :
  section_auto_ok section = true ->
  section_auto_ok (filter_section search service region tag section) = true.
Proof.
  unfold section_auto_ok, filter_section. intros I.
  apply andb_true_iff in I. destruct I as [Ia Ir].
  destruct (PyStr.truthy service && negb _);
    cbn [sec_autoExpanded sec_collapsed sec_rows].
  - now rewrite Ia, Ir.
  - apply andb_true_iff. split.
    + destruct (_ && PyStr.truthy search); [reflexivity|].
      destruct (negb (PyStr.truthy search) && _); [reflexivity | exact Ia].
    + rewrite forallb_forall in *. intros row' I'. rewrite map_map in I'.
      apply in_map_iff in I'. destruct I' as [row [<- I']].
      apply row_auto_ok_filter. now apply Ir.
Qed.

Lemma test_empty row : test "" "" "" "" row = true.
Proof. reflexivity. Qed.

Lemma matchedInDetails_empty row : matchedInDetails "" row = false.
Proof. reflexivity. Qed.

Lemma fresh_fields row :
  negb (row_hidden row) && negb (row_expanded row)
  && negb (row_autoExpanded row) && negb (detail_hidden row)
  && detail_collapsed row = true ->
  row_hidden row = false /\ row_expanded row = false
  /\ row_autoExpanded row = false /\ detail_hidden row = false
  /\ detail_collapsed row = true.
Proof.
  destruct (row_hidden row), (row_expanded row), (row_autoExpanded row),
    (detail_hidden row), (detail_collapsed row); simpl; intros; try discriminate;
    now repeat split.
Qed.

(** The pass of Clear on a row that one pass has been over: the row is as
    it was loaded. *)
Lemma clear_after_pass_row search service region tag row :
  plain (row_cells row) = true ->
  plain (row_detail_values row) = true ->
  row_hidden row = false -> row_expanded row = false ->
  row_autoExpanded row = false -> detail_hidden row = false ->
  detail_collapsed row = true ->
  filter_row "" "" "" "" (fst (filter_row search service region tag row))
  = (row, true).
Proof.
  intros Pc Pd Hh He Ha Hdh Hdc.
  pose proof (plain_clears_plain _ Pc) as Cc.
  pose proof (plain_clears_plain _ Pd) as Cd.
  pass_twice row.
  rewrite test_empty, matchedInDetails_empty in *.
  apply injective_projections; [|exact Osnd'].
  cbn [fst]. apply row_ext; try congruence.
  - rewrite Ocells'. cbn [andb PyStr.truthy].
    destruct (_ && _).
    + rewrite clear_highlightMatches by exact Cc. now apply clearHighlights_plain.
    + rewrite clearHighlights_idem. now apply clearHighlights_plain.
  - rewrite Odv', Ha.
    destruct (has_details_row row); [|reflexivity].
    destruct (test _ _ _ _ row).
    + destruct (matchedInDetails search row).
      * rewrite clear_highlightMatches by exact Cd. now apply clearHighlights_plain.
      * reflexivity.
    + now apply clearHighlights_plain.
  - rewrite Ohid', Hh. reflexivity.
  - rewrite Oexp', He, Ha.
    destruct (test _ _ _ _ row), (has_details_row row),
      (matchedInDetails search row); reflexivity.
  - rewrite Oauto', Ha.
    destruct (test _ _ _ _ row), (has_details_row row),
      (matchedInDetails search row); reflexivity.
  - rewrite Odh', Hdh.
    destruct (test _ _ _ _ row), (has_details_row row); reflexivity.
  - rewrite Odc', Hdc, Ha.
    destruct (test _ _ _ _ row), (has_details_row row),
      (matchedInDetails search row); reflexivity.
Qed.

(** The pass of Clear on a row as it was loaded. *)
Lemma clear_pass_row row :
  plain (row_cells row) = true ->
  plain (row_detail_values row) = true ->
  row_hidden row = false -> row_autoExpanded row = false ->
  detail_hidden row = false ->
  filter_row "" "" "" "" row = (row, true).
Proof.
  intros Pc Pd Hh Ha Hdh.
  destruct (filter_row_out "" "" "" "" row)
    as [Sn [Ds [C [D [H [E [A [Dh Dc]]]]]]]].
  rewrite test_empty, matchedInDetails_empty in *.
  apply injective_projections; [|exact Sn].
  cbn [fst]. apply row_ext; try congruence.
  - rewrite C. cbn. now apply clearHighlights_plain.
  - rewrite D, Ha. now destruct (has_details_row row).
  - rewrite H, Hh. reflexivity.
  - rewrite E, Ha. now destruct (has_details_row row).
  - rewrite A, Ha. now destruct (has_details_row row).
  - rewrite Dh, Hdh. now destruct (has_details_row row).
  - rewrite Dc, Ha. now destruct (has_details_row row).
Qed.

End AutoFacts.

Section ClearTheorems.
Context {pyobj : Type}.
Variable py_str : pyobj -> string.
Variable py_kind : pyobj -> @pykind pyobj.
Variable json_dumps_value : pyobj -> string.
Local Abbreviation resource := (@resource pyobj).
Local Abbreviation build_row' := (build_row py_str py_kind json_dumps_value).
Local Abbreviation initial_dom' := (initial_dom py_str py_kind json_dumps_value).
Import Script FilterFacts HolderFacts Buttons Page PassFacts PageEventFacts AutoFacts.
Implicit Types (resources : list resource) (events : list event).

(** X13.  After any number of passes of [filterResources] on the loaded
    page, a row that carries the mark of a panel opened by the search is
    on screen with its panel open, and a section that carries it is
    open. *)
Theorem auto_expanded_means_open resources (history : list controls) :
  Forall (fun section =>
            (sec_autoExpanded section = true -> sec_collapsed section = false)
            /\ Forall (fun row =>
                         row_autoExpanded row = true ->
                         row_expanded row = true
                         /\ detail_collapsed row = false
                         /\ row_hidden row = false
                         /\ detail_hidden row = false
                         /\ has_details_row row = true)
                      (sec_rows section))
         (after_passes history (initial_dom' resources)).
Proof.
  assert (I : forallb section_auto_ok (after_passes history (initial_dom' resources))
              = true).
  { assert (I0 : forallb section_auto_ok (initial_dom' resources) = true).
    { apply forallb_forall. intros s Is. unfold initial_dom, service_sections in Is.
      apply in_map_iff in Is. destruct Is as [k [<- _]].
      unfold section_auto_ok, build_section.
      cbn [sec_autoExpanded sec_collapsed sec_rows negb orb andb].
      apply forallb_forall. intros row Ir. apply in_map_iff in Ir.
      destruct Ir as [r [<- _]]. reflexivity. }
    revert I0. unfold after_passes. generalize (initial_dom' resources).
    induction history as [|c history IH]; intros dom I0; simpl; [exact I0|].
    apply IH. unfold filterResources. rewrite forallb_forall in *.
    intros s' Is. apply in_map_iff in Is. destruct Is as [s [<- Is]].
    apply section_auto_ok_filter. now apply I0. }
  rewrite forallb_forall in I. apply Forall_forall. intros s Is.
  specialize (I s Is). unfold section_auto_ok in I.
  apply andb_true_iff in I. destruct I as [Ia Ir]. split.
  - intros A. rewrite A in Ia. cbn in Ia. now apply negb_true_iff.
  - rewrite forallb_forall in Ir. apply Forall_forall. intros row Irow.
    specialize (Ir row Irow). unfold row_auto_ok in Ir. intros A.
    rewrite A in Ir. cbn [negb orb] in Ir.
    repeat (apply andb_true_iff in Ir; destruct Ir as [Ir ?]).
    repeat split; auto; now apply negb_true_iff.
Qed.

(** A section as the report is loaded. *)
Definition fresh_section (section : dom_section) : Prop :=
  sec_hidden section = false /\ sec_collapsed section = true
  /\ sec_icon section = "+" /\ sec_autoExpanded section = false
  /\ sec_count section = count_text (List.length (sec_rows section))
  /\ sec_rows section <> []
  /\ forallb (fresh_row) (sec_rows section) = true.

Lemma fresh_row_fields row :
  fresh_row row = true ->
  plain (row_cells row) = true /\ plain (row_detail_values row) = true
  /\ row_hidden row = false /\ row_expanded row = false
  /\ row_autoExpanded row = false /\ detail_hidden row = false
  /\ detail_collapsed row = true.
Proof.
  unfold fresh_row. intros F.
  repeat (apply andb_true_iff in F; destruct F as [F ?]).
  repeat split; auto; now apply negb_true_iff.
Qed.

Lemma length_filter_all {A : Type} (p : A -> bool) l :
  (forall x, In x l -> p x = true) -> filter p l = l.
Proof.
  induction l as [|x l IH]; intros H; simpl; [reflexivity|].
  rewrite H by now left. f_equal. apply IH. intros y I. apply H. now right.
Qed.

Lemma clear_after_pass_section search service region tag section :
  fresh_section section ->
  filter_section "" "" "" "" (filter_section search service region tag section)
  = section.
Proof.
  intros [Hh [Hc [Hi [Ha [Hn [Ne Fr]]]]]]. rewrite forallb_forall in Fr.
  assert (P : 0 < List.length (sec_rows section))
    by (destruct (sec_rows section); [congruence | simpl; lia]).
  unfold filter_section at 2.
  destruct (PyStr.truthy service && negb _).
  - unfold filter_section. cbn [PyStr.truthy String.eqb negb andb sec_service
                                sec_rows sec_autoExpanded sec_collapsed sec_icon].
    assert (R : map (filter_row "" "" "" "") (sec_rows section)
                = map (fun row => (row, true)) (sec_rows section)).
    { apply map_ext_in. intros row I.
      destruct (fresh_row_fields row (Fr row I)) as [Pc [Pd [H1 [H2 [H3 [H4 H5]]]]]].
      now apply clear_pass_row. }
    rewrite R. rewrite map_map. cbn [fst]. rewrite map_id.
    rewrite length_filter_all
      by (intros x I; apply in_map_iff in I; destruct I as [? [<- _]]; reflexivity).
    rewrite length_map. apply Nat.ltb_lt in P. rewrite P.
    apply section_ext; cbn; auto; now rewrite Ha.
  - unfold filter_section. cbn [PyStr.truthy String.eqb negb andb sec_service
                                sec_rows sec_autoExpanded sec_collapsed sec_icon].
    assert (R : map (filter_row "" "" "" "")
                    (map fst (map (filter_row search service region tag)
                                  (sec_rows section)))
                = map (fun row => (row, true)) (sec_rows section)).
    { rewrite !map_map. apply map_ext_in. intros row I.
      destruct (fresh_row_fields row (Fr row I)) as [Pc [Pd [H1 [H2 [H3 [H4 H5]]]]]].
      now apply clear_after_pass_row. }
    rewrite R. rewrite map_map. cbn [fst]. rewrite map_id.
    rewrite length_filter_all
      by (intros x I; apply in_map_iff in I; destruct I as [? [<- _]]; reflexivity).
    rewrite length_map. apply Nat.ltb_lt in P. rewrite P.
    apply section_ext; cbn [sec_service sec_rows sec_count sec_hidden
                            sec_collapsed sec_icon sec_autoExpanded negb];
      auto.
    + rewrite Ha, Hc. now destruct (_ && PyStr.truthy search), (PyStr.truthy search).
    + rewrite Ha, Hi. now destruct (_ && PyStr.truthy search), (PyStr.truthy search).
    + rewrite Ha. now destruct (_ && PyStr.truthy search), (PyStr.truthy search).
Qed.

Lemma fresh_initial_sections resources section :
  In section (initial_dom' resources) -> fresh_section section.
Proof.
  intros I.
  destruct (PageFacts.initial_section_rows
              py_str py_kind json_dumps_value resources section I) as [_ Ne].
  unfold initial_dom, service_sections in I. apply in_map_iff in I.
  destruct I as [k [<- _]]. unfold fresh_section, build_section in *.
  cbn [sec_hidden sec_collapsed sec_icon sec_autoExpanded sec_count sec_rows] in *.
  repeat split; auto.
  - rewrite length_map. reflexivity.
  - apply forallb_forall. intros row Ir. apply in_map_iff in Ir.
    destruct Ir as [r [<- _]]. apply fresh_build_row.
Qed.

(** X14.  One pass of [filterResources] on the loaded page, with any
    controls, and then Clear: the service sections are again as they were
    loaded, every section collapsed, every panel closed, no mark left and
    the counts of the headers as at the start.  (The cards and charts
    above the sections, which [updateDashboard] redraws at the end of
    every pass, are no part of the sections and of this statement.) *)
Theorem clear_after_one_pass_restores_the_sections resources (c : controls) :
  clearFilters (filterResources c (initial_dom' resources))
  = initial_dom' resources.
Proof.
  unfold clearFilters, filterResources. rewrite map_map.
  rewrite <- (map_id (initial_dom' resources)) at 2.
  apply map_ext_in. intros section I.
  apply clear_after_pass_section. now apply (fresh_initial_sections resources).
Qed.

End ClearTheorems.

(** ** Clear, the dashboard and Collapse All *)

Module DashboardFacts.
Import Script FilterFacts HolderFacts Buttons Page PassFacts PageEventFacts AutoFacts.
Import Dashboard.

Definition unhidden (row : dom_row) : bool := negb (row_hidden row).

(** Is the section left out by the pass for [c]? *)
Definition skipped (c : controls) (section : dom_section) : bool :=
  PyStr.truthy (serviceFilter c)
  && negb (String.eqb (sec_service section) (serviceFilter c)).

(** The rows of the sections that the pass leaves out which were not
    hidden before it. *)
Definition stale (c : controls) (dom : list dom_section) : list dom_row :=
  flat_map (fun section =>
              if skipped c section then filter unhidden (sec_rows section) else [])
           dom.

Lemma filter_unhidden_results search service region tag rows :
  filter unhidden (map fst (map (filter_row search service region tag) rows))
  = map fst (filter snd (map (filter_row search service region tag) rows)).
Proof.
  induction rows as [|row rows IH]; [reflexivity|].
  cbn [map filter]. unfold unhidden at 1.
  destruct (filter_row_spec search service region tag row) as [Sn [Hd _]].
  rewrite Hd, Sn, negb_involutive.
  destruct (_ && _); cbn [map]; now rewrite IH.
Qed.

Lemma section_rows_after_pass c section :
  let section' := filter_section (PyStr.lower (searchBox c)) (serviceFilter c)
                                 (regionFilter c) (tagFilter c) section in
  filter unhidden (sec_rows section')
  = (if sec_hidden section' then [] else filter unhidden (sec_rows section'))
    ++ (if skipped c section then filter unhidden (sec_rows section) else []).
Proof.
  cbv zeta. unfold filter_section, skipped.
  destruct (PyStr.truthy (serviceFilter c) && negb _).
  - reflexivity.
  - cbn [sec_rows sec_hidden]. rewrite app_nil_r.
    rewrite filter_unhidden_results.
    destruct (filter snd _); reflexivity.
Qed.

Lemma visibleRows_cons section dom :
  visibleRows (section :: dom) = filter unhidden (sec_rows section) ++ visibleRows dom.
Proof. reflexivity. Qed.

Lemma shownRows_cons section dom :
  shownRows (section :: dom)
  = (if sec_hidden section then [] else filter unhidden (sec_rows section))
    ++ shownRows dom.
Proof. reflexivity. Qed.

Lemma stale_cons c section dom :
  stale c (section :: dom)
  = (if skipped c section then filter unhidden (sec_rows section) else [])
    ++ stale c dom.
Proof. reflexivity. Qed.

Lemma filterResources_cons c section dom :
  filterResources c (section :: dom)
  = filter_section (PyStr.lower (searchBox c)) (serviceFilter c)
                   (regionFilter c) (tagFilter c) section
    :: filterResources c dom.
Proof. reflexivity. Qed.


Lemma set_row_open_absorbs open row :
  set_row_open open (toggleDetails row) = set_row_open open row
  /\ (forall open', set_row_open open (set_row_open open' row) = set_row_open open row).
Proof.
  unfold set_row_open, toggleDetails.
  destruct (has_details_row row) eqn:H.
  - split; [|intros open']; unfold has_details_row in *;
      cbn [row_details]; rewrite H; reflexivity.
  - split; [|intros open']; rewrite H; reflexivity.
Qed.

Lemma set_section_open_absorbs open (f : dom_section -> dom_section) :
  f = toggleSection
  \/ (exists j, f = toggle_details_in j)
  \/ (exists open', f = set_section_open open') ->
  forall section, set_section_open open (f section) = set_section_open open section.
Proof.
  intros [-> | [[j ->] | [open' ->]]] section; unfold set_section_open;
    cbn [toggleSection toggle_details_in set_section_open sec_service sec_rows
         sec_count sec_hidden sec_autoExpanded]; f_equal.
  - apply map_update_nth. intros x. apply set_row_open_absorbs.
  - rewrite map_map. apply map_ext. intros x. apply set_row_open_absorbs.
Qed.

Lemma collapseAll_absorbs e dom :
  is_button e = true -> collapseAll (step e dom) = collapseAll dom.
Proof.
  unfold collapseAll.
  destruct e as [c| |i|i j| |]; try discriminate; intros _; cbn [step];
    unfold expandAll, collapseAll.
  - apply map_update_nth. apply set_section_open_absorbs. now left.
  - apply map_update_nth. apply set_section_open_absorbs. right. left. now exists j.
  - rewrite map_map. apply map_ext. apply set_section_open_absorbs.
    right. right. now exists true.
  - rewrite map_map. apply map_ext. apply set_section_open_absorbs.
    right. right. now exists false.
Qed.

Lemma collapseAll_run buttons : forall dom,
  forallb is_button buttons = true ->
  collapseAll (run buttons dom) = collapseAll dom.
Proof.
  unfold run. induction buttons as [|e buttons IH]; intros dom B; simpl; [reflexivity|].
  simpl in B. apply andb_true_iff in B. destruct B as [Be B].
  rewrite IH by exact B. now apply collapseAll_absorbs.
Qed.

Lemma rows_length_skeleton d1 : forall d2,
  skeleton d1 = skeleton d2 ->
  map (fun s => List.length (sec_rows s)) d1
  = map (fun s => List.length (sec_rows s)) d2.
Proof.
  unfold skeleton. induction d1 as [|s1 d1 IH]; intros [|s2 d2]; simpl;
    try discriminate; [reflexivity|].
  intros [= _ R E]. f_equal; [|now apply IH].
  rewrite <- (length_map dataset (sec_rows s1)), R. apply length_map.
Qed.

Lemma length_flat_map_rows (dom : list dom_section) :
  List.length (flat_map sec_rows dom)
  = list_sum (map (fun s => List.length (sec_rows s)) dom).
Proof.
  induction dom as [|s dom IH]; [reflexivity|].
  cbn [flat_map map list_sum fold_right]. rewrite length_app, IH. reflexivity.
Qed.

Lemma clear_pass_section_rows section :
  let section' := filter_section "" "" "" "" section in
  filter unhidden (sec_rows section') = sec_rows section'
  /\ List.length (sec_rows section') = List.length (sec_rows section)
  /\ sec_hidden section' = match sec_rows section with [] => true | _ => false end
  /\ sec_count section' = count_text (List.length (sec_rows section)).
Proof.
  cbv zeta. unfold filter_section.
  cbn [PyStr.truthy String.eqb negb andb sec_rows sec_hidden sec_count].
  assert (A : filter snd (map (filter_row "" "" "" "") (sec_rows section))
              = map (filter_row "" "" "" "") (sec_rows section)).
  { apply length_filter_all. intros x I. apply in_map_iff in I.
    destruct I as [row [<- _]].
    now destruct (filter_row_out "" "" "" "" row) as [-> _]. }
  rewrite filter_unhidden_results, A, !length_map.
  repeat split. now destruct (sec_rows section).
Qed.

Lemma clear_shows_all (dom : list dom_section) :
  visibleRows (clearFilters dom) = flat_map sec_rows (clearFilters dom)
  /\ shownRows (clearFilters dom) = flat_map sec_rows (clearFilters dom)
  /\ List.length (flat_map sec_rows (clearFilters dom))
     = List.length (flat_map sec_rows dom).
Proof.
  unfold clearFilters.
  induction dom as [|section dom [IHv [IHs IHl]]]; [now repeat split|].
  rewrite filterResources_cons, visibleRows_cons, shownRows_cons.
  cbn [no_filter searchBox serviceFilter regionFilter tagFilter PyStr.lower
       PyStr.map_chars flat_map].
  destruct (clear_pass_section_rows section) as [U [L [H _]]].
  rewrite U, IHv, IHs, !length_app, IHl, L, H.
  repeat split.
  destruct (sec_rows section) eqn:E; [|reflexivity].
  destruct (sec_rows (filter_section "" "" "" "" section)); [reflexivity|].
  simpl in L. discriminate.
Qed.

End DashboardFacts.

Section ClearAndCollapse.
Context {pyobj : Type}.
Variable py_str : pyobj -> string.
Variable py_kind : pyobj -> @pykind pyobj.
Variable json_dumps_value : pyobj -> string.
Local Abbreviation resource := (@resource pyobj).
Local Abbreviation initial_dom' := (initial_dom py_str py_kind json_dumps_value).
Import Script FilterFacts HolderFacts Buttons Page PassFacts PageEventFacts.
Import AutoFacts Dashboard DashboardFacts.
Implicit Types (resources : list resource) (events : list event).

Lemma rows_after_events resources events :
  List.length (flat_map sec_rows (run events (initial_dom' resources)))
  = List.length resources.
Proof.
  destruct (run_same events (initial_dom' resources)) as [K _].
  rewrite length_flat_map_rows, (rows_length_skeleton _ _ K),
    <- length_flat_map_rows.
  apply PageFacts.initial_rows_length.
Qed.


Lemma set_row_open_fresh row :
  fresh_row row = true -> set_row_open false row = row.
Proof.
  intros F. destruct (fresh_row_fields row F) as [_ [_ [_ [He [_ [_ Hc]]]]]].
  unfold set_row_open. destruct (has_details_row row); [|reflexivity].
  destruct row. cbn in *. now subst.
Qed.

Lemma collapseAll_initial resources :
  collapseAll (initial_dom' resources) = initial_dom' resources.
Proof.
  unfold collapseAll. rewrite <- (map_id (initial_dom' resources)) at 2.
  apply map_ext_in. intros section I.
  destruct (fresh_initial_sections py_str py_kind json_dumps_value resources section I)
    as [Hh [Hc [Hi [Ha [Hn [Ne Fr]]]]]].
  unfold set_section_open.
  replace (map (set_row_open false) (sec_rows section)) with (sec_rows section).
  - destruct section. cbn in *. now subst.
  - rewrite <- (map_id (sec_rows section)) at 1. apply map_ext_in.
    intros row Ir. symmetry. apply set_row_open_fresh.
    rewrite forallb_forall in Fr. now apply Fr.
Qed.

(** X17.  On the loaded page, whatever headers and rows are clicked and
    however often Expand All is pressed, Collapse All gives back the page
    as it was loaded. *)
Theorem collapse_all_undoes_the_clicks resources (buttons : list event) :
  forallb is_button buttons = true ->
  collapseAll (run buttons (initial_dom' resources)) = initial_dom' resources.
Proof.
  intros B. rewrite collapseAll_run by exact B. apply collapseAll_initial.
Qed.

End ClearAndCollapse.

(** ** The export of the rows on screen, read back *)

Module ExportFacts.
Import CsvReader CsvReaderFacts PyStrFacts Dashboard.

Lemma read_cell_comma f row rest :
  read (export_cell f ++ String comma rest) StartField EmptyString row
  = read rest StartField EmptyString (row ++ [f]).
Proof.
  unfold export_cell. change PyStr.dq with (String quote EmptyString).
  cbn [append read step]. unfold start_field. rewrite Ascii.eqb_refl.
  rewrite append_assoc. cbn [append].
  rewrite read_quoted_tail. cbn [append read step].
  unfold end_field. now rewrite Ascii.eqb_refl.
Qed.

Lemma read_cell_lf f row rest :
  read (export_cell f ++ String LF rest) StartField EmptyString row
  = (row ++ [f]) :: read rest StartRecord EmptyString [].
Proof.
  unfold export_cell. change PyStr.dq with (String quote EmptyString).
  cbn [append read step]. unfold start_field. rewrite Ascii.eqb_refl.
  rewrite append_assoc. cbn [append].
  rewrite read_quoted_tail. reflexivity.
Qed.

Lemma read_cells fields : forall row rest,
  fields <> [] ->
  read (PyStr.join "," (map export_cell fields) ++ String LF rest)
       StartField EmptyString row
  = (row ++ fields) :: read rest StartRecord EmptyString [].
Proof.
  induction fields as [|f fields IH]; intros row rest N; [congruence|].
  destruct fields as [|g fields].
  - cbn [map PyStr.join String.concat]. apply read_cell_lf.
  - cbn [map]. rewrite join_cons2, !append_assoc.
    change ("," ++ ?s)%string with (String comma s).
    cbn [append]. rewrite read_cell_comma.
    cbn [map] in IH. rewrite IH by discriminate.
    now rewrite <- app_assoc.
Qed.

Lemma read_first_cell f rest :
  read (export_cell f ++ rest) StartRecord EmptyString []
  = read (export_cell f ++ rest) StartField EmptyString [].
Proof. reflexivity. Qed.

Section Download.
Variable cell_text : dom_row -> nat -> string.

Lemma read_export_line row rest :
  read (export_line cell_text row ++ rest) StartRecord EmptyString []
  = export_data cell_text row :: read rest StartRecord EmptyString [].
Proof.
  unfold export_line, export_data. rewrite append_assoc.
  change (PyStr.lf ++ rest)%string with (String LF rest).
  cbn [map]. rewrite join_cons2, !append_assoc.
  rewrite read_first_cell.
  change ("," ++ ?s)%string with (String comma s).
  rewrite read_cell_comma.
  match goal with
  | |- context [PyStr.join "," (?a :: ?b :: ?c :: ?d :: nil)] =>
      change (a :: b :: c :: d :: nil)
        with (map export_cell [cell_text row 0; cell_text row 1; cell_text row 2;
                               row_region row])
  end.
  rewrite read_cells by discriminate. reflexivity.
Qed.

Lemma append_lines (rows : list dom_row) : forall init,
  fold_left (fun csv row => csv ++ export_line cell_text row)%string rows init
  = (init ++ String.concat "" (map (export_line cell_text) rows))%string.
Proof.
  induction rows as [|row rows IH]; intros init; cbn [fold_left map].
  - change (String.concat "" []) with EmptyString. now rewrite append_nil_r.
  - rewrite IH, concat_cons, !append_assoc. reflexivity.
Qed.

Lemma exportCSV_unfold dom :
  exportCSV cell_text dom
  = ("Service,Type,Name,ID/ARN,Region" ++ PyStr.lf
     ++ String.concat "" (map (export_line cell_text) (visibleRows dom)))%string.
Proof. unfold exportCSV. now rewrite append_lines, append_assoc. Qed.

(** X18.  The text that [exportCSV] makes, read back as CSV, is the row
    of the five column names and then, for each row of the page without
    the class [hidden], one row of five fields: its service, the texts of
    its first three cells and its region, unchanged whatever characters
    they hold. *)
Theorem export_reads_back (dom : list dom_section) :
  rows_of (exportCSV cell_text dom)
  = ["Service"; "Type"; "Name"; "ID/ARN"; "Region"]
    :: map (export_data cell_text) (visibleRows dom).
Proof.
  rewrite exportCSV_unfold. unfold rows_of.
  change (read ("Service,Type,Name,ID/ARN,Region" ++ PyStr.lf ++ ?rest)
               StartRecord EmptyString [])
    with (["Service"; "Type"; "Name"; "ID/ARN"; "Region"]
          :: read rest StartRecord EmptyString []).
  f_equal. induction (visibleRows dom) as [|row rows IH]; [reflexivity|].
  cbn [map]. rewrite concat_cons, read_export_line. now rewrite IH.
Qed.
End Download.

End ExportFacts.

(** ** Tags and search text, from the record to the test *)

Module MatchFacts.
Import Script PyStrFacts MarkFacts.

Lemma split_plain c x :
  PyStr.contains_char c x = false -> PyStr.split c x = [x].
Proof.
  induction x as [|a x IH]; [reflexivity|].
  cbn [PyStr.contains_char PyStr.split]. intros H.
  apply orb_false_iff in H. destruct H as [E H]. rewrite E, IH by exact H.
  reflexivity.
Qed.

Lemma split_app_sep c x rest :
  PyStr.contains_char c x = false ->
  PyStr.split c (x ++ String c rest) = x :: PyStr.split c rest.
Proof.
  induction x as [|a x IH].
  - intros _. cbn [append PyStr.split]. now rewrite Ascii.eqb_refl.
  - cbn [PyStr.contains_char append PyStr.split]. intros H.
    apply orb_false_iff in H. destruct H as [E H]. rewrite E, IH by exact H.
    reflexivity.
Qed.

(** What ['|'.join] puts together, [split('|')] takes apart. *)
Lemma split_join c (l : list string) :
  l <> [] ->
  forallb (fun s => negb (PyStr.contains_char c s)) l = true ->
  PyStr.split c (PyStr.join (String c EmptyString) l) = l.
Proof.
  induction l as [|x l IH]; [congruence|]. intros _ F.
  cbn [forallb] in F. apply andb_true_iff in F. destruct F as [Fx F].
  apply negb_true_iff in Fx.
  destruct l as [|y l].
  - cbn [PyStr.join String.concat]. now apply split_plain.
  - rewrite CsvReaderFacts.join_cons2. cbn [append].
    rewrite split_app_sep by exact Fx. f_equal. apply IH; [discriminate | exact F].
Qed.

(** The letters of a text and of its occurrences keep step under
    [lower]. *)
Lemma includes_lower hay needle :
  includes hay needle = true ->
  includes (PyStr.lower hay) (PyStr.lower needle) = true.
Proof.
  unfold includes, indexOf. intros H.
  destruct (String.index 0 needle hay) as [m|] eqn:I; [clear H | discriminate].
  destruct (String.index 0 (PyStr.lower needle) (PyStr.lower hay)) eqn:J;
    [reflexivity | exfalso].
  destruct needle as [|c needle].
  - destruct (PyStr.lower hay); discriminate.
  - apply (index_correct3 _ m _ _ J); [discriminate | lia |].
    rewrite length_lower. unfold PyStr.lower. rewrite <- map_chars_substring.
    now rewrite (index_correct1 _ _ _ _ I).
Qed.

End MatchFacts.

Section MatchTheorems.
Context {pyobj : Type}.
Variable py_str : pyobj -> string.
Variable py_kind : pyobj -> @pykind pyobj.
Variable json_dumps_value : pyobj -> string.
Local Abbreviation resource := (@resource pyobj).
Local Abbreviation build_row' := (build_row py_str py_kind json_dumps_value).
Import Script MatchFacts.

(** X19.  For a record whose tags hold no [|], the list that the tag test
    splits out of [data-tags] is the list of the record's [key=value]
    texts, so a chosen tag keeps the row exactly when the record has a tag
    that prints as the chosen text; with no tag chosen every row is
    kept. *)
Theorem tag_test_finds_the_tags_of_the_record
  (service_name : string) (r : resource) (tag : string) :
  forallb (fun kv => negb (PyStr.contains_char "|" (tag_pair kv)))
          (items (get_tags r)) = true ->
  (get_tags r <> [] ->
   PyStr.split "|" (row_tags (build_row' service_name r))
   = map tag_pair (items (get_tags r)))
  /\ matchTag tag (build_row' service_name r)
     = negb (PyStr.truthy tag)
       || existsb (String.eqb tag) (map tag_pair (items (get_tags r))).
Proof.
  intros F.
  assert (S : get_tags r <> [] ->
              PyStr.split "|" (row_tags (build_row' service_name r))
              = map tag_pair (items (get_tags r))).
  { intros N. unfold build_row. cbn [row_tags]. unfold items in *.
    destruct (get_tags r) as [|kv tags] eqn:E; [congruence|].
    cbn [truthy]. apply split_join; [discriminate|].
    rewrite forallb_forall in *. intros s I. apply in_map_iff in I.
    destruct I as [kv' [<- I]]. now apply F. }
  split; [exact S|].
  unfold matchTag, list_includes.
  destruct (get_tags r) as [|kv tags] eqn:E.
  - unfold build_row. cbn [row_tags]. rewrite E. cbn.
    destruct (String.eqb_spec tag ""); [subst; reflexivity|].
    unfold PyStr.truthy. destruct (String.eqb_spec tag ""); [contradiction|].
    reflexivity.
  - assert (T : PyStr.truthy (row_tags (build_row' service_name r)) = true).
    { unfold build_row. cbn [row_tags]. rewrite E. cbn [truthy items map].
      destruct tags; cbn; destruct kv as [[|a k] v]; reflexivity. }
    rewrite T, S by discriminate. reflexivity.
Qed.

(** X20.  Within ASCII the search ignores the case of letters: a text
    that occurs in a name or in an id within ASCII, typed within ASCII as
    it stands or with other capitals in either of them, passes the text
    test of the record's row. *)
Theorem search_ignores_letter_case
  (service_name : string) (r : resource) (typed text : string) :
  is_ascii typed = true ->
  PyStr.lower typed = PyStr.lower text ->
  (is_ascii (get_str (res_id r)) = true
   /\ includes (get_str (res_id r)) text = true)
  \/ (exists name, res_name r = Value name /\ is_ascii name = true
                   /\ includes name text = true) ->
  matchSearch (PyStr.lower typed) (build_row' service_name r) = true.
Proof.
  intros _ -> H. unfold matchSearch, build_row. cbn [row_name row_id].
  destruct H as [[_ H] | [name [-> [_ H]]]]; apply includes_lower in H.
  - rewrite H. now rewrite !orb_true_r.
  - cbn [field_get str_of]. rewrite H. now rewrite !orb_true_r.
Qed.

End MatchTheorems.

(** ** The dashboard against the statistics of the report *)

Module TallyFacts.
Import PyDictFacts FilterFacts Dashboard.

Lemma length_filter_perm {A : Type} (p : A -> bool) (l1 l2 : list A) :
  Permutation l1 l2 -> List.length (filter p l1) = List.length (filter p l2).
Proof.
  induction 1 as [|x l1 l2 _ IH|x y l|l1 l2 l3 _ IH1 _ IH2]; simpl.
  - reflexivity.
  - destruct (p x); simpl; congruence.
  - destruct (p x), (p y); reflexivity.
  - congruence.
Qed.

Lemma length_filter_map {A B : Type} (g : A -> B) (p : B -> bool) (l : list A) :
  List.length (filter p (map g l)) = List.length (filter (fun a => p (g a)) l).
Proof.
  induction l as [|a l IH]; simpl; [reflexivity|].
  destruct (p (g a)); simpl; congruence.
Qed.

Lemma datasets_skeleton d1 : forall d2,
  skeleton d1 = skeleton d2 ->
  map dataset (flat_map sec_rows d1) = map dataset (flat_map sec_rows d2).
Proof.
  unfold skeleton. induction d1 as [|s1 d1 IH]; intros [|s2 d2]; simpl;
    try discriminate; [reflexivity|].
  intros [= _ R E]. rewrite !map_app, R. f_equal. now apply IH.
Qed.

(** What a counter holds under [k] once [n] rows with the key [k] have
    been gone through. *)
Definition held (k : string) (n : nat) : option tally :=
  match n with
  | 0 => None
  | S _ => if String.eqb k "__proto__" then None
           else Some (if inherited k then Glued else Num n)
  end.

Lemma get_count_step (key : dom_row -> string) counts row k :
  get k (count_step key counts row)
  = if String.eqb (key row) k && negb (String.eqb k "__proto__")
    then Some (bump k (get k counts))
    else get k counts.
Proof.
  unfold count_step. cbv zeta.
  destruct (String.eqb_spec (key row) k) as [-> | N]; cbn [andb].
  - destruct (String.eqb k "__proto__"); cbn [negb]; [reflexivity|].
    apply get_set_same.
  - destruct (String.eqb (key row) "__proto__"); [reflexivity|].
    now apply get_set_other.
Qed.

Lemma get_counts_from (key : dom_row -> string) k : forall rows counts n,
  get k counts = held k n ->
  get k (fold_left (count_step key) rows counts)
  = held k (n + List.length (filter (fun row => String.eqb (key row) k) rows)).
Proof.
  induction rows as [|row rows IH]; intros counts n G; cbn [fold_left filter].
  - now rewrite Nat.add_0_r.
  - destruct (String.eqb (key row) k) eqn:E.
    + cbn [List.length]. rewrite Nat.add_succ_r. apply (IH _ (S n)).
      rewrite get_count_step, E, G. cbn [andb held].
      destruct (String.eqb k "__proto__") eqn:P; cbn [negb].
      * destruct n; cbn [held]; rewrite ?P; reflexivity.
      * destruct n as [|n]; cbn [held bump]; [reflexivity|]. rewrite P.
        cbn [bump]. destruct (inherited k); [reflexivity|].
        now rewrite Nat.add_1_r.
    + apply IH. rewrite get_count_step, E. exact G.
Qed.

(** A counter of the dashboard, under a key, after the rows. *)
Lemma get_counts (key : dom_row -> string) (rows : list dom_row) k :
  get k (fold_left (count_step key) rows [])
  = held k (List.length (filter (fun row => String.eqb (key row) k) rows)).
Proof. now rewrite (get_counts_from key k rows [] 0). Qed.

End TallyFacts.

Section DashboardTheorems.
Context {pyobj : Type}.
Variable py_str : pyobj -> string.
Variable py_kind : pyobj -> @pykind pyobj.
Variable json_dumps_value : pyobj -> string.
Local Abbreviation resource := (@resource pyobj).
Local Abbreviation build_row' := (build_row py_str py_kind json_dumps_value).
Local Abbreviation initial_dom' := (initial_dom py_str py_kind json_dumps_value).
Import Script FilterFacts Buttons Page PassFacts PageEventFacts.
Import Dashboard DashboardFacts TallyFacts.
Implicit Types (resources : list resource) (events : list event).

Lemma tally_after_clear resources events (f : dom_row -> string)
  (g : resource -> string) (of_dataset : _ -> string) k :
  (forall row, f row = of_dataset (dataset row)) ->
  (forall r, f (build_row' (service_key r) r) = g r) ->
  List.length (filter (fun row => String.eqb (f row) k)
                 (visibleRows (clearFilters (run events (initial_dom' resources)))))
  = List.length (filter (fun r => String.eqb (g r) k) resources).
Proof.
  intros D B.
  destruct (clear_shows_all (run events (initial_dom' resources))) as [-> _].
  assert (K : skeleton (clearFilters (run events (initial_dom' resources)))
              = skeleton (initial_dom' resources)).
  { unfold clearFilters. rewrite skeleton_filterResources.
    apply (run_same events). }
  apply datasets_skeleton in K.
  rewrite (filter_ext _ (fun row => String.eqb (of_dataset (dataset row)) k))
    by (intros row; now rewrite D).
  rewrite <- (length_filter_map dataset (fun d => String.eqb (of_dataset d) k)), K.
  rewrite length_filter_map.
  rewrite (length_filter_perm _ _ _
             (PageFacts.rows_of_initial_dom_perm
                py_str py_kind json_dumps_value resources)).
  rewrite length_filter_map. f_equal. apply filter_ext.
  intros r. now rewrite <- D, B.
Qed.

(** X21.  Whatever was done to the loaded page, after Clear the dashboard
    counts what the report was built with: under each service as many rows
    as [format_html] grouped records under it, and under each region the
    count that [format_html] kept for it.  The names that a JavaScript
    object inherits are the exception: under [__proto__] nothing is ever
    stored, and under the others ([constructor], [toString], ...) the
    counter holds a text, not a number. *)
Theorem dashboard_after_clear_counts_the_records resources events :
  let dom := clearFilters (run events (initial_dom' resources)) in
  (forall k,
     PyDict.get k (serviceCounts dom)
     = match PyDict.get k (group_by_service resources) with
       | Some records =>
           if String.eqb k "__proto__" then None
           else Some (if inherited k then Glued else Num (List.length records))
       | None => None
       end)
  /\ (forall k,
        PyDict.get k (regionCounts dom)
        = match PyDict.get k (group_by_region resources) with
          | Some count =>
              if String.eqb k "__proto__" then None
              else Some (if inherited k then Glued else Num count)
          | None => None
          end).
Proof.
  cbv zeta. unfold serviceCounts, regionCounts. split.
  - intros k. rewrite get_counts, get_group_by_service.
    rewrite (tally_after_clear resources events row_service service_key
               (fun d => fst (fst (fst (fst (fst d))))) k);
      [|reflexivity|reflexivity].
    now destruct (filter _ resources).
  - intros k. rewrite get_counts, get_group_by_region.
    rewrite (tally_after_clear resources events row_region region_key
               (fun d => snd (fst (fst (fst (fst d))))) k);
      [|reflexivity|reflexivity].
    now destruct (filter _ resources).
Qed.

End DashboardTheorems.

(** ** The theorems with a precondition, on the records of the scenario *)

Module ScenarioPage.
Import Script Buttons Page Scenario.

Definition clicks : list event :=
  [ToggleSection 0; ExpandAll; ToggleDetails 0 0; ToggleSection 1; CollapseAll;
   ToggleSection 1].

Definition prod : controls :=
  {| searchBox := "I-1"; serviceFilter := ""; regionFilter := "";
     tagFilter := "env=prod" |}.

Definition cells_of_two_tags : list holder :=
  row_cells (build_row show kind show "ec2" two_tags).

Lemma marks_are_the_matches_witness :
  is_ascii "pro" = true
  /\ is_ascii "Prod-approver" = true
  /\ "pro" <> EmptyString
  /\ Forall (fun n =>
               match n with
               | Mark p => PyStr.lower p = PyStr.lower "pro"
               | Text p => includes (PyStr.lower p) (PyStr.lower "pro") = false
               end)
            (mark_text "pro" "Prod-approver")
  /\ textContent (mark_text "pro" "Prod-approver") = "Prod-approver".
Proof.
  assert (Aq : is_ascii "pro" = true) by reflexivity.
  assert (At : is_ascii "Prod-approver" = true) by reflexivity.
  assert (N : "pro" <> EmptyString) by discriminate.
  split; [exact Aq|]. split; [exact At|]. split; [exact N|].
  exact (MarkFacts.marks_are_the_matches "pro" "Prod-approver" Aq At N).
Defined.

Lemma highlights_do_not_pile_up_witness :
  HolderFacts.plain cells_of_two_tags = true
  /\ highlightMatches (highlightMatches cells_of_two_tags "e") "web"
     = highlightMatches cells_of_two_tags "web"
  /\ clearHighlights (highlightMatches cells_of_two_tags "e") = cells_of_two_tags.
Proof.
  assert (P : HolderFacts.plain cells_of_two_tags = true) by reflexivity.
  destruct (HolderFacts.highlights_do_not_pile_up cells_of_two_tags "e" "web" P)
    as [A [B _]].
  split; [exact P|]. split; assumption.
Defined.


Lemma collapse_all_undoes_the_clicks_witness :
  forallb PageEventFacts.is_button clicks = true
  /\ collapseAll (run clicks (initial_dom show kind show records))
     = initial_dom show kind show records.
Proof.
  assert (B : forallb PageEventFacts.is_button clicks = true) by reflexivity.
  split; [exact B|].
  exact (collapse_all_undoes_the_clicks show kind show records clicks B).
Defined.

Lemma tag_test_finds_the_tags_of_the_record_witness :
  forallb (fun kv => negb (PyStr.contains_char "|" (tag_pair kv)))
          (PyDict.items (get_tags two_tags)) = true
  /\ PyStr.split "|" (row_tags (build_row show kind show "ec2" two_tags))
     = ["env=prod"; "team=core"]
  /\ matchTag "team=core" (build_row show kind show "ec2" two_tags) = true
  /\ matchTag "team" (build_row show kind show "ec2" two_tags) = false.
Proof.
  assert (F : forallb (fun kv => negb (PyStr.contains_char "|" (tag_pair kv)))
                      (PyDict.items (get_tags two_tags)) = true) by reflexivity.
  assert (N : get_tags two_tags <> []) by discriminate.
  split; [exact F|]. split; [|split].
  - destruct (tag_test_finds_the_tags_of_the_record
                show kind show "ec2" two_tags "team=core" F) as [S _].
    rewrite (S N). reflexivity.
  - destruct (tag_test_finds_the_tags_of_the_record
                show kind show "ec2" two_tags "team=core" F) as [_ M].
    rewrite M. reflexivity.
  - destruct (tag_test_finds_the_tags_of_the_record
                show kind show "ec2" two_tags "team" F) as [_ M].
    rewrite M. reflexivity.
Defined.

Lemma search_ignores_letter_case_witness :
  is_ascii "WeB" = true
  /\ PyStr.lower "WeB" = PyStr.lower "web"
  /\ ((is_ascii (get_str (res_id two_tags)) = true
       /\ includes (get_str (res_id two_tags)) "web" = true)
      \/ (exists name, res_name two_tags = Value name /\ is_ascii name = true
                       /\ includes name "web" = true))
  /\ matchSearch (PyStr.lower "WeB") (build_row show kind show "ec2" two_tags) = true.
Proof.
  assert (A : is_ascii "WeB" = true) by reflexivity.
  assert (L : PyStr.lower "WeB" = PyStr.lower "web") by reflexivity.
  assert (O : (is_ascii (get_str (res_id two_tags)) = true
               /\ includes (get_str (res_id two_tags)) "web" = true)
              \/ (exists name, res_name two_tags = Value name /\ is_ascii name = true
                               /\ includes name "web" = true)).
  { right. exists "web". repeat split; reflexivity. }
  split; [exact A|]. split; [exact L|]. split; [exact O|].
  exact (search_ignores_letter_case show kind show "ec2" two_tags "WeB" "web" A L O).
Defined.

Lemma format_detail_key_witness :
  is_ascii "instance_type" = true
  /\ DetailKey.format_detail_key "instance_type" = "Instance Type"
  /\ String.length (DetailKey.format_detail_key "instance_type")
     = String.length "instance_type"
  /\ PyStr.contains_char "_" (DetailKey.format_detail_key "instance_type") = false.
Proof.
  assert (A : is_ascii "instance_type" = true) by reflexivity.
  destruct (DetailFacts.format_detail_key_changes_case_and_underscores_only
              "instance_type" A) as [L [U _]].
  split; [exact A|]. split; [reflexivity|]. split; [exact L | exact U].
Defined.

End ScenarioPage.

(** ** A record whose tags are null *)

Module ScenarioErrors.
Import Scenario.

(** The instance of the scenario with its key [tags] bound to [None]. *)
Definition null_tags : @Loose.record string :=
  {| Loose.rec_service := Value "ec2"; Loose.rec_type := Some "instance";
     Loose.rec_id := Some "i-1"; Loose.rec_name := Absent;
     Loose.rec_region := Value "us-east-1"; Loose.rec_arn := Absent;
     Loose.rec_is_default := None; Loose.rec_tags := Null;
     Loose.rec_details := None |}.

Definition data : @Loose.document string :=
  {| Loose.doc_metadata := Absent; Loose.doc_resources := Value [null_tags] |}.

(** [json.dumps] on values that are strings never raises. *)
Definition dumps (v : string) : Loose.result := Loose.Returned v.

Definition call (format_type : string) : Loose.result :=
  Loose.format_output show kind dumps (fun _ => "") (fun _ => Loose.Returned "")
                      data format_type.


End ScenarioErrors.
